(** * Pickup dispatch and route optimisation: a shallow embedding

    The development follows the TypeScript services of the waste-bin backend:
    - [pickupService.ts]  (createPickup, updatePickupStatus, cancelPickup,
      findBestAvailableDriver, calculateScheduledTime),
    - [pickupSchedulerService.ts] (checkAndCreateAutomaticPickups),
    - [routeOptimizationService.ts] (optimizePickupRoute,
      nearestNeighborOptimization),
    - [driverService.ts] (getNearbyDrivers).

    Conventions of the embedding.
    - The coordinates and fill levels stored in the database are decimals,
      here real numbers.  The services turn a coordinate into a JavaScript
      number with [Number(...)] before they compute with it.
    - The computed distances that steer a search or are added up (the
      nearest-driver search, the nearest-neighbour order and the totals of a
      route) are the doubles the program computes, with their rounding and
      with NaN: the binary64 numbers of Rocq ([Double]).  What the language
      leaves to the implementation ([Math.sin], [Math.cos], [Math.atan2]),
      [Math.round] and [Number(...)] are the components of a [Runtime], of
      which nothing is assumed.
    - Elsewhere (fill levels, the radius query, durations and arrival times)
      a number is idealised as a real number, and [Geo.calculateDistance] is
      the great-circle formula of the helper in exact arithmetic.
    - A [Date] is its [getTime()] value, an integer number of milliseconds.
    - A Prisma table is a finite map from the primary key [id] to the other
      columns of the row.
    - An [async] method that reads and writes the database is a function in
      the state-and-exception monad [DB]; writes already performed are kept
      when a later statement throws, as these services open no transaction.
      A write statement may be rejected by the database client: the field
      [outage] of the database says after how many more writes it does.
    - The value of [new Date()] is the argument [now] of an operation. *)

From Stdlib Require Import PrimFloat.
From Stdlib Require Uint63.
From Stdlib Require Import Reals Lra Lia ZArith Ascii String.
From stdpp Require Import base option list gmap strings sorting.

Set Default Proof Using "Type".

(** ** Numbers and the great-circle distance *)

Module Geo.
Local Open Scope R_scope.

(** [Math.atan2(y, x)] on real arguments. *)
Definition atan2 (y x : R) : R :=
  if Rlt_dec 0 x then atan (y / x)
  else if Rlt_dec x 0 then
    (if Rle_dec 0 y then atan (y / x) + PI else atan (y / x) - PI)
  else if Rlt_dec 0 y then PI / 2
  else if Rlt_dec y 0 then - (PI / 2)
  else 0.

(** [Math.round(x)]: the integer nearest to [x], halves going up. *)
Definition Math_round (x : R) : Z := Zfloor (x + / 2).

(** [new Date(ms)] keeps the integral part of a millisecond count. *)
Definition truncate (x : R) : Z :=
  if Rle_dec 0 x then Zfloor x else (- Zfloor (- x))%Z.

Definition deg2rad (deg : R) : R := deg * (PI / 180).

(** [calculateDistance] is the private helper repeated word for word in
    pickupService.ts, routeOptimizationService.ts and driverService.ts;
    the result is in kilometres. *)
Definition calculateDistance (lat1 lng1 lat2 lng2 : R) : R :=
  let R := 6371 in
  let dLat := deg2rad (lat2 - lat1) in
  let dLng := deg2rad (lng2 - lng1) in
  let a :=
    sin (dLat / 2) * sin (dLat / 2) +
    cos (deg2rad lat1) * cos (deg2rad lat2) *
    sin (dLng / 2) * sin (dLng / 2) in
  let c := 2 * atan2 (sqrt a) (sqrt (1 - a)) in
  R * c.

(** The [{ latitude, longitude }] objects of the services. *)
Record Coordinates := { latitude : R; longitude : R }.

End Geo.

(** ** Doubles *)

(** What the services take from the JavaScript runtime: [Number(x)], the
    double of a stored decimal, and the functions of [Math].  The arithmetic
    operations, the square root and the comparisons of doubles are those of
    IEEE 754, the primitive ones of Rocq. *)
Class Runtime := {
  Number : R -> float;
  Math_sin : float -> float;
  Math_cos : float -> float;
  Math_atan2 : float -> float -> float;
  Math_round : float -> float
}.

Module Double.
Section Helpers.
Context {rt : Runtime}.
Local Open Scope float_scope.

(** [Math.PI]. *)
Definition Math_PI : float := 0x1.921fb54442d18p+1.

(** [Math.sqrt]. *)
Definition Math_sqrt (x : float) : float := PrimFloat.sqrt x.

Definition deg2rad (deg : float) : float := deg * (Math_PI / 180).

(** [calculateDistance], as the three services have it, on doubles. *)
Definition calculateDistance (lat1 lng1 lat2 lng2 : float) : float :=
  let R := 6371 in
  let dLat := deg2rad (lat2 - lat1) in
  let dLng := deg2rad (lng2 - lng1) in
  let a :=
    Math_sin (dLat / 2) * Math_sin (dLat / 2) +
    Math_cos (deg2rad lat1) * Math_cos (deg2rad lat2) *
    Math_sin (dLng / 2) * Math_sin (dLng / 2) in
  let c := 2 * Math_atan2 (Math_sqrt a) (Math_sqrt (1 - a)) in
  R * c.

(** [GoogleMapsService.calculateHaversineDistance], in metres. *)
Definition calculateHaversineDistance (coord1 coord2 : Geo.Coordinates)
    : float :=
  let latitude1 := Number (Geo.latitude coord1) in
  let longitude1 := Number (Geo.longitude coord1) in
  let latitude2 := Number (Geo.latitude coord2) in
  let longitude2 := Number (Geo.longitude coord2) in
  let R := 6371000 in
  let phi1 := (latitude1 * Math_PI) / 180 in
  let phi2 := (latitude2 * Math_PI) / 180 in
  let dphi := ((latitude2 - latitude1) * Math_PI) / 180 in
  let dlambda := ((longitude2 - longitude1) * Math_PI) / 180 in
  let a :=
    Math_sin (dphi / 2) * Math_sin (dphi / 2) +
    Math_cos phi1 * Math_cos phi2 *
    Math_sin (dlambda / 2) * Math_sin (dlambda / 2) in
  let c := 2 * Math_atan2 (Math_sqrt a) (Math_sqrt (1 - a)) in
  R * c.

(** The double of a length, as in [pickups.length * 5]. *)
Definition ofNat (n : nat) : float :=
  of_uint63 (Uint63.of_Z (Z.of_nat n)).

End Helpers.
End Double.

(** Comparisons of numbers are decided as the conditions of the code are. *)
Global Instance Rle_decision (x y : R) : Decision (x <= y)%R := Rle_dec x y.
Global Instance Rlt_decision (x y : R) : Decision (x < y)%R := Rlt_dec x y.

(** ** Data model *)

(** Prisma enums, as the services use them. *)
Inductive PickupStatus := SCHEDULED | IN_PROGRESS | COMPLETED | CANCELLED.
Inductive DriverStatus := OFFLINE | ONLINE | BUSY | ON_BREAK.
Inductive UserRole := ADMIN | USER | DRIVER.
Inductive Priority := LOW | MEDIUM | HIGH | URGENT.

Module PickupType.
Inductive t := SCHEDULED | ON_DEMAND | EMERGENCY.
End PickupType.

Module BinStatus.
Inductive t := EMPTY | LOW | MEDIUM | HIGH | FULL | MAINTENANCE | OUT_OF_SERVICE.
End BinStatus.

Global Instance PickupStatus_eq_dec : EqDecision PickupStatus.
Proof. solve_decision. Defined.
Global Instance DriverStatus_eq_dec : EqDecision DriverStatus.
Proof. solve_decision. Defined.
Global Instance UserRole_eq_dec : EqDecision UserRole.
Proof. solve_decision. Defined.
Global Instance Priority_eq_dec : EqDecision Priority.
Proof. solve_decision. Defined.

(** A row of the [bin] table.  The primary key [id] of a row is the key
    under which its table stores it; a row read from a table is a pair
    [(id, columns)]. *)
Module Bin.
Record t := {
  binCode : string;
  location : string;
  latitude : R;
  longitude : R;
  currentLevel : R;
  status : BinStatus.t;
  lastEmptied : option Z;
  isActive : bool;
  userId : option string
}.
End Bin.

(** A row of the [driver] table joined with the [user] relation
    ([driver.user.isActive], [driver.user.fullName]). *)
Module Driver.
Record t := {
  userId : string;
  status : DriverStatus;
  isAvailable : bool;
  currentLatitude : option R;
  currentLongitude : option R;
  user_isActive : bool;
  user_fullName : string
}.
End Driver.

(** A row of the [pickup] table: the columns the services read and write.
    The timestamps [createdAt] and [updatedAt] are maintained by the database
    itself and are not part of the model. *)
Module Pickup.
Record t := {
  binId : string;
  driverId : option string;
  createdById : string;
  status : PickupStatus;
  scheduledAt : option Z;
  startedAt : option Z;
  completedAt : option Z;
  notes : option string
}.
End Pickup.

Module Route.
Record t := {
  driverId : string;
  routeName : string;
  totalDistance : float;
  estimatedDuration : float;
  status : string
}.
End Route.

Module RouteStop.
Record t := {
  routeId : string;
  binId : string;
  stopOrder : nat;
  estimatedArrival : Z;
  status : PickupStatus
}.
End RouteStop.

(** The error objects thrown by the services: [new Error(message)] with an
    optional [statusCode]; a failure of the database client carries none. *)
Module AppError.
Record t := { message : string; statusCode : option Z }.
End AppError.

(** The error kinds of the specification, read off the status code. *)
Inductive ErrorKind := NotFound | Forbidden | InvalidState | Internal.

Definition errorKind (e : AppError.t) : ErrorKind :=
  match AppError.statusCode e with
  | Some 404%Z => NotFound
  | Some 403%Z => Forbidden
  | Some 400%Z => InvalidState
  | _ => Internal
  end.

(** The database: one finite map per table, and the number of further write
    statements the database accepts before its client starts rejecting them
    ([None]: no outage). *)
Record World := {
  bins : gmap string Bin.t;
  drivers : gmap string Driver.t;
  pickups : gmap string Pickup.t;
  routes : gmap string Route.t;
  routeStops : gmap string RouteStop.t;
  outage : option nat
}.

(** ** The monad of database programs *)

Inductive Outcome (A : Type) :=
| Ok (a : A)
| Throw (e : AppError.t).
Global Arguments Ok {A} a.
Global Arguments Throw {A} e.

Definition DB (A : Type) : Type := World -> Outcome A * World.

Global Instance DB_ret : MRet DB := fun A a w => (Ok a, w).
Global Instance DB_bind : MBind DB := fun A B f m w =>
  match m w with
  | (Ok a, w') => f a w'
  | (Throw e, w') => (Throw e, w')
  end.

Definition throw {A} (e : AppError.t) : DB A := fun w => (Throw e, w).
Definition gets {A} (f : World -> A) : DB A := fun w => (Ok (f w), w).

(** [try { m } catch (error) { h error }]. *)
Definition try_catch {A} (m : DB A) (h : AppError.t -> DB A) : DB A := fun w =>
  match m w with
  | (Ok a, w') => (Ok a, w')
  | (Throw e, w') => h e w'
  end.

Definition httpError {A} (msg : string) (code : Z) : DB A :=
  throw {| AppError.message := msg; AppError.statusCode := Some code |}.

Definition clientError : AppError.t :=
  {| AppError.message := "database request failed"; AppError.statusCode := None |}.

(** One write statement: rejected during an outage, applied otherwise. *)
Definition commit (f : World -> World) : DB unit := fun w =>
  match outage w with
  | Some O => (Throw clientError, w)
  | Some (S n) =>
      let w' := f w in
      (Ok tt, {| bins := bins w'; drivers := drivers w'; pickups := pickups w';
                 routes := routes w'; routeStops := routeStops w';
                 outage := Some n |})
  | None => (Ok tt, f w)
  end.

(** The primary key the database gives a new row: a key not yet in use. *)
Fixpoint pad (n : nat) : string :=
  match n with O => EmptyString | S n => String "0"%char (pad n) end.

Definition newKey {A} (m : gmap string A) : string :=
  pad (S (max_list (String.length <$> (map_to_list m).*1))).

(** [findMany]: the rows of a table that satisfy the [where] clause. *)
Definition findMany {A} (m : gmap string A) (p : string * A -> bool)
    : list (string * A) :=
  filter (fun row => p row = true) (map_to_list m).

(** Typed update data: a field left [None] is [undefined] and keeps the
    stored value. *)
Module PickupData.
Record t := {
  status : option PickupStatus;
  notes : option string;
  startedAt : option Z;
  completedAt : option Z;
  driverId : option string
}.
Definition empty : t :=
  {| status := None; notes := None; startedAt := None; completedAt := None;
     driverId := None |}.
End PickupData.

Definition or_else {A} (new old : option A) : option A :=
  match new with Some _ => new | None => old end.

(** The test [if (id)] on an optional text: the id when it is present and
    not the empty text. *)
Definition truthyId (id : option string) : option string :=
  match id with
  | Some s => if bool_decide (s = EmptyString) then None else Some s
  | None => None
  end.

Definition applyPickupData (d : PickupData.t) (p : Pickup.t) : Pickup.t :=
  {| Pickup.binId := Pickup.binId p;
     Pickup.driverId := or_else (PickupData.driverId d) (Pickup.driverId p);
     Pickup.createdById := Pickup.createdById p;
     Pickup.status := default (Pickup.status p) (PickupData.status d);
     Pickup.scheduledAt := Pickup.scheduledAt p;
     Pickup.startedAt := or_else (PickupData.startedAt d) (Pickup.startedAt p);
     Pickup.completedAt := or_else (PickupData.completedAt d) (Pickup.completedAt p);
     Pickup.notes := or_else (PickupData.notes d) (Pickup.notes p) |}.

Definition setPickups (f : gmap string Pickup.t -> gmap string Pickup.t)
    (w : World) : World :=
  {| bins := bins w; drivers := drivers w; pickups := f (pickups w);
     routes := routes w; routeStops := routeStops w; outage := outage w |}.

Definition setBins (f : gmap string Bin.t -> gmap string Bin.t)
    (w : World) : World :=
  {| bins := f (bins w); drivers := drivers w; pickups := pickups w;
     routes := routes w; routeStops := routeStops w; outage := outage w |}.

(** [prisma.pickup.update({ where: { id }, data })]; Prisma rejects the update
    of a row that does not exist. *)
Definition pickup_update (id : string) (d : PickupData.t) : DB unit :=
  row ← gets (fun w => pickups w !! id);
  match row with
  | None => throw clientError
  | Some _ => commit (setPickups (alter (applyPickupData d) id))
  end.

(** [prisma.pickup.updateMany({ where: { id: { in: ids } }, data })]. *)
Definition pickup_updateMany (ids : list string) (d : PickupData.t) : DB unit :=
  commit (setPickups (map_imap (fun id p =>
    Some (if bool_decide (id ∈ ids) then applyPickupData d p else p)))).

(** [prisma.pickup.create({ data })]: the row is stored under a new key. *)
Definition pickup_create (row : Pickup.t) : DB (string * Pickup.t) :=
  id ← gets (fun w => newKey (pickups w));
  _ ← commit (setPickups (insert id row));
  mret (id, row).

(** The [data] of the bin update of [updatePickupStatus]. *)
Definition emptied (now : Z) (b : Bin.t) : Bin.t :=
  {| Bin.binCode := Bin.binCode b;
     Bin.location := Bin.location b;
     Bin.latitude := Bin.latitude b; Bin.longitude := Bin.longitude b;
     Bin.currentLevel := 0%R;
     Bin.status := BinStatus.EMPTY;
     Bin.lastEmptied := Some now;
     Bin.isActive := Bin.isActive b; Bin.userId := Bin.userId b |}.

(** [prisma.bin.update({ where: { id }, data })]. *)
Definition bin_update (id : string) (f : Bin.t -> Bin.t) : DB unit :=
  row ← gets (fun w => bins w !! id);
  match row with
  | None => throw clientError
  | Some _ => commit (setBins (alter f id))
  end.

(** ** pickupService.ts *)

Module PickupResponse.
Record t := {
  id : string;
  status : PickupStatus;
  priority : Priority;
  pickupType : PickupType.t;
  scheduledAt : option Z;
  startedAt : option Z;
  completedAt : option Z;
  notes : option string;
  bin : string * Bin.t;
  driver : option (string * Driver.t);
  createdBy : string;
  actualDuration : option Z
}.
End PickupResponse.

(** The [{ success, message }] acknowledgement of the write operations. *)
Module Ack.
Record t := { success : bool; message : string }.
End Ack.

Module CreatePickupRequest.
Record t := {
  binId : string;
  driverId : option string;
  scheduledAt : option Z;
  priority : option Priority;
  notes : option string;
  pickupType : option PickupType.t
}.
End CreatePickupRequest.

Module PickupStatusUpdate.
Record t := {
  status : PickupStatus;
  notes : option string;
  location : option Geo.Coordinates
}.
End PickupStatusUpdate.

(** [formatPickupResponse(pickup, priority, pickupType)]; [bin] and [driver]
    are the rows the query joined in through [include]. *)
Definition formatPickupResponse (pickup : string * Pickup.t)
    (bin : string * Bin.t) (driver : option (string * Driver.t))
    (priority : Priority) (pickupType : PickupType.t) : PickupResponse.t :=
  let actualDuration :=
    match Pickup.startedAt pickup.2, Pickup.completedAt pickup.2 with
    | Some s, Some c => Some (Geo.Math_round (IZR (c - s) / (1000 * 60)))
    | _, _ => None
    end in
  {| PickupResponse.id := pickup.1;
     PickupResponse.status := Pickup.status pickup.2;
     PickupResponse.priority := priority;
     PickupResponse.pickupType := pickupType;
     PickupResponse.scheduledAt := Pickup.scheduledAt pickup.2;
     PickupResponse.startedAt := Pickup.startedAt pickup.2;
     PickupResponse.completedAt := Pickup.completedAt pickup.2;
     PickupResponse.notes := Pickup.notes pickup.2;
     PickupResponse.bin := bin;
     PickupResponse.driver := driver;
     PickupResponse.createdBy := Pickup.createdById pickup.2;
     PickupResponse.actualDuration := actualDuration |}.

(** The [include] of the pickup queries: the bin of the pickup, which the
    response dereferences, and the assigned driver if any. *)
Definition withRelations (pickup : string * Pickup.t) (priority : Priority)
    (pickupType : PickupType.t) : DB PickupResponse.t :=
  bin ← gets (fun w => bins w !! Pickup.binId pickup.2);
  driver ← gets (fun w =>
    Pickup.driverId pickup.2 ≫= (fun d => pair d <$> drivers w !! d));
  match bin with
  | None => throw clientError
  | Some b =>
      mret (formatPickupResponse pickup (Pickup.binId pickup.2, b) driver
              priority pickupType)
  end.

(** [prisma.driver.findUnique({ where: { userId } })]. *)
Definition driverOfUser (w : World) (userId : string)
    : option (string * Driver.t) :=
  head (findMany (drivers w)
          (fun d => bool_decide (Driver.userId d.2 = userId))).

Definition getPickupById (pickupId : string) (requestUserRole : UserRole)
    (requestUserId : string) : DB PickupResponse.t :=
  pickup ← gets (fun w => pickups w !! pickupId);
  match pickup with
  | None => httpError "Pickup not found" 404
  | Some pickup =>
      if bool_decide (requestUserRole = USER) &&
         negb (bool_decide (Pickup.createdById pickup = requestUserId))
      then httpError "Access denied" 403
      else
        _ ← (if bool_decide (requestUserRole = DRIVER) then
               driver ← gets (fun w => driverOfUser w requestUserId);
               match driver with
               | None => httpError "Access denied" 403
               | Some driver =>
                   if bool_decide (Pickup.driverId pickup = Some driver.1)
                   then mret tt
                   else httpError "Access denied" 403
               end
             else mret tt);
        withRelations (pickupId, pickup) MEDIUM PickupType.ON_DEMAND
  end.

(** [calculateScheduledTime(priority)], with [now] the value of [new Date()]. *)
Definition calculateScheduledTime (now : Z) (priority : Priority) : Z :=
  match priority with
  | URGENT => now + 30 * 60 * 1000
  | HIGH => now + 2 * 60 * 60 * 1000
  | MEDIUM => now + 4 * 60 * 60 * 1000
  | LOW => now + 24 * 60 * 60 * 1000
  end%Z.

(** A driver row together with its known position. *)
Definition locatedDriver (d : string * Driver.t)
    : option (string * Driver.t * Geo.Coordinates) :=
  match Driver.currentLatitude d.2, Driver.currentLongitude d.2 with
  | Some lat, Some lng =>
      Some (d, {| Geo.latitude := lat; Geo.longitude := lng |})
  | _, _ => None
  end.

(** The [where] clause of [findBestAvailableDriver], apart from the two
    [not: null] conditions that [locatedDriver] checks. *)
Definition eligibleDriver (d : string * Driver.t) : bool :=
  bool_decide (Driver.status d.2 = ONLINE) && Driver.isAvailable d.2 &&
  Driver.user_isActive d.2.

Definition availableDrivers (w : World)
    : list (string * Driver.t * Geo.Coordinates) :=
  omap locatedDriver (findMany (drivers w) eligibleDriver).

(** The distance computed for a driver:
    [calculateDistance(binLat, binLng, Number(driver.currentLatitude),
    Number(driver.currentLongitude))]. *)
Definition distanceTo {rt : Runtime} (binLat binLng : float)
    (d : string * Driver.t * Geo.Coordinates) : float :=
  Double.calculateDistance binLat binLng
    (Number (Geo.latitude d.2)) (Number (Geo.longitude d.2)).

(** The loop of [findBestAvailableDriver] over [availableDrivers.slice(1)]:
    the state is [(closestDriver, shortestDistance)]; the test
    [distance < shortestDistance] is the comparison of doubles, false when
    either side is NaN. *)
Definition closerDriver {rt : Runtime} (binLat binLng : float)
    (best : (string * Driver.t * Geo.Coordinates) * float)
    (driver : string * Driver.t * Geo.Coordinates)
    : (string * Driver.t * Geo.Coordinates) * float :=
  let distance := distanceTo binLat binLng driver in
  if (distance <? best.2)%float then (driver, distance) else best.

Definition findBestAvailableDriver {rt : Runtime} (w : World)
    (binLat binLng : float) : option string :=
  match availableDrivers w with
  | [] => None
  | first :: rest =>
      let closest :=
        foldl (closerDriver binLat binLng)
              (first, distanceTo binLat binLng first) rest in
      Some closest.1.1.1
  end.

(** The priority rule of [createPickup]. *)
Definition derivePriority (requested : option Priority) (currentLevel : R)
    : Priority :=
  let priority := default MEDIUM requested in
  if Rle_dec 95 currentLevel then URGENT
  else if Rle_dec 85 currentLevel then HIGH
  else priority.

Definition createPickup {rt : Runtime} (now : Z)
    (data : CreatePickupRequest.t)
    (requestUserRole : UserRole) (requestUserId : string)
    : DB PickupResponse.t :=
  bin ← gets (fun w => bins w !! CreatePickupRequest.binId data);
  match bin with
  | None => httpError "Bin not found" 404
  | Some bin =>
      if bool_decide (requestUserRole = USER) &&
         negb (bool_decide (Bin.userId bin = Some requestUserId))
      then httpError "You can only create pickups for your own bins" 403
      else
        _ ← match truthyId (CreatePickupRequest.driverId data) with
            | Some driverId =>
                driver ← gets (fun w => drivers w !! driverId);
                match driver with
                | Some d =>
                    if Driver.user_isActive d && Driver.isAvailable d
                    then mret tt
                    else httpError "Driver not found or not available" 400
                | None => httpError "Driver not found or not available" 400
                end
            | None => mret tt
            end;
        let currentLevel := Bin.currentLevel bin in
        assignedDriverId ←
          match truthyId (CreatePickupRequest.driverId data) with
          | Some driverId => mret (Some driverId)
          | None =>
              if Rle_dec 80 currentLevel
              then gets (fun w =>
                     truthyId (findBestAvailableDriver w
                                 (Number (Bin.latitude bin))
                                 (Number (Bin.longitude bin))))
              else mret (CreatePickupRequest.driverId data)
          end;
        let priority :=
          derivePriority (CreatePickupRequest.priority data) currentLevel in
        pickup ← pickup_create
          {| Pickup.binId := CreatePickupRequest.binId data;
             Pickup.driverId := assignedDriverId;
             Pickup.createdById := requestUserId;
             Pickup.status := SCHEDULED;
             Pickup.scheduledAt :=
               Some (default (calculateScheduledTime now priority)
                             (CreatePickupRequest.scheduledAt data));
             Pickup.startedAt := None;
             Pickup.completedAt := None;
             Pickup.notes := CreatePickupRequest.notes data |};
        withRelations pickup priority
          (default PickupType.ON_DEMAND (CreatePickupRequest.pickupType data))
  end.

Definition statusUpdated : Ack.t :=
  {| Ack.success := true; Ack.message := "Pickup status updated successfully" |}.

(** The [updateData] object of [updatePickupStatus] before the timestamps. *)
Definition statusData_update (statusData : PickupStatusUpdate.t) : PickupData.t :=
  {| PickupData.status := Some (PickupStatusUpdate.status statusData);
     PickupData.notes := PickupStatusUpdate.notes statusData;
     PickupData.startedAt := None;
     PickupData.completedAt := None;
     PickupData.driverId := None |}.

Definition withStartedAt (now : Z) (d : PickupData.t) : PickupData.t :=
  {| PickupData.status := PickupData.status d;
     PickupData.notes := PickupData.notes d;
     PickupData.startedAt := Some now;
     PickupData.completedAt := PickupData.completedAt d;
     PickupData.driverId := PickupData.driverId d |}.

Definition withCompletedAt (now : Z) (d : PickupData.t) : PickupData.t :=
  {| PickupData.status := PickupData.status d;
     PickupData.notes := PickupData.notes d;
     PickupData.startedAt := PickupData.startedAt d;
     PickupData.completedAt := Some now;
     PickupData.driverId := PickupData.driverId d |}.

(** [updatePickupStatus]: the bin update, when there is one, is awaited
    before the pickup update, each a statement of its own. *)
Definition updatePickupStatus (now : Z) (pickupId : string)
    (statusData : PickupStatusUpdate.t) (requestUserRole : UserRole)
    (requestUserId : string) : DB Ack.t :=
  existingPickup ← getPickupById pickupId requestUserRole requestUserId;
  let updateData := statusData_update statusData in
  updateData ←
    (if bool_decide (PickupStatusUpdate.status statusData = IN_PROGRESS) &&
        bool_decide (PickupResponse.startedAt existingPickup = None)
     then mret (withStartedAt now updateData)
     else if bool_decide (PickupStatusUpdate.status statusData = COMPLETED) &&
             bool_decide (PickupResponse.completedAt existingPickup = None)
     then
       _ ← bin_update (PickupResponse.bin existingPickup).1 (emptied now);
       mret (withCompletedAt now updateData)
     else mret updateData);
  _ ← pickup_update pickupId updateData;
  mret statusUpdated.

Definition pickupCancelled : Ack.t :=
  {| Ack.success := true; Ack.message := "Pickup cancelled successfully" |}.

Definition cancelPickup (pickupId : string) (reason : string)
    (requestUserRole : UserRole) (requestUserId : string) : DB Ack.t :=
  existingPickup ← getPickupById pickupId requestUserRole requestUserId;
  if bool_decide (PickupResponse.status existingPickup = COMPLETED)
  then httpError "Cannot cancel completed pickup" 400
  else
    _ ← pickup_update pickupId
          {| PickupData.status := Some CANCELLED;
             PickupData.notes := Some reason;
             PickupData.startedAt := None;
             PickupData.completedAt := None;
             PickupData.driverId := None |};
    mret pickupCancelled.

(** ** pickupSchedulerService.ts *)

Definition activeStatus (s : PickupStatus) : bool :=
  bool_decide (s = SCHEDULED) || bool_decide (s = IN_PROGRESS).

(** The pickups of a bin that are [SCHEDULED] or [IN_PROGRESS]. *)
Definition activePickupsOf (w : World) (binId : string)
    : list (string * Pickup.t) :=
  findMany (pickups w) (fun p =>
    bool_decide (Pickup.binId p.2 = binId) && activeStatus (Pickup.status p.2)).

(** The [where] clause of the scheduler's bin query:
    [currentLevel >= 80], [isActive], and no pending pickup. *)
Definition needsPickup (w : World) (bin : string * Bin.t) : bool :=
  bool_decide (80 <= Bin.currentLevel bin.2)%R &&
  Bin.isActive bin.2 &&
  bool_decide (activePickupsOf w bin.1 = []).

Definition fullBins (w : World) : list (string * Bin.t) :=
  findMany (bins w) (needsPickup w).

(** [for (const x of xs) { body(x) }]. *)
Fixpoint forEach {A} (xs : list A) (body : A -> DB unit) : DB unit :=
  match xs with
  | [] => mret tt
  | x :: xs => _ ← body x; forEach xs body
  end.

Section Scheduler.

Context {rt : Runtime}.

(** The text a template literal gives a number. *)
Variable numberToString : R -> string.

(** The priority the scheduler puts in its request. *)
Definition schedulerPriority (currentLevel : R) : Priority :=
  let priority := HIGH in
  if Rle_dec 95 currentLevel then URGENT
  else if Rle_dec 90 currentLevel then HIGH
  else priority.

Definition automaticNotes (currentLevel : R) : string :=
  "Automatic pickup - bin " +:+ numberToString currentLevel +:+ "% full".

Definition automaticRequest (bin : string * Bin.t) : CreatePickupRequest.t :=
  {| CreatePickupRequest.binId := bin.1;
     CreatePickupRequest.driverId := None;
     CreatePickupRequest.scheduledAt := None;
     CreatePickupRequest.priority :=
       Some (schedulerPriority (Bin.currentLevel bin.2));
     CreatePickupRequest.notes :=
       Some (automaticNotes (Bin.currentLevel bin.2));
     CreatePickupRequest.pickupType := Some PickupType.SCHEDULED |}.

(** [bin.userId || 'system']. *)
Definition requesterOf (bin : string * Bin.t) : string :=
  match Bin.userId bin.2 with
  | Some u => if bool_decide (u = EmptyString) then "system" else u
  | None => "system"
  end.

(** The body of the loop: a failed creation is logged and skipped. *)
Definition createAutomaticPickup (now : Z) (bin : string * Bin.t) : DB unit :=
  try_catch
    (_ ← createPickup now (automaticRequest bin) ADMIN (requesterOf bin);
     mret tt)
    (fun _ => mret tt).

Definition checkAndCreateAutomaticPickups (now : Z) : DB unit :=
  try_catch
    (fullBins ← gets fullBins;
     forEach fullBins (createAutomaticPickup now))
    (fun _ => mret tt).

End Scheduler.

(** ** routeOptimizationService.ts *)

(** An element of [optimizedPickups]. *)
Module Stop.
Record t := {
  pickupId : string;
  bin : string * Bin.t;
  latitude : R;
  longitude : R
}.
End Stop.

Definition stopLocation (s : Stop.t) : Geo.Coordinates :=
  {| Geo.latitude := Stop.latitude s; Geo.longitude := Stop.longitude s |}.

(** The great-circle distance from a position to a stop, in exact
    arithmetic. *)
Definition legDistance (from : Geo.Coordinates) (s : Stop.t) : R :=
  Geo.calculateDistance (Geo.latitude from) (Geo.longitude from)
    (Stop.latitude s) (Stop.longitude s).

(** The distance the program computes from a position to a stop:
    [calculateDistance] on the doubles of the coordinates. *)
Definition computedLeg {rt : Runtime} (from : Geo.Coordinates) (s : Stop.t)
    : float :=
  Double.calculateDistance
    (Number (Geo.latitude from)) (Number (Geo.longitude from))
    (Number (Stop.latitude s)) (Number (Stop.longitude s)).

(** The inner [for] loop of [nearestNeighborOptimization]; the state is
    [(nearestIndex, shortestDistance)] and the list carries the index [i];
    [distance < shortestDistance] compares doubles. *)
Definition nearerStop {rt : Runtime} (currentLocation : Geo.Coordinates)
    (best : nat * float) (entry : nat * Stop.t) : nat * float :=
  let distance := computedLeg currentLocation entry.2 in
  if (distance <? best.2)%float then (entry.1, distance) else best.

Definition nearestIndex {rt : Runtime} (currentLocation : Geo.Coordinates)
    (remaining : list Stop.t) : nat :=
  match remaining with
  | [] => 0
  | first :: rest =>
      (foldl (nearerStop currentLocation)
             (0%nat, computedLeg currentLocation first)
             (zip (seq 1 (length rest)) rest)).1
  end.

(** The [while (remaining.length > 0)] loop; the fuel bounds the number of
    iterations and [None] stands for a loop that has not finished. *)
Fixpoint nearestNeighborLoop {rt : Runtime} (fuel : nat)
    (currentLocation : Geo.Coordinates)
    (remaining optimized : list Stop.t) : option (list Stop.t) :=
  match remaining with
  | [] => Some optimized
  | _ :: _ =>
      match fuel with
      | O => None
      | S fuel =>
          let i := nearestIndex currentLocation remaining in
          match remaining !! i with
          | None => None
          | Some nearestPickup =>
              nearestNeighborLoop fuel (stopLocation nearestPickup)
                (delete i remaining) (optimized ++ [nearestPickup])
          end
      end
  end.

Definition nearestNeighborOptimization {rt : Runtime} (fuel : nat)
    (startLocation : Geo.Coordinates) (pickups : list Stop.t)
    : option (list Stop.t) :=
  nearestNeighborLoop fuel startLocation pickups [].

(** The loop that adds up the legs of a route, with state
    [(totalDistance, currentLocation)]; [totalDistance += distance] adds
    doubles. *)
Definition addLeg {rt : Runtime} (acc : float * Geo.Coordinates)
    (pickup : Stop.t) : float * Geo.Coordinates :=
  ((acc.1 + computedLeg acc.2 pickup)%float, stopLocation pickup).

Definition routeLength {rt : Runtime} (startLocation : Geo.Coordinates)
    (optimizedPickups : list Stop.t) : float :=
  (foldl addLeg (0%float, startLocation) optimizedPickups).1.

(** The three values the [try]/[catch] of [optimizePickupRoute] leaves:
    [optimizedPickups], [totalDistance], [estimatedDuration]. *)
Module Plan.
Record t := {
  optimizedPickups : list Stop.t;
  totalDistance : float;
  estimatedDuration : float
}.
End Plan.

(** The [catch] block: nearest-neighbour order, total of the legs, travel
    time at 30 km/h plus five minutes a stop. *)
Definition fallbackPlan {rt : Runtime} (startLocation : Geo.Coordinates)
    (pickups : list Stop.t) : option Plan.t :=
  optimizedPickups ←
    nearestNeighborOptimization (length pickups) startLocation pickups;
  let totalDistance := routeLength startLocation optimizedPickups in
  let travelTimeMinutes := (totalDistance / 30 * 60)%float in
  let pickupTimeMinutes :=
    (Double.ofNat (length optimizedPickups) * 5)%float in
  Some {| Plan.optimizedPickups := optimizedPickups;
          Plan.totalDistance := totalDistance;
          Plan.estimatedDuration :=
            Math_round (travelTimeMinutes + pickupTimeMinutes)%float |}.

(** The request and the answer of [GoogleMapsService.getRoute]. *)
Module RouteRequest.
Record t := {
  origin : Geo.Coordinates;
  destination : Geo.Coordinates;
  waypoints : list Geo.Coordinates
}.
End RouteRequest.

Module RouteStep.
Record t := { instruction : string; distance : float; duration : float }.
End RouteStep.

Module RouteResponse.
Record t := {
  distance : float;
  duration : float;
  polyline : string;
  steps : option (list RouteStep.t)
}.
End RouteResponse.

Module PickupRouteOptimization.
Record t := {
  driverId : string;
  pickupIds : list string;
  startLocation : option Geo.Coordinates
}.
End PickupRouteOptimization.

Module OptimizedStop.
Record t := {
  pickupId : string;
  order : nat;
  estimatedArrival : Z;
  bin : string * Bin.t
}.
End OptimizedStop.

Module OptimizedRoute.
Record t := {
  routeId : string;
  driverId : string;
  totalDistance : float;
  estimatedDuration : float;
  pickups : list OptimizedStop.t
}.
End OptimizedRoute.

Definition setRoutes (f : gmap string Route.t -> gmap string Route.t)
    (w : World) : World :=
  {| bins := bins w; drivers := drivers w; pickups := pickups w;
     routes := f (routes w); routeStops := routeStops w; outage := outage w |}.

Definition setRouteStops
    (f : gmap string RouteStop.t -> gmap string RouteStop.t)
    (w : World) : World :=
  {| bins := bins w; drivers := drivers w; pickups := pickups w;
     routes := routes w; routeStops := f (routeStops w); outage := outage w |}.

(** [prisma.route.create] and [prisma.routeStop.create]. *)
Definition route_create (row : Route.t) : DB (string * Route.t) :=
  id ← gets (fun w => newKey (routes w));
  _ ← commit (setRoutes (insert id row));
  mret (id, row).

Definition routeStop_create (row : RouteStop.t) : DB (string * RouteStop.t) :=
  id ← gets (fun w => newKey (routeStops w));
  _ ← commit (setRouteStops (insert id row));
  mret (id, row).

(** The [findMany] of [optimizePickupRoute]: the requested pickups that are
    [SCHEDULED], each joined with its bin. *)
Definition scheduledPickups (w : World) (pickupIds : list string)
    : list (string * Pickup.t) :=
  findMany (pickups w) (fun p =>
    bool_decide (p.1 ∈ pickupIds) &&
    bool_decide (Pickup.status p.2 = SCHEDULED)).

Definition toStop (w : World) (pickup : string * Pickup.t) : option Stop.t :=
  bin ← bins w !! Pickup.binId pickup.2;
  Some {| Stop.pickupId := pickup.1;
          Stop.bin := (Pickup.binId pickup.2, bin);
          Stop.latitude := Bin.latitude bin;
          Stop.longitude := Bin.longitude bin |}.

(** The instant of a stop reached from the previous one: travel at 30 km/h
    and five minutes of service, added to [currentTime]. *)
Definition arrivalAfter (currentTime : Z) (previous pickup : Stop.t) : Z :=
  let segmentDistance := legDistance (stopLocation previous) pickup in
  let travelTime := (segmentDistance / 30 * 60)%R in
  Geo.truncate (IZR currentTime + (travelTime + 5) * 60 * 1000)%R.

(** The loop that creates the route stops; [i] is the index of the first
    stop of [stops] and [previous] the stop before it, if any. *)
Fixpoint createRouteStops (routeId : string) (i : nat)
    (previous : option Stop.t) (currentTime : Z) (stops : list Stop.t)
    : DB (list OptimizedStop.t) :=
  match stops with
  | [] => mret []
  | pickup :: rest =>
      let currentTime :=
        match previous with
        | Some p => arrivalAfter currentTime p pickup
        | None => currentTime
        end in
      _ ← routeStop_create
            {| RouteStop.routeId := routeId;
               RouteStop.binId := (Stop.bin pickup).1;
               RouteStop.stopOrder := i + 1;
               RouteStop.estimatedArrival := currentTime;
               RouteStop.status := SCHEDULED |};
      routeStops ← createRouteStops routeId (S i) (Some pickup) currentTime rest;
      mret ({| OptimizedStop.pickupId := Stop.pickupId pickup;
               OptimizedStop.order := i + 1;
               OptimizedStop.estimatedArrival := currentTime;
               OptimizedStop.bin := Stop.bin pickup |} :: routeStops)
  end.

Definition typeError : AppError.t :=
  {| AppError.message := "Cannot read properties of undefined";
     AppError.statusCode := None |}.

Section RouteOptimization.

Context {rt : Runtime}.

(** The mapping collaborator: [GoogleMapsService.getRoute] answers a request
    or throws. *)
Variable getRoute : RouteRequest.t -> Outcome RouteResponse.t.

(** [Date.prototype.toLocaleDateString]. *)
Variable toLocaleDateString : Z -> string.

(** The body of the [try]. *)
Definition primaryPlan (startLocation : Geo.Coordinates)
    (pickups : list Stop.t) : Outcome Plan.t :=
  let waypoints := stopLocation <$> pickups in
  if bool_decide (1 < length waypoints) then
    match getRoute {| RouteRequest.origin := startLocation;
                      RouteRequest.destination :=
                        default startLocation (last waypoints);
                      RouteRequest.waypoints :=
                        take (length waypoints - 1) waypoints |} with
    | Throw e => Throw e
    | Ok routeResponse =>
        let optimizedOrder :=
          match RouteResponse.steps routeResponse with
          | Some steps => seq 0 (length steps)
          | None => seq 0 (length waypoints)
          end in
        match mapM (fun i => pickups !! i) optimizedOrder with
        | None => Throw typeError
        | Some optimizedPickups =>
            Ok {| Plan.optimizedPickups := optimizedPickups;
                  Plan.totalDistance := RouteResponse.distance routeResponse;
                  Plan.estimatedDuration :=
                    Math_round
                      (RouteResponse.duration routeResponse / 60 +
                       Double.ofNat (length pickups) * 5)%float |}
        end
    end
  else
    match waypoints with
    | [] => Throw typeError
    | first :: _ =>
        let totalDistance :=
          Double.calculateHaversineDistance startLocation first in
        Ok {| Plan.optimizedPickups := pickups;
              Plan.totalDistance := totalDistance;
              Plan.estimatedDuration :=
                Math_round (totalDistance / 30 * 60 + 5)%float |}
    end.

(** The [try]/[catch]: the fallback runs whenever the body throws. *)
Definition planRoute (startLocation : Geo.Coordinates)
    (pickups : list Stop.t) : option Plan.t :=
  match primaryPlan startLocation pickups with
  | Ok plan => Some plan
  | Throw _ => fallbackPlan startLocation pickups
  end.

Definition defaultStart (driver : Driver.t) : Geo.Coordinates :=
  {| Geo.latitude := default 8.4840%R (Driver.currentLatitude driver);
     Geo.longitude := default (-13.2299)%R (Driver.currentLongitude driver) |}.

Definition assignDriver (driverId : string) : PickupData.t :=
  {| PickupData.status := None; PickupData.notes := None;
     PickupData.startedAt := None; PickupData.completedAt := None;
     PickupData.driverId := Some driverId |}.

Definition optimizePickupRoute (now : Z) (data : PickupRouteOptimization.t)
    : DB OptimizedRoute.t :=
  let driverId := PickupRouteOptimization.driverId data in
  let pickupIds := PickupRouteOptimization.pickupIds data in
  driver ← gets (fun w => drivers w !! driverId);
  match driver with
  | None => httpError "Driver not found" 404
  | Some driver =>
      pickups ← gets (fun w => mapM (toStop w) (scheduledPickups w pickupIds));
      match pickups with
      | None => throw typeError
      | Some [] => httpError "No valid pickups found for optimization" 400
      | Some pickups =>
          let startLocation :=
            default (defaultStart driver)
                    (PickupRouteOptimization.startLocation data) in
          match planRoute startLocation pickups with
          | None => throw typeError
          | Some plan =>
              route ← route_create
                {| Route.driverId := driverId;
                   Route.routeName :=
                     "Route " +:+ toLocaleDateString now +:+ " - " +:+
                     Driver.user_fullName driver;
                   Route.totalDistance := Plan.totalDistance plan;
                   Route.estimatedDuration := Plan.estimatedDuration plan;
                   Route.status := "PLANNED" |};
              routeStops ← createRouteStops route.1 0 None now
                             (Plan.optimizedPickups plan);
              _ ← pickup_updateMany pickupIds (assignDriver driverId);
              mret {| OptimizedRoute.routeId := route.1;
                      OptimizedRoute.driverId := driverId;
                      OptimizedRoute.totalDistance :=
                        (Math_round (Plan.totalDistance plan * 100)
                         / 100)%float;
                      OptimizedRoute.estimatedDuration :=
                        Plan.estimatedDuration plan;
                      OptimizedRoute.pickups := routeStops |}
          end
      end
  end.

End RouteOptimization.

(** ** driverService.ts *)

Module NearbyDriversQuery.
Record t := {
  latitude : R;
  longitude : R;
  radius : option R;
  limit : option nat;
  status : option DriverStatus
}.
End NearbyDriversQuery.

(** An element of the answer: the driver and its reported [distance]. *)
Module NearbyDriver.
Record t := { driver : string * Driver.t; distance : R }.
End NearbyDriver.

(** [query.radius || 10] and [query.limit || 20]. *)
Definition radiusOf (query : NearbyDriversQuery.t) : R :=
  match NearbyDriversQuery.radius query with
  | Some r => if Req_dec_T r 0 then 10%R else r
  | None => 10%R
  end.


Definition between (lo hi : R) (x : option R) : bool :=
  match x with
  | Some v => bool_decide (lo <= v)%R && bool_decide (v <= hi)%R
  | None => false
  end.

(** The [currentLongitude] clause: [gte] and [lte] around the longitude of
    the query, with the half-width
    [radius / (111 * Math.cos(latitude * Math.PI / 180))].  The divisor
    vanishes where the cosine does, at the poles.  No error is raised there:
    the program divides by a cosine of about 6e-17 (by zero it would give
    an infinity), the half-width exceeds every longitude, and the clause
    holds for every known longitude when the radius is positive and for
    none when it is negative. *)
Definition longitudeWithin (radius latitude longitude : R) (x : option R)
    : bool :=
  let divisor := (111 * cos (latitude * PI / 180))%R in
  if Req_dec_T divisor 0
  then bool_decide (is_Some x) && bool_decide (0 < radius)%R
  else between (longitude - radius / divisor) (longitude + radius / divisor) x.

(** The [whereClause] of [getNearbyDrivers]. *)
Definition nearbyWhere (query : NearbyDriversQuery.t) (d : string * Driver.t)
    : bool :=
  let radius := radiusOf query in
  let latitude := NearbyDriversQuery.latitude query in
  let longitude := NearbyDriversQuery.longitude query in
  Driver.isAvailable d.2 && Driver.user_isActive d.2 &&
  bool_decide
    (Driver.status d.2 = default ONLINE (NearbyDriversQuery.status query)) &&
  between (latitude - radius / 111) (latitude + radius / 111)
    (Driver.currentLatitude d.2) &&
  longitudeWithin radius latitude longitude (Driver.currentLongitude d.2).





(** ** Notions used in the statements *)

(** The statuses after which the specification allows no transition. *)
Definition terminal (s : PickupStatus) : Prop := s = COMPLETED \/ s = CANCELLED.

(** The status change is the first entry into [COMPLETED]: the branch of
    [updatePickupStatus] that empties the bin. *)
Definition firstCompletion (statusData : PickupStatusUpdate.t)
    (existingPickup : PickupResponse.t) : bool :=
  bool_decide (PickupStatusUpdate.status statusData = COMPLETED) &&
  bool_decide (PickupResponse.completedAt existingPickup = None).

Definition firstStart (statusData : PickupStatusUpdate.t)
    (existingPickup : PickupResponse.t) : bool :=
  bool_decide (PickupStatusUpdate.status statusData = IN_PROGRESS) &&
  bool_decide (PickupResponse.startedAt existingPickup = None).

(** The [updateData] that [updatePickupStatus] hands to the pickup update. *)
Definition stampedData (now : Z) (statusData : PickupStatusUpdate.t)
    (existingPickup : PickupResponse.t) : PickupData.t :=
  if firstStart statusData existingPickup
  then withStartedAt now (statusData_update statusData)
  else if firstCompletion statusData existingPickup
  then withCompletedAt now (statusData_update statusData)
  else statusData_update statusData.

(** A bin as the completion of a pickup must leave it. *)
Definition binReset (now : Z) (b : Bin.t) : Prop :=
  Bin.currentLevel b = 0%R /\ Bin.status b = BinStatus.EMPTY /\
  Bin.lastEmptied b = Some now.

(** The row [createPickup] stores. *)
Definition createdRow (now : Z) (data : CreatePickupRequest.t)
    (requestUserId : string) (bin : Bin.t) (assigned : option string)
    : Pickup.t :=
  {| Pickup.binId := CreatePickupRequest.binId data;
     Pickup.driverId := assigned;
     Pickup.createdById := requestUserId;
     Pickup.status := SCHEDULED;
     Pickup.scheduledAt :=
       Some (default
               (calculateScheduledTime now
                  (derivePriority (CreatePickupRequest.priority data)
                     (Bin.currentLevel bin)))
               (CreatePickupRequest.scheduledAt data));
     Pickup.startedAt := None;
     Pickup.completedAt := None;
     Pickup.notes := CreatePickupRequest.notes data |}.

(** The step shared by the two search loops of the services
    ([closerDriver], [nearerStop]): keep the best candidate seen so far,
    replace it only by a strictly nearer one. *)
Definition keepNearer {A B} (tag : A -> B) (key : A -> float)
    (best : B * float) (x : A) : B * float :=
  if (key x <? best.2)%float then (tag x, key x) else best.

(** The nearest-neighbour rule: every stop of the list is, among the stops
    from it onwards, one of least great-circle distance from the position
    reached before it. *)
Fixpoint nearestFirst (position : Geo.Coordinates) (l : list Stop.t) : Prop :=
  match l with
  | [] => True
  | s :: rest =>
      (forall s', s' ∈ s :: rest ->
                  (legDistance position s <= legDistance position s')%R) /\
      nearestFirst (stopLocation s) rest
  end.



(** A pickup handed to a driver: the driver reference changes and every
    other column stays. *)
Definition reassigned (driverId : string) (p : Pickup.t) : Pickup.t :=
  {| Pickup.binId := Pickup.binId p;
     Pickup.driverId := Some driverId;
     Pickup.createdById := Pickup.createdById p;
     Pickup.status := Pickup.status p;
     Pickup.scheduledAt := Pickup.scheduledAt p;
     Pickup.startedAt := Pickup.startedAt p;
     Pickup.completedAt := Pickup.completedAt p;
     Pickup.notes := Pickup.notes p |}.

(** The pickups of a bin, whatever their status. *)
Definition pickupsOfBin (w : World) (binId : string) : gmap string Pickup.t :=
  filter (fun row => Pickup.binId row.2 = binId) (pickups w).

(** The driver [createPickup] puts in the row: the requested one; for a
    request that names none, or the empty id, the answer of the
    nearest-driver search from fill level 80 and what the request names
    below. *)
Definition assignedDriver {rt : Runtime} (w : World)
    (data : CreatePickupRequest.t) (bin : Bin.t) : option string :=
  match truthyId (CreatePickupRequest.driverId data) with
  | Some driverId => Some driverId
  | None =>
      if Rle_dec 80 (Bin.currentLevel bin)
      then truthyId (findBestAvailableDriver w (Number (Bin.latitude bin))
                       (Number (Bin.longitude bin)))
      else CreatePickupRequest.driverId data
  end.

Section SchedulerNotions.
Context {rt : Runtime}.
Variable numberToString : R -> string.

(** The row stored for a bin by one turn of the scheduler's loop. *)
Definition automaticRow (now : Z) (w : World) (bin : string * Bin.t)
    : Pickup.t :=
  createdRow now (automaticRequest numberToString bin) (requesterOf bin) bin.2
    (assignedDriver w (automaticRequest numberToString bin) bin.2).

End SchedulerNotions.

(** ** Examples *)

(** A runtime for the examples.  [Number] gives the doubles of the
    coordinates 82, -82, 180, -180 and 0; [Math.sin] and [Math.cos] take, at
    the arguments that the examples reach (the halves of 164 and of 180
    degrees and 82 degrees, in radians, with either sign, and zero), the
    doubles nearest to the sine and the cosine; [Math.atan2] and
    [Math.round] return NaN for NaN, as ECMAScript prescribes, and
    [Math.atan2(0, 1)] is 0.  Elsewhere the components are arbitrary: no
    example depends on them. *)
Definition engineNumber (x : R) : float :=
  if Req_dec_T x 82 then 82%float
  else if Req_dec_T x (-82) then (-82)%float
  else if Req_dec_T x 180 then 180%float
  else if Req_dec_T x (-180) then (-180)%float
  else 0%float.

Definition engineSin (x : float) : float :=
  if (x =? 0x1.6e6127ff9d971p+0)%float then 0x1.fb046a930947ap-1%float
  else if (x =? -0x1.6e6127ff9d971p+0)%float then (-0x1.fb046a930947ap-1)%float
  else if (x =? 0x1.921fb54442d18p+0)%float then 1%float
  else if (x =? -0x1.921fb54442d18p+0)%float then (-1)%float
  else 0%float.

Definition engineCos (x : float) : float :=
  if (x =? 0x1.6e6127ff9d971p+0)%float then 0x1.1d06c968d9e1ap-3%float
  else if (x =? -0x1.6e6127ff9d971p+0)%float then 0x1.1d06c968d9e1ap-3%float
  else 1%float.

Definition engineAtan2 (y x : float) : float :=
  if is_nan y || is_nan x then nan else 0%float.

Definition engineRound (x : float) : float :=
  if is_nan x then nan else x.

Definition engine : Runtime :=
  {| Number := engineNumber;
     Math_sin := engineSin;
     Math_cos := engineCos;
     Math_atan2 := engineAtan2;
     Math_round := engineRound |}.

(** ** Example databases *)

Definition depotBin (level : R) : Bin.t :=
  {| Bin.binCode := "BIN-001"; Bin.location := "Depot";
     Bin.latitude := 0%R; Bin.longitude := 0%R;
     Bin.currentLevel := level; Bin.status := BinStatus.FULL;
     Bin.lastEmptied := None; Bin.isActive := true;
     Bin.userId := Some "u1" |}.

Definition pickupIn (s : PickupStatus) (started completed : option Z)
    : Pickup.t :=
  {| Pickup.binId := "b1"; Pickup.driverId := None;
     Pickup.createdById := "u1"; Pickup.status := s;
     Pickup.scheduledAt := Some 0%Z; Pickup.startedAt := started;
     Pickup.completedAt := completed; Pickup.notes := None |}.

(** One bin ["b1"], one pickup ["p1"] of that bin, no driver. *)
Definition onePickupWorld (p : Pickup.t) (out : option nat) : World :=
  {| bins := {[ "b1" := depotBin 96 ]}; drivers := ∅;
     pickups := {[ "p1" := p ]}; routes := ∅; routeStops := ∅;
     outage := out |}.

Definition setStatus (s : PickupStatus) : PickupStatusUpdate.t :=
  {| PickupStatusUpdate.status := s; PickupStatusUpdate.notes := None;
     PickupStatusUpdate.location := None |}.

Definition responseOf (p : Pickup.t) : PickupResponse.t :=
  formatPickupResponse ("p1", p) ("b1", depotBin 96) None
    MEDIUM PickupType.ON_DEMAND.

(** A request for bin ["b1"] that names no driver, time or priority. *)
Definition plainRequest : CreatePickupRequest.t :=
  {| CreatePickupRequest.binId := "b1";
     CreatePickupRequest.driverId := None;
     CreatePickupRequest.scheduledAt := None;
     CreatePickupRequest.priority := None;
     CreatePickupRequest.notes := None;
     CreatePickupRequest.pickupType := None |}.

(** One bin ["b1"] at the given fill level and nothing else. *)
Definition oneBinWorld (level : R) : World :=
  {| bins := {[ "b1" := depotBin level ]}; drivers := ∅;
     pickups := ∅; routes := ∅; routeStops := ∅; outage := None |}.

(** Two stops and a mapping collaborator that is down. *)
Definition stopAt (pickupId : string) (lat lng : R) : Stop.t :=
  {| Stop.pickupId := pickupId; Stop.bin := ("b1", depotBin 96);
     Stop.latitude := lat; Stop.longitude := lng |}.

Definition freetown : Geo.Coordinates :=
  {| Geo.latitude := 8.4840%R; Geo.longitude := (-13.2299)%R |}.

Definition mapsDown (request : RouteRequest.t) : Outcome RouteResponse.t :=
  Throw {| AppError.message := "Google Maps API error";
           AppError.statusCode := None |}.

(** A driver on the equator, 10.001 km east of the point (0, 0), and a
    query for the drivers within 10 km of that point. *)
Definition eastLongitude : R := (180018 / (637100 * PI))%R.

Definition eastDriver : Driver.t :=
  {| Driver.userId := "u2"; Driver.status := ONLINE;
     Driver.isAvailable := true;
     Driver.currentLatitude := Some 0%R;
     Driver.currentLongitude := Some eastLongitude;
     Driver.user_isActive := true; Driver.user_fullName := "Driver" |}.

Definition oneDriverWorld : World :=
  {| bins := ∅; drivers := {[ "d1" := eastDriver ]}; pickups := ∅;
     routes := ∅; routeStops := ∅; outage := None |}.


(** A bin at (-82, -180) with two drivers that can be selected: ["d1"]
    almost at the antipode, at (82, 0), and ["d2"] at the bin. *)
Definition farPoint : Geo.Coordinates :=
  {| Geo.latitude := 82%R; Geo.longitude := 0%R |}.

Definition southPoint : Geo.Coordinates :=
  {| Geo.latitude := (-82)%R; Geo.longitude := (-180)%R |}.

Definition driverAt (userId : string) (c : Geo.Coordinates) : Driver.t :=
  {| Driver.userId := userId; Driver.status := ONLINE;
     Driver.isAvailable := true;
     Driver.currentLatitude := Some (Geo.latitude c);
     Driver.currentLongitude := Some (Geo.longitude c);
     Driver.user_isActive := true; Driver.user_fullName := "Driver" |}.

Definition southBin : Bin.t :=
  {| Bin.binCode := "BIN-082"; Bin.location := "South";
     Bin.latitude := (-82)%R; Bin.longitude := (-180)%R;
     Bin.currentLevel := 96%R; Bin.status := BinStatus.FULL;
     Bin.lastEmptied := None; Bin.isActive := true;
     Bin.userId := Some "u1" |}.

Definition antipodeWorld : World :=
  {| bins := {[ "b1" := southBin ]};
     drivers := {[ "d1" := driverAt "u2" farPoint;
                   "d2" := driverAt "u3" southPoint ]};
     pickups := ∅; routes := ∅; routeStops := ∅; outage := None |}.

(** A driver near the north pole and a query for the drivers within 10 km
    of the pole. *)
Definition polarDriver : Driver.t :=
  {| Driver.userId := "u3"; Driver.status := ONLINE;
     Driver.isAvailable := true;
     Driver.currentLatitude := Some 89.99%R;
     Driver.currentLongitude := Some 50%R;
     Driver.user_isActive := true; Driver.user_fullName := "Driver" |}.

Definition aroundThePole : NearbyDriversQuery.t :=
  {| NearbyDriversQuery.latitude := 90%R;
     NearbyDriversQuery.longitude := 0%R;
     NearbyDriversQuery.radius := Some 10%R;
     NearbyDriversQuery.limit := None;
     NearbyDriversQuery.status := None |}.

(** A driver, a [SCHEDULED] pickup ["p1"] and a [COMPLETED] pickup ["p2"] of
    bin ["b1"]. *)
Definition routeWorld : World :=
  {| bins := {[ "b1" := depotBin 96 ]};
     drivers := {[ "d1" := eastDriver ]};
     pickups := {[ "p1" := pickupIn SCHEDULED None None;
                   "p2" := pickupIn COMPLETED (Some 10%Z) (Some 20%Z) ]};
     routes := ∅; routeStops := ∅; outage := None |}.

Definition routeRequest : PickupRouteOptimization.t :=
  {| PickupRouteOptimization.driverId := "d1";
     PickupRouteOptimization.pickupIds := ["p1"; "p2"];
     PickupRouteOptimization.startLocation := None |}.

Definition isoDate (t : Z) : string := "2025-01-01".

(** The text of the level in the scheduler's notes, for the examples. *)
Definition showLevel (level : R) : string := "82".

(** ** pickupService.ts: the update and assignment operations *)

Module UpdatePickupRequest.
Record t := {
  driverId : option string;
  scheduledAt : option Z;
  priority : option Priority;
  notes : option string;
  status : option PickupStatus
}.
End UpdatePickupRequest.

Module AssignDriverRequest.
Record t := {
  driverId : string;
  estimatedDuration : option Z;
  scheduledAt : option Z
}.
End AssignDriverRequest.

(** [prisma.pickup.update] with update data given as the change of the row. *)
Definition pickup_alter (id : string) (f : Pickup.t -> Pickup.t) : DB unit :=
  row ← gets (fun w => pickups w !! id);
  match row with
  | None => throw clientError
  | Some _ => commit (setPickups (alter f id))
  end.

(** The check of a driver that [updatePickup] and [assignDriverToPickup]
    make, as [createPickup] does: the driver exists, the account is active,
    the driver is available.  [updatePickup] and [createPickup] make it
    under [if (data.driverId)], that is for an id that is not empty. *)
Definition verifyDriver (driverId : string) : DB unit :=
  driver ← gets (fun w => drivers w !! driverId);
  match driver with
  | Some d =>
      if Driver.user_isActive d && Driver.isAvailable d
      then mret tt
      else httpError "Driver not found or not available" 400
  | None => httpError "Driver not found or not available" 400
  end.

(** The [data] of the update of [updatePickup]: only the fields present in
    the request change. *)
Definition updatePickupData (data : UpdatePickupRequest.t) (p : Pickup.t)
    : Pickup.t :=
  {| Pickup.binId := Pickup.binId p;
     Pickup.driverId :=
       or_else (UpdatePickupRequest.driverId data) (Pickup.driverId p);
     Pickup.createdById := Pickup.createdById p;
     Pickup.status :=
       default (Pickup.status p) (UpdatePickupRequest.status data);
     Pickup.scheduledAt :=
       or_else (UpdatePickupRequest.scheduledAt data) (Pickup.scheduledAt p);
     Pickup.startedAt := Pickup.startedAt p;
     Pickup.completedAt := Pickup.completedAt p;
     Pickup.notes := or_else (UpdatePickupRequest.notes data) (Pickup.notes p) |}.

Definition updatePickup (pickupId : string) (data : UpdatePickupRequest.t)
    (requestUserRole : UserRole) (requestUserId : string)
    : DB PickupResponse.t :=
  existingPickup ← getPickupById pickupId requestUserRole requestUserId;
  _ ← match truthyId (UpdatePickupRequest.driverId data) with
      | Some driverId => verifyDriver driverId
      | None => mret tt
      end;
  _ ← pickup_alter pickupId (updatePickupData data);
  updatedPickup ← gets (fun w => pickups w !! pickupId);
  match updatedPickup with
  | None => throw clientError
  | Some row =>
      withRelations (pickupId, row)
        (default MEDIUM (UpdatePickupRequest.priority data))
        PickupType.ON_DEMAND
  end.

(** The [data] of the update of [assignDriverToPickup]. *)
Definition assignmentData (assignData : AssignDriverRequest.t) (p : Pickup.t)
    : Pickup.t :=
  {| Pickup.binId := Pickup.binId p;
     Pickup.driverId := Some (AssignDriverRequest.driverId assignData);
     Pickup.createdById := Pickup.createdById p;
     Pickup.status := Pickup.status p;
     Pickup.scheduledAt :=
       or_else (AssignDriverRequest.scheduledAt assignData)
               (Pickup.scheduledAt p);
     Pickup.startedAt := Pickup.startedAt p;
     Pickup.completedAt := Pickup.completedAt p;
     Pickup.notes := Pickup.notes p |}.

Definition driverAssigned : Ack.t :=
  {| Ack.success := true;
     Ack.message := "Driver assigned to pickup successfully" |}.

Definition assignDriverToPickup (pickupId : string)
    (assignData : AssignDriverRequest.t) (requestUserRole : UserRole)
    : DB Ack.t :=
  if negb (bool_decide (requestUserRole = ADMIN))
  then httpError "Only administrators can assign drivers" 403
  else
    pickup ← gets (fun w => pickups w !! pickupId);
    match pickup with
    | None => httpError "Pickup not found" 404
    | Some _ =>
        _ ← verifyDriver (AssignDriverRequest.driverId assignData);
        _ ← pickup_alter pickupId (assignmentData assignData);
        mret driverAssigned
    end.

(** An element of the answer of [getUpcomingPickupsForDriver]. *)
Module UpcomingPickup.
Record t := {
  id : string;
  status : PickupStatus;
  scheduledAt : Z;
  bin : option (string * Bin.t);
  notes : option string
}.
End UpcomingPickup.

(** [orderBy: { scheduledAt: 'asc' }]: rows of equal time keep the order of
    the table. *)
Fixpoint insertByTime (x : UpcomingPickup.t) (l : list UpcomingPickup.t)
    : list UpcomingPickup.t :=
  match l with
  | [] => [x]
  | y :: l' =>
      if bool_decide (UpcomingPickup.scheduledAt x <= UpcomingPickup.scheduledAt y)%Z
      then x :: y :: l'
      else y :: insertByTime x l'
  end.

Definition sortByTime (l : list UpcomingPickup.t) : list UpcomingPickup.t :=
  foldr insertByTime [] l.

Section Upcoming.

(** The end of the day after [now] in the local time zone:
    [setDate(getDate() + 1)], [setHours(23, 59, 59, 999)]. *)
Variable endOfTomorrow : Z -> Z.

(** The [where] clause: the driver's pickups that are [SCHEDULED] or
    [IN_PROGRESS] and scheduled no later than the end of tomorrow; a pickup
    without a scheduled time does not satisfy [lte]. *)
Definition upcomingRow (w : World) (now : Z) (driverId : string)
    (p : string * Pickup.t) : option UpcomingPickup.t :=
  match Pickup.scheduledAt p.2 with
  | Some t =>
      if bool_decide (Pickup.driverId p.2 = Some driverId) &&
         activeStatus (Pickup.status p.2) &&
         bool_decide (t <= endOfTomorrow now)%Z
      then Some {| UpcomingPickup.id := p.1;
                   UpcomingPickup.status := Pickup.status p.2;
                   UpcomingPickup.scheduledAt := t;
                   UpcomingPickup.bin :=
                     pair (Pickup.binId p.2) <$> bins w !! Pickup.binId p.2;
                   UpcomingPickup.notes := Pickup.notes p.2 |}
      else None
  | None => None
  end.

Definition getUpcomingPickupsForDriver (w : World) (now : Z)
    (driverId : string) : list UpcomingPickup.t :=
  sortByTime (omap (upcomingRow w now driverId) (map_to_list (pickups w))).

End Upcoming.

(** ** pickupSchedulerService.ts: reminders and overdue pickups *)

(** The [findMany] of [sendPickupReminders]: [SCHEDULED] pickups with a
    driver whose time is within the next 15 minutes. *)
Definition dueForReminder (now : Z) (p : string * Pickup.t) : bool :=
  bool_decide (Pickup.status p.2 = SCHEDULED) &&
  match Pickup.scheduledAt p.2 with
  | Some t => bool_decide (now <= t)%Z &&
              bool_decide (t <= now + 15 * 60 * 1000)%Z
  | None => false
  end &&
  bool_decide (Pickup.driverId p.2 <> None).

Definition upcomingPickups (w : World) (now : Z) : list (string * Pickup.t) :=
  findMany (pickups w) (dueForReminder now).

(** The [findMany] of [checkOverduePickups]: [SCHEDULED] pickups with a
    driver whose time is more than 30 minutes past. *)
Definition overdue (now : Z) (p : string * Pickup.t) : bool :=
  bool_decide (Pickup.status p.2 = SCHEDULED) &&
  match Pickup.scheduledAt p.2 with
  | Some t => bool_decide (t < now - 30 * 60 * 1000)%Z
  | None => false
  end &&
  bool_decide (Pickup.driverId p.2 <> None).

Definition overduePickups (w : World) (now : Z) : list (string * Pickup.t) :=
  findMany (pickups w) (overdue now).

(** The notification objects handed to [sendPickupNotification]. *)
Module PickupNotification.
Record t := {
  type : string;
  pickupId : string;
  message : string;
  recipients : list string;
  channel : string
}.
End PickupNotification.

Section Reminders.

(** [driver.user.phone] of a driver, a column of the user table. *)
Variable phoneOf : string -> option string.

(** [Date.prototype.toLocaleTimeString]. *)
Variable toLocaleTimeString : Z -> string.

(** [NotificationService.sendPickupReminder]. *)
Definition sendPickupReminder (pickupId driverPhone : string)
    (scheduledTime : Z) : PickupNotification.t :=
  {| PickupNotification.type := "REMINDER";
     PickupNotification.pickupId := pickupId;
     PickupNotification.message :=
       "Reminder: Pickup scheduled at " +:+ toLocaleTimeString scheduledTime
       +:+ ". Pickup ID: " +:+ pickupId;
     PickupNotification.recipients := [driverPhone];
     PickupNotification.channel := "SMS" |}.

(** [pickup.driver?.user.phone], when it is a non-empty text. *)
Definition driverPhone (p : string * Pickup.t) : option string :=
  phone ← Pickup.driverId p.2 ≫= phoneOf;
  if bool_decide (phone = EmptyString) then None else Some phone.

(** The notifications [sendPickupReminders] sends, in the order of the
    loop. *)
Definition sendPickupReminders (w : World) (now : Z)
    : list PickupNotification.t :=
  omap (fun p =>
          phone ← driverPhone p;
          scheduledAt ← Pickup.scheduledAt p.2;
          Some (sendPickupReminder p.1 phone scheduledAt))
       (upcomingPickups w now).

End Reminders.

(** ** routeOptimizationService.ts: the route of a driver *)

(** The [data] of the answer of [getDriverOptimizedRoute]; [NoRoute] is the
    object [{ routeId: null, pickups: [], totalDistance: 0,
    estimatedDuration: 0 }]. *)
Inductive DriverRoute :=
| NoRoute
| Optimized (route : OptimizedRoute.t).

Section DriverRoutes.

Context {rt : Runtime}.

Variable getRoute : RouteRequest.t -> Outcome RouteResponse.t.
Variable toLocaleDateString : Z -> string.

(** [orderBy: { priority: 'desc' }]: the order the database gives the rows;
    the priority is not a column of the model. *)
Variable byPriority : list (string * Pickup.t) -> list (string * Pickup.t).

Definition scheduledOf (w : World) (driverId : string)
    : list (string * Pickup.t) :=
  byPriority
    (findMany (pickups w) (fun p =>
       bool_decide (Pickup.driverId p.2 = Some driverId) &&
       bool_decide (Pickup.status p.2 = SCHEDULED))).

Definition getDriverOptimizedRoute (now : Z) (driverId : string)
    : DB DriverRoute :=
  pickups ← gets (fun w => scheduledOf w driverId);
  match pickups with
  | [] => mret NoRoute
  | _ :: _ =>
      optimizedRoute ←
        optimizePickupRoute getRoute toLocaleDateString now
          {| PickupRouteOptimization.driverId := driverId;
             PickupRouteOptimization.pickupIds := pickups.*1;
             PickupRouteOptimization.startLocation := None |};
      mret (Optimized optimizedRoute)
  end.

End DriverRoutes.

(** ** driverService.ts: status and location of a driver *)

Module DriverStatusUpdate.
Record t := {
  status : DriverStatus;
  currentLatitude : option R;
  currentLongitude : option R
}.
End DriverStatusUpdate.

Definition setDrivers (f : gmap string Driver.t -> gmap string Driver.t)
    (w : World) : World :=
  {| bins := bins w; drivers := f (drivers w); pickups := pickups w;
     routes := routes w; routeStops := routeStops w; outage := outage w |}.

(** [prisma.driver.update({ where: { id }, data })]. *)
Definition driver_update (id : string) (f : Driver.t -> Driver.t) : DB unit :=
  row ← gets (fun w => drivers w !! id);
  match row with
  | None => throw clientError
  | Some _ => commit (setDrivers (alter f id))
  end.

(** [getDriverById]: [findFirst] by id, and by the user as well when the
    requester is a driver; the answer carries the columns of the row. *)
Definition getDriverById (driverId : string) (requestUserRole : UserRole)
    (requestUserId : string) : DB (string * Driver.t) :=
  driver ← gets (fun w =>
    d ← drivers w !! driverId;
    if bool_decide (requestUserRole = DRIVER) &&
       negb (bool_decide (Driver.userId d = requestUserId))
    then None else Some d);
  match driver with
  | None => httpError "Driver not found or access denied" 404
  | Some d => mret (driverId, d)
  end.

(** A number that is present and not zero: the test [x && { ... }]. *)
Definition truthy (x : option R) : option R :=
  match x with
  | Some v => if Req_dec_T v 0 then None else Some v
  | None => None
  end.

Definition statusData_driver (statusData : DriverStatusUpdate.t)
    (d : Driver.t) : Driver.t :=
  {| Driver.userId := Driver.userId d;
     Driver.status := DriverStatusUpdate.status statusData;
     Driver.isAvailable := Driver.isAvailable d;
     Driver.currentLatitude :=
       or_else (truthy (DriverStatusUpdate.currentLatitude statusData))
               (Driver.currentLatitude d);
     Driver.currentLongitude :=
       or_else (truthy (DriverStatusUpdate.currentLongitude statusData))
               (Driver.currentLongitude d);
     Driver.user_isActive := Driver.user_isActive d;
     Driver.user_fullName := Driver.user_fullName d |}.

Definition driverStatusUpdated : Ack.t :=
  {| Ack.success := true;
     Ack.message := "Driver status updated successfully" |}.

Definition updateDriverStatus (driverId : string)
    (statusData : DriverStatusUpdate.t) (requestUserRole : UserRole)
    (requestUserId : string) : DB Ack.t :=
  _ ← getDriverById driverId requestUserRole requestUserId;
  _ ← driver_update driverId (statusData_driver statusData);
  mret driverStatusUpdated.

Definition locationData_driver (locationData : Geo.Coordinates)
    (d : Driver.t) : Driver.t :=
  {| Driver.userId := Driver.userId d;
     Driver.status := Driver.status d;
     Driver.isAvailable := Driver.isAvailable d;
     Driver.currentLatitude := Some (Geo.latitude locationData);
     Driver.currentLongitude := Some (Geo.longitude locationData);
     Driver.user_isActive := Driver.user_isActive d;
     Driver.user_fullName := Driver.user_fullName d |}.

Definition driverLocationUpdated : Ack.t :=
  {| Ack.success := true;
     Ack.message := "Driver location updated successfully" |}.

Definition updateDriverLocation (driverId : string)
    (locationData : Geo.Coordinates) (requestUserRole : UserRole)
    (requestUserId : string) : DB Ack.t :=
  _ ← getDriverById driverId requestUserRole requestUserId;
  _ ← driver_update driverId (locationData_driver locationData);
  mret driverLocationUpdated.

(** ** Notions used in the further statements *)

(** The permission rule of [getPickupById]: a [USER] reads the pickups they
    created, a [DRIVER] the pickups assigned to the driver of that user, an
    [ADMIN] every pickup. *)
Definition mayRead (w : World) (role : UserRole) (userId : string)
    (p : Pickup.t) : bool :=
  negb (bool_decide (role = USER) &&
        negb (bool_decide (Pickup.createdById p = userId))) &&
  (if bool_decide (role = DRIVER) then
     match driverOfUser w userId with
     | Some d => bool_decide (Pickup.driverId p = Some d.1)
     | None => false
     end
   else true).

(** A driver whom [createPickup], [updatePickup] and [assignDriverToPickup]
    accept. *)
Definition assignable (w : World) (driverId : string) : Prop :=
  exists d, drivers w !! driverId = Some d /\
            Driver.user_isActive d = true /\ Driver.isAvailable d = true.

(** A driver whom the nearest-driver search may select. *)
Definition selectable (w : World) (driverId : string) : Prop :=
  exists d, drivers w !! driverId = Some d /\
            Driver.status d = ONLINE /\ Driver.isAvailable d = true /\
            Driver.user_isActive d = true /\
            is_Some (Driver.currentLatitude d) /\
            is_Some (Driver.currentLongitude d).


(** A list of instants in which every one is at least five minutes after the
    one before it, the first being no earlier than [lower]. *)
Fixpoint spaced (lower : Z) (l : list Z) : Prop :=
  match l with
  | [] => True
  | a :: rest => ((lower <= a)%Z /\ spaced (a + 300000) rest)%type
  end.

(** The number of stops the answer of the mapping collaborator stands for:
    the number of its steps, or of the pickups when it lists no steps. *)
Definition answeredStops (response : RouteResponse.t) (pickups : list Stop.t)
    : nat :=
  match RouteResponse.steps response with
  | Some steps => length steps
  | None => length pickups
  end.

(** The database of [routeWorld] after its two pickups were given to the
    driver ["d1"]. *)
Definition driverRouteWorld : World :=
  {| bins := bins routeWorld; drivers := drivers routeWorld;
     pickups := {[ "p1" := reassigned "d1" (pickupIn SCHEDULED None None);
                   "p2" := reassigned "d1"
                             (pickupIn COMPLETED (Some 10%Z) (Some 20%Z)) ]};
     routes := ∅; routeStops := ∅; outage := None |}.

(** A phone book and a clock face for the examples. *)
Definition phoneBook (driverId : string) : option string := Some "076123456".

Definition clockFace (t : Z) : string := "09:00:00".

(** A driver going off line and reporting the position (0, 0) with it. *)
Definition goOffline : DriverStatusUpdate.t :=
  {| DriverStatusUpdate.status := OFFLINE;
     DriverStatusUpdate.currentLatitude := Some 0%R;
     DriverStatusUpdate.currentLongitude := Some 0%R |}.

Definition nullIsland : Geo.Coordinates :=
  {| Geo.latitude := 0%R; Geo.longitude := 0%R |}.

(** Ascending order of the scheduled time. *)
Definition byTime (a b : UpcomingPickup.t) : Prop :=
  (UpcomingPickup.scheduledAt a <= UpcomingPickup.scheduledAt b)%Z.

(** The assignment of a pickup to the driver ["d1"], its time unchanged. *)
Definition toDriverD1 : AssignDriverRequest.t :=
  {| AssignDriverRequest.driverId := "d1";
     AssignDriverRequest.estimatedDuration := None;
     AssignDriverRequest.scheduledAt := None |}.

(** * Properties *)

(** ** The great-circle distance *)

Section GeoFacts.
Import Geo.
Local Open Scope R_scope.

Lemma atan_nonneg x : 0 <= x -> 0 <= atan x.
Proof.
  intros [Hx | <-].
  - left. rewrite <- atan_0. by apply atan_increasing.
  - rewrite atan_0. lra.
Qed.

Lemma atan2_nonneg y x : 0 <= y -> 0 <= x -> 0 <= atan2 y x.
Proof.
  intros Hy Hx. unfold atan2.
  destruct (Rlt_dec 0 x) as [Hpos | Hnpos].
  - apply atan_nonneg. apply Rmult_le_pos; [done |].
    left. by apply Rinv_0_lt_compat.
  - destruct (Rlt_dec x 0); [lra |].
    destruct (Rlt_dec 0 y); [pose proof PI_RGT_0; lra |].
    destruct (Rlt_dec y 0); lra.
Qed.

Lemma calculateDistance_nonneg lat1 lng1 lat2 lng2 :
  0 <= calculateDistance lat1 lng1 lat2 lng2.
Proof.
  unfold calculateDistance. cbv zeta.
  apply Rmult_le_pos; [lra |].
  apply Rmult_le_pos; [lra |].
  apply atan2_nonneg; apply sqrt_pos.
Qed.


(** A point is at distance 0 from itself, and at half the circumference
    from its antipode. *)
Lemma calculateDistance_same lat lng : calculateDistance lat lng lat lng = 0.
Proof.
  unfold calculateDistance. cbv zeta.
  replace (deg2rad (lat - lat) / 2) with 0 by (unfold deg2rad; lra).
  replace (deg2rad (lng - lng) / 2) with 0 by (unfold deg2rad; lra).
  rewrite sin_0.
  replace (0 * 0 + cos (deg2rad lat) * cos (deg2rad lat) * 0 * 0) with 0
    by lra.
  rewrite sqrt_0. replace (1 - 0) with 1 by lra. rewrite sqrt_1.
  unfold atan2. destruct (Rlt_dec 0 1); [| lra].
  replace (0 / 1) with 0 by lra. rewrite atan_0. lra.
Qed.

Lemma calculateDistance_antipode lat lng :
  calculateDistance lat lng (- lat) (lng + 180) = 6371 * PI.
Proof.
  unfold calculateDistance. cbv zeta.
  replace (deg2rad (- lat - lat) / 2) with (- deg2rad lat)
    by (unfold deg2rad; lra).
  replace (deg2rad (lng + 180 - lng) / 2) with (PI / 2)
    by (unfold deg2rad; lra).
  replace (deg2rad (- lat)) with (- deg2rad lat) by (unfold deg2rad; lra).
  rewrite sin_neg, cos_neg, sin_PI2.
  replace (- sin (deg2rad lat) * - sin (deg2rad lat) +
           cos (deg2rad lat) * cos (deg2rad lat) * 1 * 1) with 1
    by (pose proof (sin2_cos2 (deg2rad lat)) as H; unfold Rsqr in H; lra).
  replace (1 - 1) with 0 by lra. rewrite sqrt_1, sqrt_0.
  unfold atan2. destruct (Rlt_dec 0 0); [lra |].
  destruct (Rlt_dec 0 0); [lra |].
  destruct (Rlt_dec 0 1); lra.
Qed.




End GeoFacts.

(** ** The runtime of the examples *)

Lemma engineNumber_82 : engineNumber 82 = 82%float.
Proof.
  unfold engineNumber. repeat (destruct (Req_dec_T _ _); try lra); reflexivity.
Qed.

Lemma engineNumber_minus_82 : engineNumber (-82) = (-82)%float.
Proof.
  unfold engineNumber. repeat (destruct (Req_dec_T _ _); try lra); reflexivity.
Qed.

Lemma engineNumber_minus_180 : engineNumber (-180) = (-180)%float.
Proof.
  unfold engineNumber. repeat (destruct (Req_dec_T _ _); try lra); reflexivity.
Qed.

Lemma engineNumber_0 : engineNumber 0 = 0%float.
Proof.
  unfold engineNumber. repeat (destruct (Req_dec_T _ _); try lra); reflexivity.
Qed.

(** ** Running database programs *)

Lemma bind_run {A B} (m : DB A) (f : A -> DB B) (w : World) :
  (m ≫= f) w =
  match m w with
  | (Ok a, w') => f a w'
  | (Throw e, w') => (Throw e, w')
  end.
Proof. reflexivity. Qed.

Lemma bind_ok {A B} (m : DB A) (f : A -> DB B) (w w' : World) (a : A) :
  m w = (Ok a, w') -> (m ≫= f) w = f a w'.
Proof. intros H. by rewrite bind_run, H. Qed.

Lemma bind_throw {A B} (m : DB A) (f : A -> DB B) (w w' : World) e :
  m w = (Throw e, w') -> (m ≫= f) w = (Throw e, w').
Proof. intros H. by rewrite bind_run, H. Qed.

Lemma commit_healthy (f : World -> World) (w : World) :
  outage w = None -> commit f w = (Ok tt, f w).
Proof. intros H. unfold commit. by rewrite H. Qed.

(** A key made by [newKey] is not in use. *)
Lemma pad_length n : String.length (pad n) = n.
Proof. induction n as [| n IH]; simpl; congruence. Qed.

Lemma newKey_fresh {A} (m : gmap string A) : m !! newKey m = None.
Proof.
  destruct (m !! newKey m) as [a |] eqn:Hm; [| done].
  exfalso.
  assert (Hin : String.length (newKey m)
                ∈ String.length <$> (map_to_list m).*1).
  { apply list_elem_of_fmap. exists (newKey m). split; [done |].
    apply list_elem_of_fmap. exists (newKey m, a). split; [done |].
    by apply elem_of_map_to_list. }
  apply max_list_elem_of_le in Hin.
  unfold newKey in Hin at 1. rewrite pad_length in Hin. lia.
Qed.

(** ** Reading a pickup *)

Lemma withRelations_run pickup priority pickupType w :
  withRelations pickup priority pickupType w =
  match bins w !! Pickup.binId pickup.2 with
  | Some b =>
      (Ok (formatPickupResponse pickup (Pickup.binId pickup.2, b)
             (Pickup.driverId pickup.2 ≫= (fun d => pair d <$> drivers w !! d))
             priority pickupType), w)
  | None => (Throw clientError, w)
  end.
Proof. unfold withRelations. rewrite !bind_run. simpl. by case_match. Qed.

(** Programs that only read leave the database as it is. *)
Definition reads {A} (m : DB A) : Prop := forall w, (m w).2 = w.

Lemma reads_ret {A} (a : A) : reads (mret a).
Proof. by intros w. Qed.

Lemma reads_gets {A} (f : World -> A) : reads (gets f).
Proof. by intros w. Qed.

Lemma reads_throw {A} e : reads (@throw A e).
Proof. by intros w. Qed.

Lemma reads_httpError {A} msg code : reads (@httpError A msg code).
Proof. by intros w. Qed.

Lemma reads_bind {A B} (m : DB A) (f : A -> DB B) :
  reads m -> (forall a, reads (f a)) -> reads (m ≫= f).
Proof.
  intros Hm Hf w. rewrite bind_run. specialize (Hm w).
  destruct (m w) as [[a | e] w1]; simpl in Hm; subst w1; [apply Hf | done].
Qed.

Create HintDb reads.
#[export] Hint Resolve reads_ret reads_gets reads_throw reads_httpError : reads.

Ltac reads_tac :=
  repeat first
    [ apply reads_bind; [| intros ?]
    | progress auto with reads
    | case_match ].

Lemma bind_ok_inv {A B} (m : DB A) (f : A -> DB B) w b w2 :
  (m ≫= f) w = (Ok b, w2) ->
  exists a w1, m w = (Ok a, w1) /\ f a w1 = (Ok b, w2).
Proof.
  rewrite bind_run. destruct (m w) as [[a | e] w1]; [| done].
  intros H. by exists a, w1.
Qed.

Lemma withRelations_reads pickup priority pickupType :
  reads (withRelations pickup priority pickupType).
Proof. unfold withRelations. reads_tac. Qed.

(** [getPickupById] does not write. *)
Lemma getPickupById_reads pickupId role userId :
  reads (getPickupById pickupId role userId).
Proof.
  unfold getPickupById. reads_tac.
Qed.

(** What a successful [getPickupById] returns. *)
Lemma getPickupById_ok pickupId role userId w r w' :
  getPickupById pickupId role userId w = (Ok r, w') ->
  w' = w /\
  exists p b,
    pickups w !! pickupId = Some p /\
    bins w !! Pickup.binId p = Some b /\
    r = formatPickupResponse (pickupId, p) (Pickup.binId p, b)
          (Pickup.driverId p ≫= (fun d => pair d <$> drivers w !! d))
          MEDIUM PickupType.ON_DEMAND.
Proof.
  intros H.
  assert (Hw : w' = w).
  { pose proof (getPickupById_reads pickupId role userId w) as Hr.
    by rewrite H in Hr. }
  subst w'.
  split; [done |].
  revert H. unfold getPickupById. rewrite bind_run. simpl.
  destruct (pickups w !! pickupId) as [p |]; [| done].
  case_match; [done |].
  intros (u & w1 & Hchk & Hrel)%bind_ok_inv.
  assert (Hw : w1 = w).
  { match type of Hchk with ?m w = _ => assert (Hr : reads m) by reads_tac end.
    specialize (Hr w). by rewrite Hchk in Hr. }
  subst w1.
  rewrite withRelations_run in Hrel. simpl in Hrel.
  destruct (bins w !! Pickup.binId p) as [b |] eqn:Hb; [| done].
  injection Hrel as <-. by exists p, b.
Qed.

(** An administrator may read every pickup whose bin exists. *)
Lemma getPickupById_admin pickupId userId w p b :
  pickups w !! pickupId = Some p ->
  bins w !! Pickup.binId p = Some b ->
  getPickupById pickupId ADMIN userId w =
  (Ok (formatPickupResponse (pickupId, p) (Pickup.binId p, b)
         (Pickup.driverId p ≫= (fun d => pair d <$> drivers w !! d))
         MEDIUM PickupType.ON_DEMAND), w).
Proof.
  intros Hp Hb. unfold getPickupById. rewrite bind_run. simpl. rewrite Hp.
  simpl. rewrite bind_run. simpl. rewrite withRelations_run. simpl.
  by rewrite Hb.
Qed.

(** ** Status transitions *)

Lemma pickup_update_healthy id d w p :
  outage w = None -> pickups w !! id = Some p ->
  pickup_update id d w = (Ok tt, setPickups (alter (applyPickupData d) id) w).
Proof.
  intros Hout Hp. unfold pickup_update. rewrite bind_run. simpl. rewrite Hp.
  by apply commit_healthy.
Qed.

Lemma bin_update_healthy id f w b :
  outage w = None -> bins w !! id = Some b ->
  bin_update id f w = (Ok tt, setBins (alter f id) w).
Proof.
  intros Hout Hb. unfold bin_update. rewrite bind_run. simpl. rewrite Hb.
  by apply commit_healthy.
Qed.

(** The whole effect of a status update on a database that accepts writes. *)
Lemma updatePickupStatus_healthy now pickupId statusData role userId w r :
  outage w = None ->
  getPickupById pickupId role userId w = (Ok r, w) ->
  updatePickupStatus now pickupId statusData role userId w =
  (Ok statusUpdated,
   setPickups (alter (applyPickupData (stampedData now statusData r)) pickupId)
     (if firstCompletion statusData r
      then setBins (alter (emptied now) (PickupResponse.bin r).1) w
      else w)).
Proof.
  intros Hout Hget.
  destruct (getPickupById_ok _ _ _ _ _ _ Hget) as (_ & p & b & Hp & Hb & Hr).
  unfold updatePickupStatus. rewrite (bind_ok _ _ _ _ _ Hget).
  unfold stampedData, firstStart, firstCompletion.
  destruct (bool_decide (PickupStatusUpdate.status statusData = IN_PROGRESS)
            && bool_decide (PickupResponse.startedAt r = None)) eqn:Hstart.
  - assert (bool_decide (PickupStatusUpdate.status statusData = COMPLETED)
            = false) as ->.
    { apply andb_true_iff in Hstart as [Hs%bool_decide_eq_true _].
      apply bool_decide_eq_false. by rewrite Hs. }
    simpl. rewrite bind_run. simpl. rewrite bind_run.
    by rewrite (pickup_update_healthy _ _ _ p).
  - destruct (bool_decide (PickupStatusUpdate.status statusData = COMPLETED)
              && bool_decide (PickupResponse.completedAt r = None)).
    + rewrite !bind_run.
      assert (Hbin : bins w !! (PickupResponse.bin r).1 = Some b)
        by (by rewrite Hr).
      rewrite (bin_update_healthy _ _ _ b) by done. simpl.
      rewrite bind_run.
      by rewrite (pickup_update_healthy _ _ _ p).
    + rewrite bind_run. simpl. rewrite bind_run.
      by rewrite (pickup_update_healthy _ _ _ p).
Qed.

Lemma applyPickupData_status d p :
  Pickup.status (applyPickupData d p) =
  default (Pickup.status p) (PickupData.status d).
Proof. done. Qed.

Lemma stampedData_status now statusData r :
  PickupData.status (stampedData now statusData r) =
  Some (PickupStatusUpdate.status statusData).
Proof. unfold stampedData. by repeat case_match. Qed.

Lemma pickups_if_setBins (c : bool) f w :
  pickups (if c then setBins f w else w) = pickups w.
Proof. by destruct c. Qed.

Lemma cancelPickup_healthy pickupId reason role userId w r :
  outage w = None ->
  getPickupById pickupId role userId w = (Ok r, w) ->
  cancelPickup pickupId reason role userId w =
  if bool_decide (PickupResponse.status r = COMPLETED)
  then (Throw {| AppError.message := "Cannot cancel completed pickup";
                 AppError.statusCode := Some 400%Z |}, w)
  else (Ok pickupCancelled,
        setPickups (alter (applyPickupData
          {| PickupData.status := Some CANCELLED;
             PickupData.notes := Some reason;
             PickupData.startedAt := None;
             PickupData.completedAt := None;
             PickupData.driverId := None |}) pickupId) w).
Proof.
  intros Hout Hget.
  destruct (getPickupById_ok _ _ _ _ _ _ Hget) as (_ & p & b & Hp & Hb & Hr).
  unfold cancelPickup. rewrite (bind_ok _ _ _ _ _ Hget).
  case_match; [done |].
  rewrite bind_run. by rewrite (pickup_update_healthy _ _ _ p).
Qed.

Lemma onePickupWorld_read s started completed out :
  let p := pickupIn s started completed in
  getPickupById "p1" ADMIN "admin" (onePickupWorld p out) =
  (Ok (responseOf p), onePickupWorld p out).
Proof.
  intros p.
  by rewrite (getPickupById_admin "p1" "admin" _ p (depotBin 96)).
Qed.

(** C1, as stated, fails: a status update of a [COMPLETED] pickup back to
    [SCHEDULED] is accepted and changes the pickup, and the cancellation of
    a [CANCELLED] pickup is accepted too; neither fails with InvalidState. *)
Lemma terminal_status_reopened :
  let finished := pickupIn COMPLETED (Some 10%Z) (Some 20%Z) in
  let cancelled := pickupIn CANCELLED None None in
  terminal (Pickup.status finished) /\
  (exists w',
     updatePickupStatus 30 "p1" (setStatus SCHEDULED) ADMIN "admin"
       (onePickupWorld finished None) = (Ok statusUpdated, w') /\
     Pickup.status <$> pickups w' !! "p1" = Some SCHEDULED) /\
  terminal (Pickup.status cancelled) /\
  (exists w',
     cancelPickup "p1" "again" ADMIN "admin" (onePickupWorld cancelled None)
     = (Ok pickupCancelled, w')).
Proof.
  intros finished cancelled. split; [by left |]. split.
  - eexists. split.
    + apply updatePickupStatus_healthy; [done | apply onePickupWorld_read].
    + done.
  - split; [by right |]. eexists.
    rewrite (cancelPickup_healthy _ _ _ _ _ (responseOf cancelled));
      [done | done | apply onePickupWorld_read].
Qed.

(** C1, amended: the status update checks no current status. For a requester
    who may read the pickup, on a database that accepts writes, it succeeds
    from every status and stores the requested status; the cancellation fails
    with InvalidState exactly when the pickup is [COMPLETED], leaving the
    database as it was, and otherwise stores [CANCELLED] with the reason. *)
Theorem status_update_unguarded now pickupId statusData reason role userId w r :
  outage w = None ->
  getPickupById pickupId role userId w = (Ok r, w) ->
  (exists w',
     updatePickupStatus now pickupId statusData role userId w
     = (Ok statusUpdated, w') /\
     Pickup.status <$> pickups w' !! pickupId
     = Some (PickupStatusUpdate.status statusData)) /\
  (PickupResponse.status r = COMPLETED ->
   exists e,
     cancelPickup pickupId reason role userId w = (Throw e, w) /\
     errorKind e = InvalidState) /\
  (PickupResponse.status r <> COMPLETED ->
   exists w',
     cancelPickup pickupId reason role userId w = (Ok pickupCancelled, w') /\
     Pickup.status <$> pickups w' !! pickupId = Some CANCELLED /\
     (pickups w' !! pickupId) ≫= Pickup.notes = Some reason).
Proof.
  intros Hout Hget.
  destruct (getPickupById_ok _ _ _ _ _ _ Hget) as (_ & p & b & Hp & Hb & Hr).
  split; [| split].
  - eexists. split; [by apply updatePickupStatus_healthy |].
    simpl. rewrite pickups_if_setBins, lookup_alter_eq, Hp. simpl.
    by rewrite stampedData_status.
  - intros Hc. eexists.
    rewrite (cancelPickup_healthy _ _ _ _ _ r) by done.
    rewrite bool_decide_eq_true_2 by done. done.
  - intros Hc. eexists.
    rewrite (cancelPickup_healthy _ _ _ _ _ r) by done.
    rewrite bool_decide_eq_false_2 by done.
    split; [done |]. simpl. by rewrite lookup_alter_eq, Hp.
Qed.

Lemma status_update_unguarded_witness :
  let p := pickupIn IN_PROGRESS (Some 10%Z) None in
  let w := onePickupWorld p None in
  outage w = None /\
  getPickupById "p1" ADMIN "admin" w = (Ok (responseOf p), w) /\
  exists w',
    updatePickupStatus 30 "p1" (setStatus COMPLETED) ADMIN "admin" w
    = (Ok statusUpdated, w') /\
    Pickup.status <$> pickups w' !! "p1" = Some COMPLETED.
Proof.
  intros p w. split; [reflexivity |]. split; [apply onePickupWorld_read |].
  apply (status_update_unguarded 30 "p1" (setStatus COMPLETED) "late"
           ADMIN "admin" w (responseOf p));
    [reflexivity | apply onePickupWorld_read].
Defined.

(** C9: a repeated transition to [IN_PROGRESS] once the start time is
    stamped, or to [COMPLETED] once the completion time is stamped, succeeds
    and leaves both timestamps, and the bins, as they were. *)
Theorem repeated_transition_keeps_timestamps
    now pickupId statusData role userId w r p :
  outage w = None ->
  getPickupById pickupId role userId w = (Ok r, w) ->
  pickups w !! pickupId = Some p ->
  (PickupStatusUpdate.status statusData = IN_PROGRESS /\
   is_Some (Pickup.startedAt p)) \/
  (PickupStatusUpdate.status statusData = COMPLETED /\
   is_Some (Pickup.completedAt p)) ->
  exists w' p',
    updatePickupStatus now pickupId statusData role userId w
    = (Ok statusUpdated, w') /\
    pickups w' !! pickupId = Some p' /\
    Pickup.startedAt p' = Pickup.startedAt p /\
    Pickup.completedAt p' = Pickup.completedAt p /\
    bins w' = bins w.
Proof.
  intros Hout Hget Hp Hrep.
  destruct (getPickupById_ok _ _ _ _ _ _ Hget) as (_ & p0 & b & Hp0 & Hb & Hr).
  assert (p0 = p) as -> by congruence.
  assert (Hfs : firstStart statusData r = false).
  { unfold firstStart. rewrite Hr. simpl.
    destruct Hrep as [[Hs [t Ht]] | [Hs _]]; rewrite Hs.
    - rewrite Ht. by rewrite andb_false_r.
    - done. }
  assert (Hfc : firstCompletion statusData r = false).
  { unfold firstCompletion. rewrite Hr. simpl.
    destruct Hrep as [[Hs _] | [Hs [t Ht]]]; rewrite Hs.
    - done.
    - rewrite Ht. by rewrite andb_false_r. }
  eexists _, _. split; [by apply updatePickupStatus_healthy |].
  rewrite Hfc. simpl. rewrite lookup_alter_eq, Hp. simpl.
  split; [done |]. unfold stampedData. rewrite Hfs, Hfc. done.
Qed.

Lemma repeated_transition_keeps_timestamps_witness :
  let p := pickupIn IN_PROGRESS (Some 10%Z) None in
  let w := onePickupWorld p None in
  exists w' p',
    updatePickupStatus 30 "p1" (setStatus IN_PROGRESS) ADMIN "admin" w
    = (Ok statusUpdated, w') /\
    pickups w' !! "p1" = Some p' /\
    Pickup.startedAt p' = Some 10%Z /\
    Pickup.completedAt p' = None /\
    bins w' = bins w.
Proof.
  intros p w.
  apply (repeated_transition_keeps_timestamps 30 "p1"
           (setStatus IN_PROGRESS) ADMIN "admin" w (responseOf p) p).
  - reflexivity.
  - apply onePickupWorld_read.
  - reflexivity.
  - left. split; [reflexivity |]. by eexists.
Defined.

(** C2: on a database that accepts writes the first transition to
    [COMPLETED] stamps the completion time and leaves the bin reset; but the
    bin update and the pickup update are two statements, and when the second
    one is rejected the bin stays reset while the pickup is unchanged. *)
Theorem completion_is_two_writes now pickupId statusData role userId w r :
  getPickupById pickupId role userId w = (Ok r, w) ->
  firstCompletion statusData r = true ->
  (outage w = None ->
   exists w' p' b',
     updatePickupStatus now pickupId statusData role userId w
     = (Ok statusUpdated, w') /\
     pickups w' !! pickupId = Some p' /\
     Pickup.status p' = COMPLETED /\
     Pickup.completedAt p' = Some now /\
     bins w' !! (PickupResponse.bin r).1 = Some b' /\
     binReset now b') /\
  (outage w = Some 1 ->
   exists e w' b',
     updatePickupStatus now pickupId statusData role userId w
     = (Throw e, w') /\
     pickups w' = pickups w /\
     bins w' !! (PickupResponse.bin r).1 = Some b' /\
     binReset now b').
Proof.
  intros Hget Hfc.
  destruct (getPickupById_ok _ _ _ _ _ _ Hget) as (_ & p & b & Hp & Hb & Hr).
  assert (Hbin : bins w !! (PickupResponse.bin r).1 = Some b)
    by (by rewrite Hr).
  pose proof Hfc as Hfc'. unfold firstCompletion in Hfc'.
  apply andb_true_iff in Hfc' as [Hs%bool_decide_eq_true Hc%bool_decide_eq_true].
  assert (Hfs : firstStart statusData r = false).
  { unfold firstStart. by rewrite Hs. }
  split.
  - intros Hout. eexists _, _, _.
    split; [by apply updatePickupStatus_healthy |].
    rewrite Hfc. simpl. rewrite !lookup_alter_eq, Hp, Hbin. simpl.
    split; [done |]. unfold stampedData. rewrite Hfs, Hfc. simpl.
    rewrite Hs. done.
  - intros Hout. unfold updatePickupStatus.
    rewrite (bind_ok _ _ _ _ _ Hget).
    unfold firstStart, firstCompletion in Hfs, Hfc. rewrite Hfs, Hfc.
    rewrite !bind_run.
    unfold bin_update at 1. rewrite bind_run. simpl. rewrite Hbin.
    unfold commit at 1. rewrite Hout. simpl.
    rewrite bind_run.
    unfold pickup_update at 1. rewrite bind_run. simpl. rewrite Hp.
    unfold commit. simpl.
    eexists _, _, _. split; [done |]. simpl.
    rewrite lookup_alter_eq, Hbin. done.
Qed.

Lemma completion_is_two_writes_witness :
  let p := pickupIn IN_PROGRESS (Some 10%Z) None in
  let w := onePickupWorld p (Some 1) in
  exists e w' b',
    updatePickupStatus 30 "p1" (setStatus COMPLETED) ADMIN "admin" w
    = (Throw e, w') /\
    pickups w' = pickups w /\
    bins w' !! "b1" = Some b' /\
    binReset 30 b'.
Proof.
  intros p w.
  apply (completion_is_two_writes 30 "p1" (setStatus COMPLETED)
           ADMIN "admin" w (responseOf p));
    [apply onePickupWorld_read | reflexivity | reflexivity].
Defined.

(** ** Creating a pickup *)

(** [if (data.driverId)] holds for an id other than the empty one. *)
Lemma truthyId_Some id s :
  truthyId id = Some s <-> id = Some s /\ s <> EmptyString.
Proof.
  unfold truthyId. destruct id as [s' |]; [| by split; [| intros [? _]]].
  case_bool_decide as He; split.
  - done.
  - intros [[= ->] Hne]. done.
  - by intros [= ->].
  - by intros [[= ->] _].
Qed.

Lemma commit_ok_inv f w u w' :
  commit f w = (Ok u, w') ->
  bins w' = bins (f w) /\ drivers w' = drivers (f w) /\
  pickups w' = pickups (f w) /\ routes w' = routes (f w) /\
  routeStops w' = routeStops (f w).
Proof.
  unfold commit. destruct (outage w) as [[| n] |]; [done | |];
    by intros [= _ <-].
Qed.

Lemma pickup_create_ok_inv row w pk w' :
  pickup_create row w = (Ok pk, w') ->
  pk = (newKey (pickups w), row) /\
  pickups w' = <[newKey (pickups w) := row]> (pickups w) /\
  bins w' = bins w /\ drivers w' = drivers w.
Proof.
  unfold pickup_create. rewrite bind_run. simpl. rewrite bind_run.
  destruct (commit _ w) as [[u | e] w1] eqn:Hc; [| done].
  intros [= <- <-].
  apply commit_ok_inv in Hc as (Hb & Hd & Hp & _). by rewrite Hb, Hd, Hp.
Qed.

Lemma pickup_create_healthy row w :
  outage w = None ->
  pickup_create row w =
  (Ok (newKey (pickups w), row),
   setPickups (insert (newKey (pickups w)) row) w).
Proof.
  intros Hout. unfold pickup_create. rewrite bind_run. simpl.
  rewrite bind_run. by rewrite commit_healthy.
Qed.

Lemma commit_throw_inv f w e w' : commit f w = (Throw e, w') -> w' = w.
Proof.
  unfold commit. destruct (outage w) as [[| n] |]; [| done | done].
  by intros [= _ <-].
Qed.

Lemma pickup_create_run row w :
  pickup_create row w =
  match commit (setPickups (insert (newKey (pickups w)) row)) w with
  | (Ok _, w1) => (Ok (newKey (pickups w), row), w1)
  | (Throw e, w1) => (Throw e, w1)
  end.
Proof.
  unfold pickup_create. rewrite bind_run. simpl. rewrite bind_run.
  by destruct (commit _ w) as [[[] | e] w1].
Qed.

(** [createPickup], step by step. *)
Lemma createPickup_run {rt : Runtime} now data role userId w :
  createPickup now data role userId w =
  match bins w !! CreatePickupRequest.binId data with
  | None =>
      (Throw {| AppError.message := "Bin not found";
                AppError.statusCode := Some 404%Z |}, w)
  | Some bin =>
      if bool_decide (role = USER) &&
         negb (bool_decide (Bin.userId bin = Some userId))
      then (Throw {| AppError.message :=
                       "You can only create pickups for your own bins";
                     AppError.statusCode := Some 403%Z |}, w)
      else
        let accepted :=
          match truthyId (CreatePickupRequest.driverId data) with
          | Some driverId =>
              match drivers w !! driverId with
              | Some d => Driver.user_isActive d && Driver.isAvailable d
              | None => false
              end
          | None => true
          end in
        if accepted then
          match pickup_create
                  (createdRow now data userId bin (assignedDriver w data bin)) w
          with
          | (Ok pickup, w1) =>
              withRelations pickup
                (derivePriority (CreatePickupRequest.priority data)
                   (Bin.currentLevel bin))
                (default PickupType.ON_DEMAND
                   (CreatePickupRequest.pickupType data)) w1
          | (Throw e, w1) => (Throw e, w1)
          end
        else
          (Throw {| AppError.message := "Driver not found or not available";
                    AppError.statusCode := Some 400%Z |}, w)
  end.
Proof.
  unfold createPickup, assignedDriver. rewrite bind_run. simpl.
  destruct (bins w !! CreatePickupRequest.binId data) as [bin |]; [| done].
  destruct (bool_decide (role = USER) && _); [done |].
  rewrite bind_run.
  destruct (truthyId (CreatePickupRequest.driverId data)) as [driverId |].
  - rewrite bind_run. simpl.
    destruct (drivers w !! driverId) as [d |]; [| done].
    destruct (Driver.user_isActive d && Driver.isAvailable d); [| done].
    simpl. rewrite bind_run. simpl. by rewrite bind_run.
  - simpl. rewrite bind_run.
    destruct (Rle_dec 80 (Bin.currentLevel bin)); simpl; by rewrite bind_run.
Qed.

(** What a successful [createPickup] has done. *)
Lemma createPickup_ok {rt : Runtime} now data role userId w r w' :
  createPickup now data role userId w = (Ok r, w') ->
  exists bin assigned,
    bins w !! CreatePickupRequest.binId data = Some bin /\
    let id := newKey (pickups w) in
    let row := createdRow now data userId bin assigned in
    pickups w' = <[id := row]> (pickups w) /\
    bins w' = bins w /\ drivers w' = drivers w /\
    PickupResponse.id r = id /\
    PickupResponse.status r = SCHEDULED /\
    PickupResponse.priority r =
      derivePriority (CreatePickupRequest.priority data)
        (Bin.currentLevel bin) /\
    PickupResponse.scheduledAt r = Pickup.scheduledAt row /\
    PickupResponse.notes r = CreatePickupRequest.notes data.
Proof.
  rewrite createPickup_run.
  destruct (bins w !! CreatePickupRequest.binId data) as [bin |] eqn:Hbin;
    [| done].
  destruct (bool_decide (role = USER) && _); [done |]. cbv zeta.
  destruct (match truthyId (CreatePickupRequest.driverId data) with
            | Some driverId => _ | None => true end); [| done].
  rewrite pickup_create_run.
  destruct (commit _ w) as [[[] | e1] w1] eqn:Hc; [| done].
  rewrite withRelations_run. simpl.
  apply commit_ok_inv in Hc as (Hb & Hd & Hp & _). simpl in Hb, Hd, Hp.
  rewrite Hb, Hbin. intros [= <- <-].
  exists bin, (assignedDriver w data bin). split; [done |]. by simpl.
Qed.

(** An administrator's request without a driver succeeds on a database that
    accepts writes, whenever the bin exists. *)
Lemma createPickup_admin {rt : Runtime} now data userId w bin :
  bins w !! CreatePickupRequest.binId data = Some bin ->
  CreatePickupRequest.driverId data = None ->
  outage w = None ->
  exists r,
    createPickup now data ADMIN userId w =
    (Ok r,
     setPickups
       (insert (newKey (pickups w))
          (createdRow now data userId bin (assignedDriver w data bin))) w).
Proof.
  intros Hbin Hdrv Hout. rewrite createPickup_run, Hbin. simpl.
  rewrite Hdrv. simpl. rewrite pickup_create_healthy by done.
  rewrite withRelations_run. simpl. rewrite Hbin. by eexists.
Qed.

Lemma derivePriority_cases requested level :
  ((95 <= level)%R -> derivePriority requested level = URGENT) /\
  ((85 <= level < 95)%R -> derivePriority requested level = HIGH) /\
  ((level < 85)%R ->
   derivePriority requested level = default MEDIUM requested).
Proof.
  unfold derivePriority.
  destruct (Rle_dec 95 level), (Rle_dec 85 level);
    repeat split; intros; try done; lra.
Qed.

(** C5: the priority of a created pickup is [URGENT] from fill level 95,
    [HIGH] from 85, and otherwise the requested priority, [MEDIUM] when none
    is requested; levels 96, 86 and 50 without a requested priority give
    [URGENT], [HIGH] and [MEDIUM]. *)
Theorem createPickup_priority {rt : Runtime} now data role userId w r w' bin :
  bins w !! CreatePickupRequest.binId data = Some bin ->
  createPickup now data role userId w = (Ok r, w') ->
  let level := Bin.currentLevel bin in
  ((95 <= level)%R -> PickupResponse.priority r = URGENT) /\
  ((85 <= level < 95)%R -> PickupResponse.priority r = HIGH) /\
  ((level < 85)%R ->
   PickupResponse.priority r =
   default MEDIUM (CreatePickupRequest.priority data)) /\
  derivePriority None 96 = URGENT /\
  derivePriority None 86 = HIGH /\
  derivePriority None 50 = MEDIUM.
Proof.
  intros Hbin Hrun level.
  apply createPickup_ok in Hrun as (bin' & assigned & Hbin' & Hrun).
  assert (bin' = bin) as -> by congruence.
  destruct Hrun as (_ & _ & _ & _ & _ & Hprio & _).
  rewrite Hprio. fold level.
  destruct (derivePriority_cases (CreatePickupRequest.priority data) level)
    as (H1 & H2 & H3).
  repeat split; try done.
  - apply derivePriority_cases; lra.
  - apply derivePriority_cases; lra.
  - apply (derivePriority_cases None 50); lra.
Qed.

Lemma createPickup_priority_witness :
  exists r w',
    createPickup (rt := engine) 0 plainRequest ADMIN "admin" (oneBinWorld 96) = (Ok r, w') /\
    PickupResponse.priority r = URGENT.
Proof.
  destruct (createPickup_admin (rt := engine) 0 plainRequest "admin" (oneBinWorld 96)
              (depotBin 96)) as [r Hr]; [reflexivity | reflexivity | reflexivity |].
  exists r. eexists. split; [exact Hr |].
  eapply (createPickup_priority (rt := engine) 0 plainRequest ADMIN "admin" (oneBinWorld 96));
    [reflexivity | exact Hr |].
  simpl. lra.
Defined.

(** C6: a pickup created without a requested time is scheduled at the time
    of the call plus 30 minutes for [URGENT], 2 hours for [HIGH], 4 hours for
    [MEDIUM] and 24 hours for [LOW], by the priority derived for it; this is
    the time stored in the row. *)
Theorem createPickup_schedule {rt : Runtime} now data role userId w r w' :
  CreatePickupRequest.scheduledAt data = None ->
  createPickup now data role userId w = (Ok r, w') ->
  let offset :=
    match PickupResponse.priority r with
    | URGENT => 1800000
    | HIGH => 7200000
    | MEDIUM => 14400000
    | LOW => 86400000
    end%Z in
  PickupResponse.scheduledAt r = Some (now + offset)%Z /\
  (pickups w' !! PickupResponse.id r) ≫= Pickup.scheduledAt
  = Some (now + offset)%Z.
Proof.
  intros Hnone Hrun offset.
  apply createPickup_ok in Hrun
    as (bin & assigned & Hbin & Hp & _ & _ & Hid & _ & Hprio & Hsched & _).
  assert (Hat : Pickup.scheduledAt (createdRow now data userId bin assigned)
                = Some (now + offset)%Z).
  { unfold createdRow. simpl. rewrite Hnone. simpl. f_equal.
    unfold offset. rewrite Hprio.
    by destruct (derivePriority _ _). }
  split; [congruence |].
  rewrite Hid, Hp, lookup_insert_eq. done.
Qed.

Lemma createPickup_schedule_witness :
  exists r w',
    createPickup (rt := engine) 1000 plainRequest ADMIN "admin" (oneBinWorld 96)
    = (Ok r, w') /\
    PickupResponse.scheduledAt r = Some 1801000%Z.
Proof.
  destruct (createPickup_admin (rt := engine) 1000 plainRequest "admin" (oneBinWorld 96)
              (depotBin 96)) as [r Hr]; [reflexivity | reflexivity | reflexivity |].
  exists r. eexists. split; [exact Hr |].
  pose proof (createPickup_schedule (rt := engine) 1000 plainRequest ADMIN "admin"
                (oneBinWorld 96) r _ eq_refl Hr) as [Hs _].
  assert (Hprio : PickupResponse.priority r = URGENT).
  { apply (createPickup_ok (rt := engine)) in Hr
      as (bin & assigned & Hbin & _ & _ & _ & _ & _ & Hprio & _).
    change (Some (depotBin 96) = Some bin) in Hbin.
    injection Hbin as <-. rewrite Hprio.
    apply derivePriority_cases. simpl. lra. }
  rewrite Hprio in Hs. exact Hs.
Defined.
(** ** Searching for the nearest candidate *)

Section KeepNearer.
Context {A B : Type} (tag : A -> B) (key : A -> float).

(** The loop returns one of the candidates, and none of the candidates after
    it compared below it. *)
Lemma keepNearer_fold (first : A) (l : list A) :
  exists (i : nat) (x : A),
    (first :: l) !! i = Some x /\
    foldl (keepNearer tag key) (tag first, key first) l = (tag x, key x) /\
    (forall (j : nat) y, (i < j)%nat -> (first :: l) !! j = Some y ->
                         (key y <? key x)%float = false).
Proof.
  induction l as [| z l IH] using rev_ind.
  - exists 0%nat, first. repeat split.
    intros j y Hj Hy. apply lookup_lt_Some in Hy. simpl in Hy. lia.
  - destruct IH as (i & x & Hi & Hfold & Hlater).
    apply lookup_lt_Some in Hi as Hlen.
    rewrite foldl_app. simpl. rewrite Hfold. unfold keepNearer at 1. simpl.
    destruct (key z <? key x)%float eqn:Hlt.
    + exists (length (first :: l)), z. repeat split.
      * rewrite app_comm_cons. by rewrite list_lookup_middle.
      * intros j y Hj Hy. rewrite app_comm_cons in Hy.
        apply lookup_lt_Some in Hy. rewrite length_app in Hy. simpl in *. lia.
    + exists i, x. repeat split.
      * rewrite app_comm_cons. by apply lookup_app_l_Some.
      * intros j y Hj Hy. rewrite app_comm_cons in Hy.
        apply lookup_app_Some in Hy as [Hy | [Hge Hy]]; [by eapply Hlater |].
        apply list_lookup_singleton_Some in Hy as [_ <-]. done.
Qed.

End KeepNearer.

(** The candidates of the nearest-driver search are exactly the drivers that
    are [ONLINE], available, of an active account, with a known position. *)
Lemma elem_of_findMany {A} (m : gmap string A) (p : string * A -> bool) id row :
  (id, row) ∈ findMany m p <-> m !! id = Some row /\ p (id, row) = true.
Proof.
  unfold findMany. rewrite list_elem_of_filter, elem_of_map_to_list. tauto.
Qed.

Lemma elem_of_availableDrivers w id row c :
  (id, row, c) ∈ availableDrivers w <->
  drivers w !! id = Some row /\
  Driver.status row = ONLINE /\ Driver.isAvailable row = true /\
  Driver.user_isActive row = true /\
  Driver.currentLatitude row = Some (Geo.latitude c) /\
  Driver.currentLongitude row = Some (Geo.longitude c).
Proof.
  unfold availableDrivers. rewrite list_elem_of_omap. split.
  - intros ([id' row'] & Hin & Hloc).
    apply elem_of_findMany in Hin as [Hrow Hp].
    unfold locatedDriver in Hloc. simpl in Hloc.
    destruct (Driver.currentLatitude row') as [lat |] eqn:Hlat; [| done].
    destruct (Driver.currentLongitude row') as [lng |] eqn:Hlng; [| done].
    injection Hloc as -> -> <-.
    unfold eligibleDriver in Hp. simpl in Hp.
    apply andb_true_iff in Hp as [Hp Hact].
    apply andb_true_iff in Hp as [Hon%bool_decide_eq_true Hav].
    by rewrite Hlat, Hlng.
  - intros (Hrow & Hon & Hav & Hact & Hlat & Hlng).
    exists (id, row). split.
    + apply elem_of_findMany. split; [done |].
      unfold eligibleDriver. simpl. rewrite Hav, Hact.
      by rewrite bool_decide_eq_true_2.
    + unfold locatedDriver. simpl. rewrite Hlat, Hlng. by destruct c.
Qed.

(** The search answers "none" when there is no candidate, and otherwise one
    of the candidates, below which none of the later candidates compared. *)
Lemma findBestAvailableDriver_scan {rt : Runtime} w binLat binLng :
  match findBestAvailableDriver w binLat binLng with
  | None => availableDrivers w = []
  | Some id =>
      exists (i : nat) d,
        availableDrivers w !! i = Some d /\ d.1.1 = id /\
        (forall (j : nat) d', (i < j)%nat -> availableDrivers w !! j = Some d' ->
           (distanceTo binLat binLng d' <? distanceTo binLat binLng d)%float
           = false)
  end.
Proof.
  unfold findBestAvailableDriver.
  destruct (availableDrivers w) as [| first rest]; [done |].
  destruct (keepNearer_fold (fun d : string * Driver.t * Geo.Coordinates => d)
              (distanceTo binLat binLng) first rest)
    as (i & x & Hi & Hfold & Hlater).
  exists i, x. split; [done |]. split; [| done].
  change (closerDriver binLat binLng)
    with (keepNearer (fun d : string * Driver.t * Geo.Coordinates => d)
            (distanceTo binLat binLng)).
  by rewrite Hfold.
Qed.

Lemma two_drivers_list {A} (a b : A) :
  map_to_list ({[ "d1" := a; "d2" := b ]} : gmap string A)
  = [("d1", a); ("d2", b)].
Proof. vm_compute. reflexivity. Qed.

Lemma antipodeWorld_candidates :
  availableDrivers antipodeWorld
  = [ ("d1", driverAt "u2" farPoint, farPoint);
      ("d2", driverAt "u3" southPoint, southPoint) ].
Proof.
  unfold availableDrivers, findMany. simpl drivers.
  rewrite two_drivers_list. rewrite !filter_cons_True by done. done.
Qed.

Lemma distance_to_antipode :
  Double.calculateDistance (rt := engine) (-82) (-180) 82 0 = nan.
Proof. vm_compute. reflexivity. Qed.

Lemma distance_to_same_point :
  Double.calculateDistance (rt := engine) (-82) (-180) (-82) (-180) = 0%float.
Proof. vm_compute. reflexivity. Qed.

(** C8, where the code departs from it.  The candidates of the search are
    exactly the drivers that are [ONLINE], available, of an active account
    and with a known position, and the search answers "none" exactly when
    there is none, and otherwise one of them, below whose computed distance
    none of the candidates after it compared.  But the candidate it answers
    need not be the nearest: for the bin at (-82, -180), with the driver
    ["d1"] at (82, 0) returned first by the query and the driver ["d2"] at
    the bin itself, the distance computed for ["d1"] is NaN, the test
    [distance < shortestDistance] fails for ["d2"], whose computed distance
    is 0, and the search answers ["d1"], whose great-circle distance is
    half the circumference of the Earth. *)
Theorem findBestAvailableDriver_far_driver :
  (forall (rt : Runtime) w id row c,
     (id, row, c) ∈ availableDrivers w <->
     drivers w !! id = Some row /\
     Driver.status row = ONLINE /\ Driver.isAvailable row = true /\
     Driver.user_isActive row = true /\
     Driver.currentLatitude row = Some (Geo.latitude c) /\
     Driver.currentLongitude row = Some (Geo.longitude c)) /\
  (forall (rt : Runtime) w binLat binLng,
     match findBestAvailableDriver w binLat binLng with
     | None => availableDrivers w = []
     | Some id =>
         exists (i : nat) d,
           availableDrivers w !! i = Some d /\ d.1.1 = id /\
           (forall (j : nat) d',
              (i < j)%nat -> availableDrivers w !! j = Some d' ->
              (distanceTo binLat binLng d' <? distanceTo binLat binLng d)%float
              = false)
     end) /\
  let binLat := @Number engine (Bin.latitude southBin) in
  let binLng := @Number engine (Bin.longitude southBin) in
  let far := ("d1", driverAt "u2" farPoint, farPoint) in
  let near := ("d2", driverAt "u3" southPoint, southPoint) in
  bins antipodeWorld !! "b1" = Some southBin /\
  availableDrivers antipodeWorld = [far; near] /\
  distanceTo (rt := engine) binLat binLng far = nan /\
  distanceTo (rt := engine) binLat binLng near = 0%float /\
  findBestAvailableDriver (rt := engine) antipodeWorld binLat binLng
  = Some "d1" /\
  Geo.calculateDistance (Bin.latitude southBin) (Bin.longitude southBin)
    (Geo.latitude farPoint) (Geo.longitude farPoint) = (6371 * PI)%R /\
  Geo.calculateDistance (Bin.latitude southBin) (Bin.longitude southBin)
    (Geo.latitude southPoint) (Geo.longitude southPoint) = 0%R.
Proof.
  split; [intros; apply elem_of_availableDrivers |].
  split.
  { intros rt w binLat binLng. apply findBestAvailableDriver_scan. }
  cbv zeta.
  assert (Hfar : distanceTo (rt := engine)
                   (@Number engine (Bin.latitude southBin))
                   (@Number engine (Bin.longitude southBin))
                   ("d1", driverAt "u2" farPoint, farPoint) = nan).
  { unfold distanceTo. simpl.
    rewrite engineNumber_82, engineNumber_minus_82, engineNumber_minus_180,
      engineNumber_0.
    apply distance_to_antipode. }
  assert (Hnear : distanceTo (rt := engine)
                    (@Number engine (Bin.latitude southBin))
                    (@Number engine (Bin.longitude southBin))
                    ("d2", driverAt "u3" southPoint, southPoint) = 0%float).
  { unfold distanceTo. simpl.
    rewrite engineNumber_minus_82, engineNumber_minus_180.
    apply distance_to_same_point. }
  split; [done |]. split; [apply antipodeWorld_candidates |].
  split; [done |]. split; [done |]. split.
  - unfold findBestAvailableDriver. rewrite antipodeWorld_candidates.
    cbv zeta. simpl foldl. unfold closerDriver. cbv zeta.
    simpl in Hfar, Hnear. simpl. rewrite Hnear, Hfar. reflexivity.
  - simpl. split.
    + rewrite <- (calculateDistance_antipode (-82) (-180)). f_equal; lra.
    + apply calculateDistance_same.
Qed.

(** The search on a database with one eligible driver. *)
Example findBestAvailableDriver_one_driver :
  forall lat lng,
    findBestAvailableDriver (rt := engine) oneDriverWorld lat lng = Some "d1" /\
    findBestAvailableDriver (rt := engine) (oneBinWorld 96) lat lng = None.
Proof.
  intros lat lng.
  unfold findBestAvailableDriver, availableDrivers, findMany. simpl drivers.
  rewrite map_to_list_singleton, map_to_list_empty.
  rewrite filter_cons_True by done. done.
Qed.
(** ** The nearest-neighbour fallback *)

(** The inner loop answers an index of the list. *)
Lemma nearestIndex_lookup {rt : Runtime} position first rest :
  is_Some ((first :: rest) !! nearestIndex position (first :: rest)).
Proof.
  unfold nearestIndex.
  destruct (keepNearer_fold (fun e : nat * Stop.t => e.1)
              (fun e : nat * Stop.t => computedLeg position e.2)
              (0, first) (zip (seq 1 (length rest)) rest))
    as (i & [k s] & Hi & Hfold & _).
  change (nearerStop position)
    with (keepNearer (fun e : nat * Stop.t => e.1)
            (fun e : nat * Stop.t => computedLeg position e.2)).
  simpl in Hfold. rewrite Hfold. simpl.
  change ((0, first) :: zip (seq 1 (length rest)) rest)
    with (zip (seq 0 (length (first :: rest))) (first :: rest)) in Hi.
  apply lookup_zip_with_Some in Hi as (k' & s0 & [= -> ->] & Hk & Hs).
  apply lookup_seq in Hk as [-> _]. by exists s0.
Qed.

Lemma nearestNeighborLoop_step {rt : Runtime} fuel position first rest optimized :
  nearestNeighborLoop (S fuel) position (first :: rest) optimized =
  match (first :: rest) !! nearestIndex position (first :: rest) with
  | None => None
  | Some s =>
      nearestNeighborLoop fuel (stopLocation s)
        (delete (nearestIndex position (first :: rest)) (first :: rest))
        (optimized ++ [s])
  end.
Proof. reflexivity. Qed.

(** The loop finishes within [length remaining] iterations; it appends to
    [optimized] a permutation of [remaining]. *)
Lemma nearestNeighborLoop_spec {rt : Runtime} fuel position remaining optimized :
  length remaining <= fuel ->
  exists l,
    nearestNeighborLoop fuel position remaining optimized
    = Some (optimized ++ l) /\
    l ≡ₚ remaining.
Proof.
  revert position remaining optimized.
  induction fuel as [| fuel IH]; intros position remaining optimized Hlen.
  - destruct remaining; [| simpl in Hlen; lia].
    exists []. by rewrite app_nil_r.
  - destruct remaining as [| first rest].
    { exists []. by rewrite app_nil_r. }
    destruct (nearestIndex_lookup position first rest) as [s Hs].
    rewrite nearestNeighborLoop_step, Hs.
    set (i := nearestIndex position (first :: rest)) in *.
    pose proof (delete_Permutation _ _ _ Hs) as Hperm.
    destruct (IH (stopLocation s) (delete i (first :: rest))
                (optimized ++ [s])) as (l & Hrun & Hl).
    { apply Permutation_length in Hperm. simpl in Hperm, Hlen. lia. }
    exists (s :: l). split.
    + rewrite Hrun. by rewrite <- app_assoc.
    + by rewrite Hperm, Hl.
Qed.

(** The [catch] block returns, with a permutation of the pickups and the
    total of the computed legs of that order. *)
Lemma fallback_plan_spec {rt : Runtime} startLocation pickups :
  exists plan,
    fallbackPlan startLocation pickups = Some plan /\
    Plan.optimizedPickups plan ≡ₚ pickups /\
    Plan.totalDistance plan
    = routeLength startLocation (Plan.optimizedPickups plan).
Proof.
  destruct (nearestNeighborLoop_spec (length pickups) startLocation pickups [])
    as (l & Hrun & Hperm); [done |].
  unfold fallbackPlan, nearestNeighborOptimization.
  rewrite Hrun. simpl. by eexists.
Qed.

Lemma legDistance_nonneg position s : (0 <= legDistance position s)%R.
Proof. apply calculateDistance_nonneg. Qed.

(** The legs between the bin at (-82, -180) and the point (82, 0), as the
    program computes them. *)
Lemma computedLeg_south_far pickupId :
  computedLeg (rt := engine) southPoint (stopAt pickupId 82 0) = nan.
Proof.
  unfold computedLeg. simpl.
  rewrite engineNumber_82, engineNumber_minus_82, engineNumber_minus_180,
    engineNumber_0.
  apply distance_to_antipode.
Qed.

Lemma computedLeg_south_near pickupId :
  computedLeg (rt := engine) southPoint (stopAt pickupId (-82) (-180))
  = 0%float.
Proof.
  unfold computedLeg. simpl.
  rewrite engineNumber_minus_82, engineNumber_minus_180.
  apply distance_to_same_point.
Qed.

Lemma computedLeg_far_near pickupId :
  computedLeg (rt := engine) farPoint (stopAt pickupId (-82) (-180)) = nan.
Proof.
  unfold computedLeg. simpl.
  rewrite engineNumber_82, engineNumber_minus_82, engineNumber_minus_180,
    engineNumber_0.
  vm_compute. reflexivity.
Qed.

(** C4, where the code departs from it.  For every list of pickups and
    every start position the fallback returns, with a permutation of the
    pickups and, as total, the sum of the legs of that order as the program
    computes them; it is the plan of the optimiser whenever the mapping
    collaborator, consulted for two stops or more, fails, and for a single
    stop the plan is that stop, whatever the collaborator does.  But the
    order need not follow the nearest-neighbour rule and the total need not
    be a distance: from the start (-82, -180), with the pickup ["p1"] at
    (82, 0) listed before the pickup ["p2"] at the start itself, the leg
    computed to ["p1"] is NaN, the test [distance < shortestDistance] fails
    for ["p2"], whose computed leg is 0, the fallback visits ["p1"], half
    the circumference of the Earth away, first, and the total is NaN, which
    is not at least 0. *)
Theorem fallback_visits_far_stop_first :
  (forall (rt : Runtime) (getRoute : RouteRequest.t -> Outcome RouteResponse.t)
          startLocation pickups,
     exists plan,
       fallbackPlan startLocation pickups = Some plan /\
       Plan.optimizedPickups plan ≡ₚ pickups /\
       Plan.totalDistance plan
       = routeLength startLocation (Plan.optimizedPickups plan) /\
       ((forall request, exists e, getRoute request = Throw e) ->
        1 < length pickups ->
        planRoute getRoute startLocation pickups = Some plan)) /\
  (forall (rt : Runtime) (getRoute : RouteRequest.t -> Outcome RouteResponse.t)
          startLocation pickup,
     exists plan,
       planRoute getRoute startLocation [pickup] = Some plan /\
       Plan.optimizedPickups plan = [pickup] /\
       Plan.totalDistance plan
       = Double.calculateHaversineDistance startLocation
           (stopLocation pickup)) /\
  let far := stopAt "p1" 82 0 in
  let near := stopAt "p2" (-82) (-180) in
  exists plan,
    planRoute (rt := engine) mapsDown southPoint [far; near] = Some plan /\
    Plan.optimizedPickups plan = [far; near] /\
    computedLeg (rt := engine) southPoint far = nan /\
    computedLeg (rt := engine) southPoint near = 0%float /\
    Plan.totalDistance plan = nan /\
    (0 <=? Plan.totalDistance plan)%float = false /\
    legDistance southPoint far = (6371 * PI)%R /\
    legDistance southPoint near = 0%R /\
    ~ nearestFirst southPoint (Plan.optimizedPickups plan).
Proof.
  split; [| split].
  - intros rt getRoute startLocation pickups.
    destruct (fallback_plan_spec startLocation pickups)
      as (plan & Hplan & Hperm & Htotal).
    exists plan. split; [done |]. split; [done |]. split; [done |].
    intros Hdown Hlen. unfold planRoute, primaryPlan.
    rewrite length_fmap. rewrite bool_decide_eq_true_2 by done.
    match goal with |- context [getRoute ?req] =>
      destruct (Hdown req) as [e ->] end.
    done.
  - intros rt getRoute startLocation pickup. by eexists.
  - cbv zeta.
    assert (Hfar : legDistance southPoint (stopAt "p1" 82 0) = (6371 * PI)%R).
    { unfold legDistance. simpl.
      rewrite <- (calculateDistance_antipode (-82) (-180)). f_equal; lra. }
    assert (Hnear : legDistance southPoint (stopAt "p2" (-82) (-180)) = 0%R).
    { apply calculateDistance_same. }
    assert (Hindex :
      nearestIndex (rt := engine) southPoint
        [stopAt "p1" 82 0; stopAt "p2" (-82) (-180)] = 0).
    { unfold nearestIndex. simpl foldl. unfold nearerStop. cbv zeta.
      cbn [fst snd].
      by rewrite computedLeg_south_far, computedLeg_south_near. }
    assert (Hfallback :
      fallbackPlan (rt := engine) southPoint
        [stopAt "p1" 82 0; stopAt "p2" (-82) (-180)]
      = Some {| Plan.optimizedPickups :=
                  [stopAt "p1" 82 0; stopAt "p2" (-82) (-180)];
                Plan.totalDistance := nan;
                Plan.estimatedDuration := nan |}).
    { unfold fallbackPlan, nearestNeighborOptimization.
      cbn [length]. rewrite nearestNeighborLoop_step, Hindex.
      cbn [lookup list_lookup delete list_delete app].
      rewrite nearestNeighborLoop_step.
      cbn [nearestIndex length seq zip zip_with foldl fst lookup list_lookup
           delete list_delete app nearestNeighborLoop mbind option_bind].
      unfold routeLength. cbn [foldl]. unfold addLeg. cbn [fst snd].
      change (stopLocation (stopAt "p1" 82 0)) with farPoint.
      rewrite computedLeg_south_far, computedLeg_far_near.
      reflexivity. }
    eexists. split.
    { unfold planRoute, primaryPlan. cbv zeta. rewrite length_fmap.
      rewrite bool_decide_eq_true_2 by (simpl; lia).
      unfold mapsDown at 1. exact Hfallback. }
    cbn [Plan.optimizedPickups Plan.totalDistance].
    split; [done |].
    split; [apply computedLeg_south_far |].
    split; [apply computedLeg_south_near |].
    split; [done |]. split; [done |]. split; [done |]. split; [done |].
    intros [Hmin _].
    specialize (Hmin (stopAt "p2" (-82) (-180))).
    rewrite Hfar, Hnear in Hmin. pose proof PI_RGT_0.
    assert ((6371 * PI <= 0)%R); [| lra].
    apply Hmin. set_solver.
Qed.

(** ** Drivers within a radius *)








(** At a pole the longitude clause excludes nobody: the driver at
    (89.99, 50) passes the query of the database for the drivers around
    (90, 0). *)
Example nearbyWhere_at_the_pole :
  nearbyWhere aroundThePole ("d3", polarDriver) = true.
Proof.
  unfold nearbyWhere, longitudeWithin, radiusOf. simpl.
  destruct (Req_dec_T 10 0) as [? | _]; [lra |].
  replace (90 * PI / 180)%R with (PI / 2)%R by lra. rewrite cos_PI2.
  destruct (Req_dec_T (111 * 0) 0) as [_ | Hne]; [| lra].
  rewrite !bool_decide_eq_true_2; done || lra || by eexists.
Qed.





(** ** The reassignment after route optimisation *)

Lemma route_create_ok_inv row w rt w' :
  route_create row w = (Ok rt, w') ->
  pickups w' = pickups w /\ rt.1 = newKey (routes w).
Proof.
  unfold route_create. rewrite bind_run. simpl. rewrite bind_run.
  destruct (commit _ w) as [[u | e] w1] eqn:Hc; [| done].
  intros [= <- <-]. by apply commit_ok_inv in Hc as (_ & _ & -> & _).
Qed.

Lemma routeStop_create_ok_inv row w st w' :
  routeStop_create row w = (Ok st, w') -> pickups w' = pickups w.
Proof.
  unfold routeStop_create. rewrite bind_run. simpl. rewrite bind_run.
  destruct (commit _ w) as [[u | e] w1] eqn:Hc; [| done].
  intros [= <- <-]. by apply commit_ok_inv in Hc as (_ & _ & -> & _).
Qed.

Lemma createRouteStops_pickups routeId i previous currentTime stops w l w' :
  createRouteStops routeId i previous currentTime stops w = (Ok l, w') ->
  pickups w' = pickups w.
Proof.
  revert i previous currentTime w l.
  induction stops as [| s stops IH]; intros i previous currentTime w l.
  - by intros [= <- <-].
  - simpl. intros (st & w1 & Hst & Hrest)%bind_ok_inv.
    apply bind_ok_inv in Hrest as (l' & w2 & Hrest & Hret).
    injection Hret as <- <-.
    apply routeStop_create_ok_inv in Hst. apply IH in Hrest. congruence.
Qed.

Lemma pickup_updateMany_ok_inv ids d w u w' :
  pickup_updateMany ids d w = (Ok u, w') ->
  forall id,
    pickups w' !! id =
    (fun p => if bool_decide (id ∈ ids) then applyPickupData d p else p)
      <$> pickups w !! id.
Proof.
  unfold pickup_updateMany. intros (_ & _ & Hp & _)%commit_ok_inv id.
  rewrite Hp. simpl. rewrite map_lookup_imap.
  by destruct (pickups w !! id).
Qed.

Lemma applyPickupData_assignDriver driverId p :
  applyPickupData (assignDriver driverId) p = reassigned driverId p.
Proof. done. Qed.

(** C10: after a successful route optimisation every pickup whose id is in
    the requested list, scheduled or not, refers to the given driver and has
    all its other columns as before; the other pickups are unchanged and no
    pickup appears or disappears. *)
Theorem optimizePickupRoute_reassigns {rt : Runtime}
    (getRoute : RouteRequest.t -> Outcome RouteResponse.t)
    (toLocaleDateString : Z -> string) now data w r w' :
  optimizePickupRoute getRoute toLocaleDateString now data w = (Ok r, w') ->
  forall id,
    pickups w' !! id =
    (fun p =>
       if bool_decide (id ∈ PickupRouteOptimization.pickupIds data)
       then reassigned (PickupRouteOptimization.driverId data) p
       else p) <$> pickups w !! id.
Proof.
  unfold optimizePickupRoute. cbv zeta. rewrite bind_run. simpl.
  destruct (drivers w !! PickupRouteOptimization.driverId data)
    as [driver |]; [| done].
  rewrite bind_run. simpl.
  destruct (mapM (toStop w) _) as [[| s stops] |]; [done | | done].
  destruct (planRoute _ _ _) as [plan |]; [| done].
  intros (created & w1 & Hroute & H1)%bind_ok_inv.
  apply bind_ok_inv in H1 as (l & w2 & Hstops & H2).
  apply bind_ok_inv in H2 as (u & w3 & Hmany & Hret).
  injection Hret as <- <-.
  apply route_create_ok_inv in Hroute as [Hp1 _].
  apply createRouteStops_pickups in Hstops.
  intros id. rewrite (pickup_updateMany_ok_inv _ _ _ _ _ Hmany id).
  by rewrite Hstops, Hp1.
Qed.

Lemma route_create_healthy row w :
  outage w = None ->
  route_create row w =
  (Ok (newKey (routes w), row), setRoutes (insert (newKey (routes w)) row) w).
Proof.
  intros Hout. unfold route_create. rewrite bind_run. simpl.
  rewrite bind_run. by rewrite commit_healthy.
Qed.

Lemma routeStop_create_healthy row w :
  outage w = None ->
  routeStop_create row w =
  (Ok (newKey (routeStops w), row),
   setRouteStops (insert (newKey (routeStops w)) row) w).
Proof.
  intros Hout. unfold routeStop_create. rewrite bind_run. simpl.
  rewrite bind_run. by rewrite commit_healthy.
Qed.

Lemma createRouteStops_healthy routeId i previous currentTime stops w :
  outage w = None ->
  exists l w',
    createRouteStops routeId i previous currentTime stops w = (Ok l, w') /\
    outage w' = None.
Proof.
  revert i previous currentTime w.
  induction stops as [| s stops IH]; intros i previous currentTime w Hout.
  - by exists [], w.
  - simpl. rewrite bind_run, routeStop_create_healthy by done.
    rewrite bind_run.
    match goal with |- context [createRouteStops ?r ?j ?p ?t stops ?w1] =>
      destruct (IH j p t w1) as (l & w' & Hrun & Hout'); [done |]
    end.
    rewrite Hrun. by eexists _, _.
Qed.

(** The optimisation succeeds when the driver exists, a requested pickup is
    [SCHEDULED], a plan is found and the database accepts the writes. *)
Lemma optimizePickupRoute_succeeds {rt : Runtime}
    (getRoute : RouteRequest.t -> Outcome RouteResponse.t)
    (toLocaleDateString : Z -> string) now data w driver s stops :
  outage w = None ->
  drivers w !! PickupRouteOptimization.driverId data = Some driver ->
  mapM (toStop w)
    (scheduledPickups w (PickupRouteOptimization.pickupIds data))
  = Some (s :: stops) ->
  is_Some (planRoute getRoute
             (default (defaultStart driver)
                (PickupRouteOptimization.startLocation data)) (s :: stops)) ->
  exists r w',
    optimizePickupRoute getRoute toLocaleDateString now data w = (Ok r, w').
Proof.
  intros Hout Hdriver Hstops [plan Hplan].
  unfold optimizePickupRoute. cbv zeta. rewrite bind_run. simpl.
  rewrite Hdriver. rewrite bind_run. simpl. rewrite Hstops, Hplan.
  rewrite bind_run, route_create_healthy by done.
  rewrite bind_run.
  match goal with |- context [createRouteStops ?r ?j ?p ?t ?l ?w1] =>
    destruct (createRouteStops_healthy r j p t l w1) as (l' & w' & Hrun & Hout');
      [done |]
  end.
  rewrite Hrun. rewrite bind_run.
  unfold pickup_updateMany. rewrite commit_healthy by done. by eexists _, _.
Qed.

Lemma two_pickups_list {A} (a b : A) :
  map_to_list ({[ "p1" := a; "p2" := b ]} : gmap string A)
  = [("p1", a); ("p2", b)].
Proof. vm_compute. reflexivity. Qed.

Lemma optimizePickupRoute_reassigns_witness :
  exists r w',
    optimizePickupRoute (rt := engine) mapsDown isoDate 0 routeRequest routeWorld
    = (Ok r, w') /\
    pickups w' !! "p2"
    = Some (reassigned "d1" (pickupIn COMPLETED (Some 10%Z) (Some 20%Z))).
Proof.
  destruct (optimizePickupRoute_succeeds (rt := engine) mapsDown isoDate 0 routeRequest
              routeWorld eastDriver (stopAt "p1" 0 0) [])
    as (r & w' & Hrun).
  - reflexivity.
  - reflexivity.
  - unfold scheduledPickups, findMany. simpl pickups.
    rewrite two_pickups_list. reflexivity.
  - by eexists.
  - exists r, w'. split; [exact Hrun |].
    rewrite (optimizePickupRoute_reassigns (rt := engine) mapsDown isoDate 0 routeRequest
               routeWorld r w' Hrun "p2").
    reflexivity.
Defined.

(** ** The automatic creation of pickups *)

Section SchedulerFacts.
Context {rt : Runtime}.
Variable numberToString : R -> string.

Lemma createAutomaticPickup_healthy now bin w :
  outage w = None ->
  bins w !! bin.1 = Some bin.2 ->
  createAutomaticPickup numberToString now bin w =
  (Ok tt,
   setPickups (insert (newKey (pickups w)) (automaticRow numberToString now w bin)) w).
Proof.
  intros Hout Hbin. unfold createAutomaticPickup, try_catch.
  destruct (createPickup_admin now (automaticRequest numberToString bin)
              (requesterOf bin) w bin.2) as [r Hr]; [done | done | done |].
  rewrite bind_run, Hr. done.
Qed.

Lemma size_pickupsOfBin_insert w key row binId :
  pickups w !! key = None ->
  size (pickupsOfBin (setPickups (insert key row) w) binId) =
  size (pickupsOfBin w binId) +
  (if decide (Pickup.binId row = binId) then 1 else 0).
Proof.
  intros Hfresh. unfold pickupsOfBin. simpl.
  destruct (decide (Pickup.binId row = binId)) as [Heq | Hne].
  - rewrite map_filter_insert_True by done.
    rewrite map_size_insert_None; [lia |].
    by rewrite map_lookup_filter, Hfresh.
  - rewrite map_filter_insert_not'; [lia | done |].
    intros y Hy. by rewrite Hfresh in Hy.
Qed.

(** The loop over the bins found: one new pickup per turn, the row of the
    turn under a key not in use, and nothing else changes. *)
Lemma forEach_createAutomaticPickup now l w :
  outage w = None ->
  (forall b, b ∈ l -> bins w !! b.1 = Some b.2) ->
  exists w',
    forEach l (createAutomaticPickup numberToString now) w = (Ok tt, w') /\
    outage w' = None /\ bins w' = bins w /\ drivers w' = drivers w /\
    pickups w ⊆ pickups w' /\
    (forall binId,
       size (pickupsOfBin w' binId) =
       size (pickupsOfBin w binId) + length (filter (fun b => b.1 = binId) l)) /\
    (forall b, b ∈ l ->
       exists key,
         pickups w !! key = None /\
         pickups w' !! key = Some (automaticRow numberToString now w b)).
Proof.
  revert w. induction l as [| b l IH]; intros w Hout Hbins.
  - exists w. split; [done |]. split; [done |]. split; [done |].
    split; [done |]. split; [done |]. split.
    + intros binId. simpl. lia.
    + intros b Hb. by apply elem_of_nil in Hb.
  - simpl. rewrite bind_run.
    rewrite createAutomaticPickup_healthy
      by (try done; apply Hbins; apply list_elem_of_here).
    set (key := newKey (pickups w)).
    set (row := automaticRow numberToString now w b).
    set (w1 := setPickups (insert key row) w).
    assert (Hfresh : pickups w !! key = None) by apply newKey_fresh.
    destruct (IH w1) as (w' & Hrun & Hout' & Hb' & Hd' & Hsub & Hsize & Hnew).
    { done. }
    { intros b' Hb'. apply Hbins. by apply list_elem_of_further. }
    assert (Hsub1 : pickups w ⊆ pickups w1) by (by apply insert_subseteq).
    exists w'. split; [done |]. split; [done |]. split; [done |].
    split; [done |].
    split; [by transitivity (pickups w1) |]. split.
    + intros binId. rewrite Hsize. unfold w1.
      rewrite size_pickupsOfBin_insert by done.
      rewrite filter_cons. simpl.
      destruct (decide (b.1 = binId)); simpl; lia.
    + intros b' [-> | Hin]%elem_of_cons.
      * exists key. split; [done |].
        apply (lookup_weaken (pickups w1)); [| done].
        apply lookup_insert_eq.
      * destruct (Hnew b' Hin) as (k & Hk & Hk').
        exists k. split.
        -- by apply (lookup_weaken_None (pickups w) (pickups w1)).
        -- exact Hk'.
Qed.

Lemma elem_of_fullBins w id bin :
  (id, bin) ∈ fullBins w <->
  bins w !! id = Some bin /\ needsPickup w (id, bin) = true.
Proof. apply elem_of_findMany. Qed.

Lemma NoDup_fullBins w : NoDup (fullBins w).*1.
Proof.
  apply (sublist_NoDup _ (map_to_list (bins w)).*1);
    [apply NoDup_fst_map_to_list |].
  apply fmap_sublist. unfold fullBins, findMany. apply sublist_filter.
Qed.

Lemma length_filter_key {A} (l : list (string * A)) id :
  NoDup l.*1 ->
  length (filter (fun b => b.1 = id) l) = if decide (id ∈ l.*1) then 1 else 0.
Proof.
  induction l as [| [k a] l IH]; simpl; [done |].
  intros [Hk Hl]%NoDup_cons. rewrite filter_cons. simpl.
  specialize (IH Hl).
  destruct (decide (k = id)) as [-> | Hne]; simpl.
  - rewrite IH. rewrite decide_False by done.
    rewrite decide_True by apply list_elem_of_here. done.
  - rewrite IH.
    destruct (decide (id ∈ l.*1)) as [Hin | Hnin].
    + rewrite decide_True by (by apply list_elem_of_further). done.
    + rewrite decide_False; [done |].
      intros [? | ?]%elem_of_cons; [congruence | done].
Qed.

(** What one pass of the scheduler does to a database that accepts writes. *)
Lemma checkAndCreateAutomaticPickups_run now w :
  outage w = None ->
  exists w',
    checkAndCreateAutomaticPickups numberToString now w = (Ok tt, w') /\
    outage w' = None /\ bins w' = bins w /\ drivers w' = drivers w /\
    pickups w ⊆ pickups w' /\
    (forall binId,
       size (pickupsOfBin w' binId) =
       size (pickupsOfBin w binId) +
       (if decide (binId ∈ (fullBins w).*1) then 1 else 0)) /\
    (forall b, b ∈ fullBins w ->
       exists key,
         pickups w !! key = None /\
         pickups w' !! key = Some (automaticRow numberToString now w b)).
Proof.
  intros Hout.
  destruct (forEach_createAutomaticPickup now (fullBins w) w)
    as (w' & Hrun & Hout' & Hb & Hd & Hsub & Hsize & Hnew); [done | |].
  { intros [id bin] Hin. by apply elem_of_fullBins in Hin as [? _]. }
  exists w'. unfold checkAndCreateAutomaticPickups, try_catch.
  rewrite bind_run. simpl. rewrite Hrun.
  repeat split; try done.
  intros binId. rewrite Hsize. by rewrite length_filter_key by apply NoDup_fullBins.
Qed.

(** A pass over a database with one bin in need. *)
Lemma checkAndCreateAutomaticPickups_one_bin now w b :
  outage w = None ->
  fullBins w = [b] ->
  checkAndCreateAutomaticPickups numberToString now w =
  (Ok tt,
   setPickups (insert (newKey (pickups w)) (automaticRow numberToString now w b))
     w).
Proof.
  intros Hout Hfull.
  assert (Hbin : bins w !! b.1 = Some b.2).
  { destruct b as [id bin]. apply (elem_of_fullBins w id bin).
    rewrite Hfull. apply list_elem_of_here. }
  unfold checkAndCreateAutomaticPickups, try_catch.
  rewrite bind_run. simpl. rewrite Hfull. simpl. rewrite bind_run.
  by rewrite createAutomaticPickup_healthy.
Qed.

Lemma needsPickup_true w id bin :
  needsPickup w (id, bin) = true <->
  (80 <= Bin.currentLevel bin)%R /\ Bin.isActive bin = true /\
  activePickupsOf w id = [].
Proof.
  unfold needsPickup. simpl.
  rewrite !andb_true_iff, !bool_decide_eq_true. tauto.
Qed.

Lemma elem_of_activePickupsOf w binId key row :
  (key, row) ∈ activePickupsOf w binId <->
  pickups w !! key = Some row /\ Pickup.binId row = binId /\
  (Pickup.status row = SCHEDULED \/ Pickup.status row = IN_PROGRESS).
Proof.
  unfold activePickupsOf. rewrite elem_of_findMany. simpl.
  unfold activeStatus.
  rewrite andb_true_iff, orb_true_iff, !bool_decide_eq_true. tauto.
Qed.

Lemma schedulerPriority_derived level :
  (80 <= level)%R ->
  derivePriority (Some (schedulerPriority level)) level
  = if Rle_dec 95 level then URGENT else HIGH.
Proof.
  intros Hlevel. unfold derivePriority, schedulerPriority. simpl.
  destruct (Rle_dec 95 level); [done |].
  destruct (Rle_dec 85 level); [done |].
  by destruct (Rle_dec 90 level).
Qed.

(** The row of a turn for a bin of fill level 80 or more. *)
Lemma automaticRow_spec now w bin :
  (80 <= Bin.currentLevel bin.2)%R ->
  let row := automaticRow numberToString now w bin in
  Pickup.binId row = bin.1 /\
  Pickup.status row = SCHEDULED /\
  Pickup.createdById row = requesterOf bin /\
  Pickup.notes row
  = Some (automaticNotes numberToString (Bin.currentLevel bin.2)) /\
  Pickup.scheduledAt row
  = Some (calculateScheduledTime now
            (if Rle_dec 95 (Bin.currentLevel bin.2) then URGENT else HIGH)) /\
  Pickup.startedAt row = None /\ Pickup.completedAt row = None /\
  Pickup.driverId row
  = truthyId (findBestAvailableDriver w (Number (Bin.latitude bin.2))
                (Number (Bin.longitude bin.2))).
Proof.
  intros Hlevel. simpl.
  rewrite schedulerPriority_derived by done.
  repeat split. unfold assignedDriver. simpl.
  by destruct (Rle_dec 80 (Bin.currentLevel bin.2)).
Qed.

(** After a pass no bin is left in need of a pickup. *)
Lemma fullBins_after_pass w w1 :
  bins w1 = bins w ->
  pickups w ⊆ pickups w1 ->
  (forall b, b ∈ fullBins w ->
     exists key row,
       pickups w1 !! key = Some row /\ Pickup.binId row = b.1 /\
       Pickup.status row = SCHEDULED) ->
  fullBins w1 = [].
Proof.
  intros Hbins Hsub Hnew. apply elem_of_nil_inv. intros [id bin] Hin.
  apply elem_of_fullBins in Hin as [Hbin Hneeds].
  rewrite Hbins in Hbin.
  apply needsPickup_true in Hneeds as (Hlevel & Hactive & Hnone).
  destruct (needsPickup w (id, bin)) eqn:Hw.
  - destruct (Hnew (id, bin)) as (key & row & Hrow & Hid & Hst).
    { by apply elem_of_fullBins. }
    assert (Hin : (key, row) ∈ activePickupsOf w1 id).
    { apply elem_of_activePickupsOf. auto. }
    rewrite Hnone in Hin. by apply elem_of_nil in Hin.
  - destruct (activePickupsOf w id) as [| [key row] rest] eqn:Hact.
    + assert (needsPickup w (id, bin) = true) by (by apply needsPickup_true).
      congruence.
    + assert (Hin : (key, row) ∈ activePickupsOf w id)
        by (rewrite Hact; apply list_elem_of_here).
      apply elem_of_activePickupsOf in Hin as (Hrow & Hid & Hst).
      assert (Hin1 : (key, row) ∈ activePickupsOf w1 id).
      { apply elem_of_activePickupsOf.
        split; [by apply (lookup_weaken (pickups w)) | done]. }
      rewrite Hnone in Hin1. by apply elem_of_nil in Hin1.
Qed.

(** C3, amended: on a database that accepts writes, one pass of the
    scheduler gives every active bin of fill level 80 or more without a
    [SCHEDULED] or [IN_PROGRESS] pickup exactly one new pickup: a row under
    a key not in use, [SCHEDULED], created in the name of the owner of the
    bin, with the notes of automatic origin, scheduled as [createPickup]
    schedules the priority [URGENT] from level 95 (30 minutes from now) and
    [HIGH] below (2 hours from now, never the 4 hours of [MEDIUM]), and
    assigned to the answer of the nearest-driver search; the number of
    pickups of any other bin stays the same, no pickup is removed, bins and
    drivers stay as they are, and a second pass right after creates
    nothing. *)
Theorem automatic_pickups_once now later w :
  outage w = None ->
  exists w1,
    checkAndCreateAutomaticPickups numberToString now w = (Ok tt, w1) /\
    checkAndCreateAutomaticPickups numberToString later w1 = (Ok tt, w1) /\
    bins w1 = bins w /\ drivers w1 = drivers w /\
    pickups w ⊆ pickups w1 /\
    (forall id bin,
       bins w !! id = Some bin -> needsPickup w (id, bin) = true ->
       size (pickupsOfBin w1 id) = S (size (pickupsOfBin w id)) /\
       exists key row,
         pickups w !! key = None /\ pickups w1 !! key = Some row /\
         Pickup.binId row = id /\ Pickup.status row = SCHEDULED /\
         Pickup.createdById row = requesterOf (id, bin) /\
         Pickup.notes row
         = Some (automaticNotes numberToString (Bin.currentLevel bin)) /\
         Pickup.scheduledAt row
         = Some (if Rle_dec 95 (Bin.currentLevel bin)
                 then now + 30 * 60 * 1000
                 else now + 2 * 60 * 60 * 1000)%Z /\
         Pickup.scheduledAt row
         = Some (calculateScheduledTime now
                   (if Rle_dec 95 (Bin.currentLevel bin)
                    then URGENT else HIGH)) /\
         Pickup.startedAt row = None /\ Pickup.completedAt row = None /\
         Pickup.driverId row
         = truthyId (findBestAvailableDriver w (Number (Bin.latitude bin))
                       (Number (Bin.longitude bin)))) /\
    (forall id,
       (forall bin, bins w !! id = Some bin ->
                    needsPickup w (id, bin) = false) ->
       size (pickupsOfBin w1 id) = size (pickupsOfBin w id)).
Proof.
  intros Hout.
  destruct (checkAndCreateAutomaticPickups_run now w Hout)
    as (w1 & Hrun & Hout1 & Hbins & Hdrivers & Hsub & Hsize & Hnew).
  exists w1. split; [done |].
  assert (Hfull : fullBins w1 = []).
  { apply (fullBins_after_pass w); [done | done |].
    intros b Hb. destruct (Hnew b Hb) as (key & _ & Hrow).
    by exists key, (automaticRow numberToString now w b). }
  split.
  { unfold checkAndCreateAutomaticPickups, try_catch.
    rewrite bind_run. simpl. by rewrite Hfull. }
  split; [done |]. split; [done |]. split; [done |]. split.
  - intros id bin Hbin Hneeds.
    assert (Hin : (id, bin) ∈ fullBins w) by (by apply elem_of_fullBins).
    assert (Hlevel : (80 <= Bin.currentLevel bin)%R)
      by (by apply needsPickup_true in Hneeds as [? _]).
    split.
    + rewrite Hsize. rewrite decide_True; [lia |].
      apply list_elem_of_fmap. by exists (id, bin).
    + destruct (Hnew _ Hin) as (key & Hfresh & Hrow).
      exists key, (automaticRow numberToString now w (id, bin)).
      split; [done |]. split; [done |].
      destruct (automaticRow_spec now w (id, bin) Hlevel)
        as (Hb & Hst & Hby & Hnotes & Hat & Hstart & Hend & Hdriver).
      split; [done |]. split; [done |]. split; [done |]. split; [done |].
      split; [| done].
      rewrite Hat. simpl. by destruct (Rle_dec 95 (Bin.currentLevel bin)).
  - intros id Hnot. rewrite Hsize. rewrite decide_False; [lia |].
    intros ([id' bin] & -> & Hin)%list_elem_of_fmap.
    apply elem_of_fullBins in Hin as [Hbin Hneeds].
    specialize (Hnot bin Hbin). simpl in Hnot. congruence.
Qed.

End SchedulerFacts.

Lemma oneBinWorld_needsPickup :
  needsPickup (oneBinWorld 82) ("b1", depotBin 82) = true.
Proof.
  apply needsPickup_true. simpl. split; [lra |]. split; [done |].
  unfold activePickupsOf, findMany. simpl pickups.
  by rewrite map_to_list_empty.
Qed.

Lemma automatic_pickups_once_witness :
  exists w1 key row,
    checkAndCreateAutomaticPickups (rt := engine) showLevel 0 (oneBinWorld 82)
    = (Ok tt, w1) /\
    checkAndCreateAutomaticPickups (rt := engine) showLevel 1800000 w1
    = (Ok tt, w1) /\
    size (pickupsOfBin w1 "b1") = 1 /\
    pickups w1 !! key = Some row /\
    Pickup.scheduledAt row = Some 7200000%Z.
Proof.
  destruct (automatic_pickups_once (rt := engine) showLevel 0 1800000
              (oneBinWorld 82))
    as (w1 & Hrun & Hagain & _ & _ & _ & Hnew & _); [reflexivity |].
  destruct (Hnew "b1" (depotBin 82))
    as (Hsize & key & row & _ & Hrow & _ & _ & _ & _ & Hat & _);
    [reflexivity | apply oneBinWorld_needsPickup |].
  exists w1, key, row. split; [done |]. split; [done |]. split.
  - rewrite Hsize. unfold pickupsOfBin. simpl pickups.
    by rewrite map_filter_empty, map_size_empty.
  - split; [done |]. rewrite Hat. simpl.
    destruct (Rle_dec 95 82); [lra | done].
Defined.

Lemma oneBinWorld_fullBins :
  fullBins (oneBinWorld 82) = [("b1", depotBin 82)].
Proof.
  unfold fullBins, findMany. simpl bins. rewrite map_to_list_singleton.
  rewrite filter_cons_True by apply oneBinWorld_needsPickup. done.
Qed.

(** C3, as stated, fails: for a bin at fill level 82 the pass stores a
    pickup scheduled 2 hours from now, as [createPickup] schedules the
    priority [HIGH] that the scheduler requests and that its call returns,
    not 4 hours from now, as it would the [MEDIUM] default that the claim
    gives below level 85. *)
Lemma automatic_pickup_below_85_is_high :
  let bin := ("b1", depotBin 82) in
  let row := automaticRow (rt := engine) showLevel 0 (oneBinWorld 82) bin in
  needsPickup (oneBinWorld 82) bin = true /\
  (Bin.currentLevel bin.2 < 85)%R /\
  checkAndCreateAutomaticPickups (rt := engine) showLevel 0 (oneBinWorld 82)
  = (Ok tt, setPickups (insert (newKey (pickups (oneBinWorld 82))) row)
              (oneBinWorld 82)) /\
  Pickup.scheduledAt row = Some (calculateScheduledTime 0 HIGH) /\
  calculateScheduledTime 0 HIGH = 7200000%Z /\
  calculateScheduledTime 0 MEDIUM = 14400000%Z /\
  exists r w',
    createPickup (rt := engine) 0 (automaticRequest showLevel bin) ADMIN
      (requesterOf bin) (oneBinWorld 82) = (Ok r, w') /\
    PickupResponse.priority r = HIGH /\
    PickupResponse.priority r <> MEDIUM.
Proof.
  intros bin row. split; [apply oneBinWorld_needsPickup |].
  split; [simpl; lra |].
  split.
  { apply (checkAndCreateAutomaticPickups_one_bin (rt := engine));
      [reflexivity | apply oneBinWorld_fullBins]. }
  split.
  { unfold row. simpl. rewrite schedulerPriority_derived by lra.
    destruct (Rle_dec 95 82); [lra | done]. }
  split; [done |]. split; [done |].
  destruct (createPickup_admin (rt := engine) 0 (automaticRequest showLevel bin)
              (requesterOf bin) (oneBinWorld 82) (depotBin 82))
    as [r Hr]; [reflexivity | reflexivity | reflexivity |].
  exists r. eexists. split; [exact Hr |].
  apply (createPickup_ok (rt := engine)) in Hr
    as (bin' & assigned & Hbin & _ & _ & _ & _ & _ & Hprio & _).
  change (Some (depotBin 82) = Some bin') in Hbin. injection Hbin as <-.
  rewrite Hprio. simpl.
  rewrite schedulerPriority_derived by lra.
  destruct (Rle_dec 95 82); [lra | done].
Qed.

(** * Further properties *)

(** ** The distance helper *)

Section DistanceFacts.
Import Geo.
Local Open Scope R_scope.


End DistanceFacts.

(** ** Permissions of the pickup operations *)

Lemma getPickupById_run pickupId role userId w :
  getPickupById pickupId role userId w =
  match pickups w !! pickupId with
  | None =>
      (Throw {| AppError.message := "Pickup not found";
                AppError.statusCode := Some 404%Z |}, w)
  | Some p =>
      if mayRead w role userId p
      then withRelations (pickupId, p) MEDIUM PickupType.ON_DEMAND w
      else (Throw {| AppError.message := "Access denied";
                     AppError.statusCode := Some 403%Z |}, w)
  end.
Proof.
  unfold getPickupById, mayRead. rewrite bind_run. simpl.
  destruct (pickups w !! pickupId) as [p |]; [| done].
  destruct (bool_decide (role = USER) &&
            negb (bool_decide (Pickup.createdById p = userId))); [done |].
  simpl. rewrite bind_run.
  destruct (bool_decide (role = DRIVER)); [| done].
  rewrite bind_run. simpl.
  destruct (driverOfUser w userId) as [d |]; [| done].
  by destruct (bool_decide (Pickup.driverId p = Some d.1)).
Qed.

(** X4: a pickup is read only by a requester the permission rule admits: a
    [USER] must have created it, a [DRIVER] must be the driver it is
    assigned to; a missing pickup is NotFound and a refused requester
    Forbidden, and reading never writes. *)
Theorem getPickupById_access pickupId role userId w :
  match getPickupById pickupId role userId w with
  | (Ok r, w') =>
      w' = w /\
      exists p, pickups w !! pickupId = Some p /\
        (role = USER -> Pickup.createdById p = userId) /\
        (role = DRIVER ->
         exists d, driverOfUser w userId = Some d /\
                   Pickup.driverId p = Some d.1)
  | (Throw e, w') =>
      w' = w /\
      (pickups w !! pickupId = None -> errorKind e = NotFound) /\
      (forall p, pickups w !! pickupId = Some p ->
                 mayRead w role userId p = false -> errorKind e = Forbidden)
  end.
Proof.
  rewrite getPickupById_run.
  destruct (pickups w !! pickupId) as [p |] eqn:Hp.
  - destruct (mayRead w role userId p) eqn:Hmay.
    + rewrite withRelations_run.
      destruct (bins w !! Pickup.binId (pickupId, p).2).
      * split; [done |]. exists p. split; [done |].
        unfold mayRead in Hmay.
        apply andb_true_iff in Hmay as [Huser Hdriver]. split.
        -- intros ->. simpl in Huser.
           apply negb_true_iff, negb_false_iff in Huser.
           by apply bool_decide_eq_true in Huser.
        -- intros ->. simpl in Hdriver.
           destruct (driverOfUser w userId) as [d |]; [| done].
           exists d. split; [done |]. by apply bool_decide_eq_true in Hdriver.
      * split; [done |]. split; [done |]. intros p' [= <-] Hno. congruence.
    + split; [done |]. split; [done |]. done.
  - split; [done |]. split; [done |]. done.
Qed.

(** X5: a request that [getPickupById] refuses changes nothing: the status
    update, the cancellation and the update all fail with the same error
    and leave the database as it was. *)
Theorem refused_request_changes_nothing
    now pickupId statusData reason data role userId w e :
  getPickupById pickupId role userId w = (Throw e, w) ->
  updatePickupStatus now pickupId statusData role userId w = (Throw e, w) /\
  cancelPickup pickupId reason role userId w = (Throw e, w) /\
  updatePickup pickupId data role userId w = (Throw e, w).
Proof.
  intros Hget. unfold updatePickupStatus, cancelPickup, updatePickup.
  by rewrite !(bind_throw _ _ _ _ _ Hget).
Qed.

Lemma refused_request_changes_nothing_witness :
  let w := onePickupWorld (pickupIn SCHEDULED None None) None in
  exists e,
    errorKind e = Forbidden /\
    cancelPickup "p1" "not mine" USER "u2" w = (Throw e, w).
Proof.
  intros w. eexists. split; [| eapply (refused_request_changes_nothing 0 "p1"
    (setStatus CANCELLED) "not mine"
    {| UpdatePickupRequest.driverId := None;
       UpdatePickupRequest.scheduledAt := None;
       UpdatePickupRequest.priority := None;
       UpdatePickupRequest.notes := None;
       UpdatePickupRequest.status := None |} USER "u2" w); reflexivity].
  reflexivity.
Defined.

(** ** Creating a pickup: refusals and assignment *)

(** X6: a [createPickup] that fails has written nothing; the failure is
    NotFound for an unknown bin, Forbidden for a [USER] who does not own
    the bin, InvalidState for a requested driver, other than the empty id,
    who is unknown, inactive or unavailable.  The empty id counts as no
    driver requested, and is not checked. *)
Theorem createPickup_failure {rt : Runtime} now data role userId w e w' :
  createPickup now data role userId w = (Throw e, w') ->
  w' = w /\
  (bins w !! CreatePickupRequest.binId data = None ->
   errorKind e = NotFound) /\
  (forall bin,
     bins w !! CreatePickupRequest.binId data = Some bin ->
     role = USER -> Bin.userId bin <> Some userId ->
     errorKind e = Forbidden) /\
  (forall bin driverId,
     bins w !! CreatePickupRequest.binId data = Some bin ->
     (role = USER -> Bin.userId bin = Some userId) ->
     CreatePickupRequest.driverId data = Some driverId ->
     driverId <> EmptyString ->
     ~ assignable w driverId ->
     errorKind e = InvalidState).
Proof.
  rewrite createPickup_run.
  destruct (bins w !! CreatePickupRequest.binId data) as [bin |] eqn:Hbin.
  - destruct (bool_decide (role = USER) &&
              negb (bool_decide (Bin.userId bin = Some userId))) eqn:Hown.
    + intros [= <- <-]. split; [done |]. split; [done |]. split; [done |].
      intros bin' d [= <-] Hrole. apply andb_true_iff in Hown as [Hu Hne].
      apply bool_decide_eq_true in Hu. specialize (Hrole Hu).
      apply negb_true_iff, bool_decide_eq_false in Hne. done.
    + cbv zeta.
      destruct (match truthyId (CreatePickupRequest.driverId data) with
                | Some driverId =>
                    match drivers w !! driverId with
                    | Some d => Driver.user_isActive d && Driver.isAvailable d
                    | None => false
                    end
                | None => true end) eqn:Hacc.
      * rewrite pickup_create_run.
        destruct (commit _ w) as [[[] | e1] w1] eqn:Hc.
        -- rewrite withRelations_run. simpl.
           apply commit_ok_inv in Hc as (Hb & _). rewrite Hb. simpl.
           by rewrite Hbin.
        -- intros [= <- <-]. apply commit_throw_inv in Hc as ->.
           split; [done |]. split; [done |]. split.
           ++ intros bin' [= <-] -> Hne. simpl in Hown.
              apply negb_false_iff, bool_decide_eq_true in Hown. done.
           ++ intros bin' d _ _ Hd Hne Hna.
              rewrite (proj2 (truthyId_Some _ d) (conj Hd Hne)) in Hacc.
              destruct (drivers w !! d) as [row |] eqn:Hrow; [| done].
              apply andb_true_iff in Hacc as [Ha Hv].
              exfalso. apply Hna. by exists row.
      * intros [= <- <-]. split; [done |]. split; [done |]. split; [| done].
        intros bin' [= <-] -> Hne. simpl in Hown.
        apply negb_false_iff, bool_decide_eq_true in Hown. done.
  - intros [= <- <-]. split; [done |]. split; [done |].
    split; intros; congruence.
Qed.

Lemma createPickup_failure_witness :
  exists e,
    createPickup (rt := engine) 0 plainRequest USER "u2" (oneBinWorld 96)
    = (Throw e, oneBinWorld 96) /\
    errorKind e = Forbidden.
Proof.
  eexists. split; [reflexivity |].
  eapply (createPickup_failure (rt := engine) 0 plainRequest USER "u2" (oneBinWorld 96));
    [reflexivity | reflexivity | reflexivity | done].
Defined.

Lemma findBestAvailableDriver_selectable {rt : Runtime} w lat lng driverId :
  findBestAvailableDriver w lat lng = Some driverId -> selectable w driverId.
Proof.
  intros Hbest. pose proof (findBestAvailableDriver_scan w lat lng) as H.
  rewrite Hbest in H. destruct H as (i & [[id row] c] & Hi & Hid & _).
  simpl in Hid. subst id. apply list_elem_of_lookup_2 in Hi.
  apply elem_of_availableDrivers in Hi as (Hrow & Hon & Hav' & Hact & Hlat & Hlng).
  exists row. rewrite Hlat, Hlng. eauto 10.
Qed.

(** X7: a successful [createPickup] stores one new [SCHEDULED] row under the
    id it returns and touches no other row, bin or driver; the row names
    the requested driver when the request names one other than the empty
    id, and that driver is active and available; otherwise the row names,
    below fill level 80, what the request names (nobody, or the empty id)
    and, from 80, the answer of the nearest-driver search for the doubles
    of the bin's coordinates, which is a driver who is [ONLINE], available,
    active and located, or nobody. *)
Theorem createPickup_assignment {rt : Runtime} now data role userId w r w' :
  createPickup now data role userId w = (Ok r, w') ->
  exists bin row,
    bins w !! CreatePickupRequest.binId data = Some bin /\
    pickups w !! PickupResponse.id r = None /\
    pickups w' = <[PickupResponse.id r := row]> (pickups w) /\
    bins w' = bins w /\ drivers w' = drivers w /\
    Pickup.status row = SCHEDULED /\
    Pickup.binId row = CreatePickupRequest.binId data /\
    Pickup.createdById row = userId /\
    (forall driverId,
       CreatePickupRequest.driverId data = Some driverId ->
       driverId <> EmptyString ->
       Pickup.driverId row = Some driverId /\ assignable w driverId) /\
    (CreatePickupRequest.driverId data = None \/
     CreatePickupRequest.driverId data = Some EmptyString ->
     ((Bin.currentLevel bin < 80)%R ->
      Pickup.driverId row = CreatePickupRequest.driverId data) /\
     ((80 <= Bin.currentLevel bin)%R ->
      Pickup.driverId row
      = truthyId (findBestAvailableDriver w (Number (Bin.latitude bin))
                    (Number (Bin.longitude bin))) /\
      forall driverId, Pickup.driverId row = Some driverId ->
                       driverId <> EmptyString /\ selectable w driverId)).
Proof.
  rewrite createPickup_run.
  destruct (bins w !! CreatePickupRequest.binId data) as [bin |] eqn:Hbin;
    [| done].
  destruct (bool_decide (role = USER) && _); [done |]. cbv zeta.
  destruct (match truthyId (CreatePickupRequest.driverId data) with
            | Some driverId =>
                match drivers w !! driverId with
                | Some d => Driver.user_isActive d && Driver.isAvailable d
                | None => false
                end
            | None => true end) eqn:Hacc; [| done].
  rewrite pickup_create_run.
  destruct (commit _ w) as [[[] | e1] w1] eqn:Hc; [| done].
  rewrite withRelations_run. simpl.
  apply commit_ok_inv in Hc as (Hb & Hd & Hp & _). simpl in Hb, Hd, Hp.
  rewrite Hb, Hbin. intros [= <- <-].
  exists bin, (createdRow now data userId bin (assignedDriver w data bin)).
  split; [done |]. simpl. split; [apply newKey_fresh |].
  split; [done |]. split; [done |]. split; [done |].
  split; [done |]. split; [done |]. split; [done |].
  unfold assignedDriver. split.
  - intros driverId Hreq Hne.
    rewrite (proj2 (truthyId_Some _ driverId) (conj Hreq Hne)) in Hacc |- *.
    split; [done |].
    destruct (drivers w !! driverId) as [d |] eqn:Hrow; [| done].
    apply andb_true_iff in Hacc as [Ha Hv]. by exists d.
  - intros Hreq.
    assert (Hnone : truthyId (CreatePickupRequest.driverId data) = None).
    { by destruct Hreq as [-> | ->]. }
    rewrite Hnone.
    destruct (Rle_dec 80 (Bin.currentLevel bin)) as [Hge | Hlt].
    + split; [intros; lra |]. intros _. split; [done |].
      intros driverId [Hbest Hne]%truthyId_Some. split; [done |].
      by eapply findBestAvailableDriver_selectable.
    + split; [done |]. intros; lra.
Qed.

Lemma createPickup_assignment_witness :
  exists r w' row,
    createPickup (rt := engine) 0 plainRequest ADMIN "admin" (oneBinWorld 96) = (Ok r, w') /\
    pickups w' = <[PickupResponse.id r := row]> (pickups (oneBinWorld 96)) /\
    Pickup.status row = SCHEDULED.
Proof.
  destruct (createPickup_admin (rt := engine) 0 plainRequest "admin" (oneBinWorld 96)
              (depotBin 96)) as [r Hr]; [reflexivity | reflexivity | reflexivity |].
  destruct (createPickup_assignment (rt := engine) 0 plainRequest ADMIN "admin"
              (oneBinWorld 96) r _ Hr)
    as (bin & row & _ & _ & Hp & _ & _ & Hst & _).
  exists r. eexists. exists row. split; [exact Hr |]. split; [exact Hp | exact Hst].
Defined.

(** ** The life of a pickup *)

Lemma driverOfUser_drivers w w' userId :
  drivers w' = drivers w -> driverOfUser w' userId = driverOfUser w userId.
Proof. intros H. unfold driverOfUser. by rewrite H. Qed.

Lemma mayRead_congr w w' role userId p p' :
  drivers w' = drivers w ->
  Pickup.createdById p' = Pickup.createdById p ->
  Pickup.driverId p' = Pickup.driverId p ->
  mayRead w' role userId p' = mayRead w role userId p.
Proof.
  intros Hd Hc Hdr. unfold mayRead.
  by rewrite (driverOfUser_drivers w w') , Hc, Hdr by done.
Qed.

Lemma getPickupById_intro pickupId role userId w p b :
  pickups w !! pickupId = Some p ->
  mayRead w role userId p = true ->
  bins w !! Pickup.binId p = Some b ->
  getPickupById pickupId role userId w =
  (Ok (formatPickupResponse (pickupId, p) (Pickup.binId p, b)
         (Pickup.driverId p ≫= (fun d => pair d <$> drivers w !! d))
         MEDIUM PickupType.ON_DEMAND), w).
Proof.
  intros Hp Hmay Hb. rewrite getPickupById_run, Hp, Hmay, withRelations_run.
  simpl. by rewrite Hb.
Qed.

Lemma getPickupById_mayRead pickupId role userId w r w' p :
  getPickupById pickupId role userId w = (Ok r, w') ->
  pickups w !! pickupId = Some p ->
  mayRead w role userId p = true.
Proof.
  rewrite getPickupById_run. intros H Hp. rewrite Hp in H.
  by destruct (mayRead w role userId p).
Qed.

Lemma pickup_update_ok_inv id d w u w' :
  pickup_update id d w = (Ok u, w') ->
  pickups w' = alter (applyPickupData d) id (pickups w) /\
  bins w' = bins w /\ drivers w' = drivers w.
Proof.
  unfold pickup_update. rewrite bind_run. simpl.
  destruct (pickups w !! id); [| done].
  by intros (Hb & Hd & Hp & _)%commit_ok_inv.
Qed.

Lemma pickup_alter_ok_inv id f w u w' :
  pickup_alter id f w = (Ok u, w') ->
  pickups w' = alter f id (pickups w) /\
  bins w' = bins w /\ drivers w' = drivers w.
Proof.
  unfold pickup_alter. rewrite bind_run. simpl.
  destruct (pickups w !! id); [| done].
  by intros (Hb & Hd & Hp & _)%commit_ok_inv.
Qed.

(** X8: a pickup without timestamps that is started at [t1] and completed at
    [t2] ends [COMPLETED] with exactly these two timestamps, its bin is
    reset with last-emptied [t2], and reading it back reports the rounded
    number of minutes between the two instants as its actual duration. *)
Theorem start_then_complete t1 t2 pickupId sd1 sd2 role userId w r p :
  outage w = None ->
  getPickupById pickupId role userId w = (Ok r, w) ->
  pickups w !! pickupId = Some p ->
  Pickup.startedAt p = None -> Pickup.completedAt p = None ->
  PickupStatusUpdate.status sd1 = IN_PROGRESS ->
  PickupStatusUpdate.status sd2 = COMPLETED ->
  exists w1 w2 p2 b2 r2,
    updatePickupStatus t1 pickupId sd1 role userId w = (Ok statusUpdated, w1) /\
    updatePickupStatus t2 pickupId sd2 role userId w1 = (Ok statusUpdated, w2) /\
    pickups w2 !! pickupId = Some p2 /\
    Pickup.status p2 = COMPLETED /\
    Pickup.startedAt p2 = Some t1 /\ Pickup.completedAt p2 = Some t2 /\
    bins w2 !! Pickup.binId p = Some b2 /\ binReset t2 b2 /\
    getPickupById pickupId role userId w2 = (Ok r2, w2) /\
    PickupResponse.actualDuration r2
    = Some (Geo.Math_round (IZR (t2 - t1) / 60000)).
Proof.
  intros Hout Hget Hp Hs Hc Hst1 Hst2.
  pose proof (getPickupById_mayRead _ _ _ _ _ _ _ Hget Hp) as Hmay.
  destruct (getPickupById_ok _ _ _ _ _ _ Hget) as (_ & p0 & b & Hp0 & Hb & Hr).
  assert (p0 = p) as -> by congruence.
  (* the start *)
  pose proof (updatePickupStatus_healthy t1 pickupId sd1 role userId w r
                Hout Hget) as Hrun1.
  assert (Hfc1 : firstCompletion sd1 r = false)
    by (unfold firstCompletion; by rewrite Hst1).
  assert (Hfs1 : firstStart sd1 r = true).
  { unfold firstStart. rewrite Hst1, Hr. simpl. by rewrite Hs. }
  rewrite Hfc1 in Hrun1.
  set (p1 := applyPickupData (stampedData t1 sd1 r) p).
  set (w1 := setPickups (alter (applyPickupData (stampedData t1 sd1 r))
                           pickupId) w) in *.
  assert (Hp1 : pickups w1 !! pickupId = Some p1).
  { unfold w1. simpl. by rewrite lookup_alter_eq, Hp. }
  assert (Hp1s : Pickup.startedAt p1 = Some t1 /\ Pickup.completedAt p1 = None
                 /\ Pickup.binId p1 = Pickup.binId p).
  { unfold p1, stampedData. rewrite Hfs1. simpl. by rewrite Hc. }
  destruct Hp1s as (Hs1 & Hc1 & Hbin1).
  assert (Hget1 : getPickupById pickupId role userId w1 =
    (Ok (formatPickupResponse (pickupId, p1) (Pickup.binId p1, b)
           (Pickup.driverId p1 ≫= (fun d => pair d <$> drivers w1 !! d))
           MEDIUM PickupType.ON_DEMAND), w1)).
  { apply getPickupById_intro; [done | | by rewrite Hbin1].
    rewrite (mayRead_congr w w1 _ _ p p1); [done | done | |];
      unfold p1, stampedData; rewrite Hfs1; done. }
  assert (Hframe : bins w1 = bins w /\ drivers w1 = drivers w /\
                   outage w1 = None /\
                   Pickup.createdById p1 = Pickup.createdById p /\
                   Pickup.driverId p1 = Pickup.driverId p).
  { unfold p1, stampedData. rewrite Hfs1. done. }
  destruct Hframe as (Hbins1 & Hdrv1 & Hout1 & Hcre1 & Hdri1).
  clearbody p1 w1.
  (* the completion *)
  pose proof (updatePickupStatus_healthy t2 pickupId sd2 role userId w1 _
                Hout1 Hget1) as Hrun2.
  match type of Hget1 with _ = (Ok ?x, _) => set (r1 := x) in * end.
  assert (Hfc2 : firstCompletion sd2 r1 = true).
  { unfold firstCompletion. rewrite Hst2. simpl. by rewrite Hc1. }
  assert (Hfs2 : firstStart sd2 r1 = false)
    by (unfold firstStart; by rewrite Hst2).
  rewrite Hfc2 in Hrun2.
  set (p2 := applyPickupData (stampedData t2 sd2 r1) p1).
  match type of Hrun2 with _ = (_, ?x) => set (w2 := x) in * end.
  assert (Hp2 : pickups w2 !! pickupId = Some p2).
  { unfold w2. simpl. by rewrite lookup_alter_eq, Hp1. }
  assert (Hb2 : bins w2 !! Pickup.binId p = Some (emptied t2 b)).
  { unfold w2. simpl. by rewrite Hbin1, lookup_alter_eq, Hbins1, Hb. }
  assert (Hp2s : Pickup.status p2 = COMPLETED /\
                 Pickup.startedAt p2 = Some t1 /\
                 Pickup.completedAt p2 = Some t2 /\
                 Pickup.binId p2 = Pickup.binId p /\
                 Pickup.createdById p2 = Pickup.createdById p /\
                 Pickup.driverId p2 = Pickup.driverId p).
  { unfold p2, stampedData. rewrite Hfs2, Hfc2. simpl.
    by rewrite Hst2, Hs1, Hbin1, Hcre1, Hdri1. }
  destruct Hp2s as (Hst & Hs2 & Hc2 & Hbin2 & Hcre2 & Hdri2).
  assert (Hdrv2 : drivers w2 = drivers w) by (by unfold w2).
  clearbody p2 w2.
  exists w1, w2, p2, (emptied t2 b). eexists.
  split; [done |]. split; [done |]. split; [done |].
  split; [done |]. split; [done |]. split; [done |].
  split; [done |]. split; [done |]. split.
  - apply getPickupById_intro; [done | | by rewrite Hbin2].
    by rewrite (mayRead_congr w w2 _ _ p p2).
  - simpl. rewrite Hs2, Hc2. do 3 f_equal. lra.
Qed.

Lemma start_then_complete_witness :
  let p := pickupIn SCHEDULED None None in
  exists w1 w2 p2,
    updatePickupStatus 60000 "p1" (setStatus IN_PROGRESS) ADMIN "admin"
      (onePickupWorld p None) = (Ok statusUpdated, w1) /\
    updatePickupStatus 960000 "p1" (setStatus COMPLETED) ADMIN "admin" w1
    = (Ok statusUpdated, w2) /\
    pickups w2 !! "p1" = Some p2 /\
    Pickup.startedAt p2 = Some 60000%Z /\
    Pickup.completedAt p2 = Some 960000%Z.
Proof.
  intros p.
  destruct (start_then_complete 60000 960000 "p1" (setStatus IN_PROGRESS)
              (setStatus COMPLETED) ADMIN "admin" (onePickupWorld p None)
              (responseOf p) p)
    as (w1 & w2 & p2 & b2 & r2 & H1 & H2 & Hp2 & _ & Hs & Hc & _);
    [reflexivity | apply onePickupWorld_read | reflexivity | reflexivity
    | reflexivity | reflexivity | reflexivity |].
  by exists w1, w2, p2.
Defined.

Lemma verifyDriver_ok_inv driverId w u w' :
  verifyDriver driverId w = (Ok u, w') -> w' = w /\ assignable w driverId.
Proof.
  unfold verifyDriver. rewrite bind_run. simpl.
  destruct (drivers w !! driverId) as [d |] eqn:Hd; [| done].
  destruct (Driver.user_isActive d && Driver.isAvailable d) eqn:Hok; [| done].
  intros [= _ <-]. split; [done |].
  apply andb_true_iff in Hok as [? ?]. by exists d.
Qed.

(** X9: [updatePickup] changes, in the one row it names, only the fields
    present in the request: the driver, the scheduled time, the notes and
    the status are those of the request where it gives them and the stored
    ones where it does not, and every other column stays. It never stamps a
    start or completion time and never touches a bin or a driver, so that a
    status [COMPLETED] set through it leaves the bin as it was. A driver it
    sets is active and available, unless the request names the empty id,
    which is stored unchecked. *)
Theorem updatePickup_effect pickupId data role userId w r w' p :
  updatePickup pickupId data role userId w = (Ok r, w') ->
  pickups w !! pickupId = Some p ->
  exists p',
    pickups w' !! pickupId = Some p' /\
    (forall other, other <> pickupId ->
                   pickups w' !! other = pickups w !! other) /\
    bins w' = bins w /\ drivers w' = drivers w /\
    Pickup.status p'
    = default (Pickup.status p) (UpdatePickupRequest.status data) /\
    Pickup.scheduledAt p'
    = match UpdatePickupRequest.scheduledAt data with
      | Some t => Some t
      | None => Pickup.scheduledAt p
      end /\
    Pickup.notes p'
    = match UpdatePickupRequest.notes data with
      | Some text => Some text
      | None => Pickup.notes p
      end /\
    Pickup.startedAt p' = Pickup.startedAt p /\
    Pickup.completedAt p' = Pickup.completedAt p /\
    Pickup.binId p' = Pickup.binId p /\
    Pickup.createdById p' = Pickup.createdById p /\
    match UpdatePickupRequest.driverId data with
    | Some driverId =>
        Pickup.driverId p' = Some driverId /\
        (driverId <> EmptyString -> assignable w driverId)
    | None => Pickup.driverId p' = Pickup.driverId p
    end /\
    PickupResponse.id r = pickupId /\
    PickupResponse.status r = Pickup.status p' /\
    PickupResponse.scheduledAt r = Pickup.scheduledAt p' /\
    PickupResponse.notes r = Pickup.notes p' /\
    PickupResponse.priority r
    = default MEDIUM (UpdatePickupRequest.priority data).
Proof.
  unfold updatePickup.
  intros (r0 & w0 & Hget & H1)%bind_ok_inv Hp.
  apply getPickupById_ok in Hget as [-> _].
  apply bind_ok_inv in H1 as (u & w1 & Hver & H2).
  assert (Hver' : w1 = w /\
            forall driverId,
              UpdatePickupRequest.driverId data = Some driverId ->
              driverId <> EmptyString -> assignable w driverId).
  { destruct (truthyId (UpdatePickupRequest.driverId data)) as [driverId |]
      eqn:Hid.
    - apply verifyDriver_ok_inv in Hver as [-> Hassign]. split; [done |].
      apply truthyId_Some in Hid as [Hid _]. intros d Hd _. congruence.
    - injection Hver as _ <-. split; [done |]. intros d Hd Hne.
      assert (truthyId (UpdatePickupRequest.driverId data) = Some d)
        by (by apply truthyId_Some).
      congruence. }
  destruct Hver' as [-> Hassign].
  apply bind_ok_inv in H2 as (u2 & w2 & Halter & H3).
  apply pickup_alter_ok_inv in Halter as (Hp2 & Hb2 & Hd2).
  rewrite bind_run in H3. simpl in H3. rewrite Hp2 in H3.
  rewrite lookup_alter_eq, Hp in H3. simpl in H3.
  rewrite withRelations_run in H3. simpl in H3.
  destruct (bins w2 !! Pickup.binId p); [| done].
  injection H3 as <- <-.
  exists (updatePickupData data p).
  split; [by rewrite Hp2, lookup_alter_eq, Hp |].
  split; [intros other Hne; by rewrite Hp2, lookup_alter_ne |].
  split; [done |]. split; [done |]. split; [done |].
  split; [simpl; by destruct (UpdatePickupRequest.scheduledAt data) |].
  split; [simpl; by destruct (UpdatePickupRequest.notes data) |].
  split; [done |]. split; [done |]. split; [done |]. split; [done |].
  split; [| done].
  simpl. destruct (UpdatePickupRequest.driverId data) as [d |]; [| done].
  split; [done |]. by apply Hassign.
Qed.

Lemma pickup_alter_healthy id f w p :
  outage w = None -> pickups w !! id = Some p ->
  pickup_alter id f w = (Ok tt, setPickups (alter f id) w).
Proof.
  intros Hout Hp. unfold pickup_alter. rewrite bind_run. simpl. rewrite Hp.
  by apply commit_healthy.
Qed.

Lemma verifyDriver_assignable w driverId :
  assignable w driverId -> verifyDriver driverId w = (Ok tt, w).
Proof.
  intros (d & Hd & Ha & Hv). unfold verifyDriver. rewrite bind_run. simpl.
  by rewrite Hd, Ha, Hv.
Qed.

(** [updatePickup] succeeds for a requester who may read the pickup, on a
    database that accepts writes, when the driver it names is acceptable. *)
Lemma updatePickup_succeeds pickupId data role userId w r :
  outage w = None ->
  getPickupById pickupId role userId w = (Ok r, w) ->
  match UpdatePickupRequest.driverId data with
  | Some driverId => assignable w driverId
  | None => True
  end ->
  exists r' w', updatePickup pickupId data role userId w = (Ok r', w').
Proof.
  intros Hout Hget Hdrv.
  destruct (getPickupById_ok _ _ _ _ _ _ Hget) as (_ & p & b & Hp & Hb & _).
  unfold updatePickup. rewrite (bind_ok _ _ _ _ _ Hget).
  assert (Hver : match truthyId (UpdatePickupRequest.driverId data) with
                 | Some driverId => verifyDriver driverId
                 | None => mret tt
                 end w = (Ok tt, w)).
  { destruct (truthyId (UpdatePickupRequest.driverId data)) as [d |] eqn:Hid;
      [| done].
    apply truthyId_Some in Hid as [Hid _]. rewrite Hid in Hdrv.
    by apply verifyDriver_assignable. }
  rewrite (bind_ok _ _ _ _ _ Hver).
  rewrite bind_run, (pickup_alter_healthy _ _ _ p) by done.
  rewrite bind_run. simpl. rewrite lookup_alter_eq, Hp. simpl.
  rewrite withRelations_run. simpl. rewrite Hb. by eexists _, _.
Qed.

Lemma updatePickup_effect_witness :
  let p := pickupIn IN_PROGRESS (Some 10%Z) None in
  let data :=
    {| UpdatePickupRequest.driverId := None;
       UpdatePickupRequest.scheduledAt := None;
       UpdatePickupRequest.priority := None;
       UpdatePickupRequest.notes := None;
       UpdatePickupRequest.status := Some COMPLETED |} in
  exists r w' p',
    updatePickup "p1" data ADMIN "admin" (onePickupWorld p None) = (Ok r, w') /\
    pickups w' !! "p1" = Some p' /\
    Pickup.status p' = COMPLETED /\ Pickup.completedAt p' = None /\
    bins w' = bins (onePickupWorld p None).
Proof.
  intros p data.
  destruct (updatePickup_succeeds "p1" data ADMIN "admin"
              (onePickupWorld p None) (responseOf p))
    as (r & w' & Hrun); [reflexivity | apply onePickupWorld_read | done |].
  destruct (updatePickup_effect "p1" data ADMIN "admin" _ r w' p Hrun)
    as (p' & Hp' & _ & Hb & _ & Hst & _ & _ & _ & Hc & _); [reflexivity |].
  exists r, w', p'. done.
Defined.

(** The steps of a successful assignment. *)
Lemma assignDriverToPickup_ok_inv pickupId assignData role w a w' :
  assignDriverToPickup pickupId assignData role w = (Ok a, w') ->
  role = ADMIN /\
  assignable w (AssignDriverRequest.driverId assignData) /\
  exists p,
    pickups w !! pickupId = Some p /\
    pickups w' = <[pickupId := assignmentData assignData p]> (pickups w) /\
    bins w' = bins w /\ drivers w' = drivers w.
Proof.
  unfold assignDriverToPickup.
  destruct (bool_decide (role = ADMIN)) eqn:Hrole; [| done].
  apply bool_decide_eq_true in Hrole. simpl. rewrite bind_run. simpl.
  destruct (pickups w !! pickupId) as [p |] eqn:Hp; [| done].
  intros (u & w1 & Hver & H1)%bind_ok_inv.
  apply verifyDriver_ok_inv in Hver as [-> Hassign].
  apply bind_ok_inv in H1 as (u1 & w2 & Halter & Hret).
  injection Hret as _ <-.
  apply pickup_alter_ok_inv in Halter as (Hp2 & Hb2 & Hd2).
  split; [done |]. split; [done |]. exists p. split; [done |].
  split; [| done]. rewrite Hp2. apply map_eq. intros id.
  destruct (decide (id = pickupId)) as [-> | Hne].
  - by rewrite lookup_alter_eq, lookup_insert_eq, Hp.
  - by rewrite lookup_alter_ne, lookup_insert_ne.
Qed.

(** X10: only an administrator assigns a driver: any other role is refused
    with Forbidden before anything is read, and nothing changes. A
    successful assignment names an active and available driver, sets the
    driver of the one pickup, keeps its status and timestamps whatever the
    status is, and moves the scheduled time only when the request carries
    one. *)
Theorem assignDriverToPickup_effect pickupId assignData role w :
  (role <> ADMIN ->
   exists e, assignDriverToPickup pickupId assignData role w = (Throw e, w) /\
             errorKind e = Forbidden) /\
  (forall a w',
     assignDriverToPickup pickupId assignData role w = (Ok a, w') ->
     role = ADMIN /\
     assignable w (AssignDriverRequest.driverId assignData) /\
     exists p p',
       pickups w !! pickupId = Some p /\
       pickups w' !! pickupId = Some p' /\
       Pickup.driverId p' = Some (AssignDriverRequest.driverId assignData) /\
       Pickup.status p' = Pickup.status p /\
       Pickup.startedAt p' = Pickup.startedAt p /\
       Pickup.completedAt p' = Pickup.completedAt p /\
       Pickup.scheduledAt p'
       = or_else (AssignDriverRequest.scheduledAt assignData)
                 (Pickup.scheduledAt p) /\
       (forall other, other <> pickupId ->
                      pickups w' !! other = pickups w !! other) /\
       bins w' = bins w /\ drivers w' = drivers w).
Proof.
  unfold assignDriverToPickup. split.
  - intros Hrole. rewrite bool_decide_eq_false_2 by done. simpl.
    by eexists.
  - intros a w' Hrun. fold (assignDriverToPickup pickupId assignData role) in Hrun.
    apply assignDriverToPickup_ok_inv in Hrun
      as (Hrole & Hassign & p & Hp & Hp2 & Hb2 & Hd2).
    split; [done |]. split; [done |].
    exists p, (assignmentData assignData p).
    split; [done |]. split; [by rewrite Hp2, lookup_insert_eq |].
    split; [done |]. split; [done |]. split; [done |]. split; [done |].
    split; [done |].
    split; [intros other Hne; by rewrite Hp2, lookup_insert_ne |]. done.
Qed.

(** An assignment succeeds for an administrator when the pickup exists, the
    driver is acceptable and the database accepts the write. *)
Lemma assignDriverToPickup_succeeds pickupId assignData w p :
  outage w = None ->
  pickups w !! pickupId = Some p ->
  assignable w (AssignDriverRequest.driverId assignData) ->
  assignDriverToPickup pickupId assignData ADMIN w =
  (Ok driverAssigned,
   setPickups (alter (assignmentData assignData) pickupId) w).
Proof.
  intros Hout Hp Hassign. unfold assignDriverToPickup. simpl.
  rewrite bind_run. simpl. rewrite Hp.
  rewrite bind_run, verifyDriver_assignable by done.
  rewrite bind_run. by rewrite (pickup_alter_healthy _ _ _ p).
Qed.

(** X11: once an administrator has assigned a pickup to a driver, the user
    of that driver may read the pickup, and a status update by that user
    succeeds. *)
Theorem assigned_driver_gains_access
    now pickupId assignData statusData w a w' userId p b drow :
  assignDriverToPickup pickupId assignData ADMIN w = (Ok a, w') ->
  outage w' = None ->
  pickups w !! pickupId = Some p ->
  bins w !! Pickup.binId p = Some b ->
  driverOfUser w userId = Some (AssignDriverRequest.driverId assignData, drow) ->
  exists r w'',
    getPickupById pickupId DRIVER userId w' = (Ok r, w') /\
    updatePickupStatus now pickupId statusData DRIVER userId w'
    = (Ok statusUpdated, w'').
Proof.
  intros Hrun Hout Hp Hb Hdrv.
  apply assignDriverToPickup_ok_inv in Hrun
    as (_ & _ & p0 & Hp0 & Hp2 & Hbins & Hdrivers).
  assert (p0 = p) as -> by congruence.
  set (p' := assignmentData assignData p).
  assert (Hp' : pickups w' !! pickupId = Some p')
    by (by rewrite Hp2, lookup_insert_eq).
  assert (Hd' : Pickup.driverId p'
                = Some (AssignDriverRequest.driverId assignData)) by done.
  assert (Hbin' : Pickup.binId p' = Pickup.binId p) by done.
  assert (Hget : getPickupById pickupId DRIVER userId w' =
    (Ok (formatPickupResponse (pickupId, p') (Pickup.binId p', b)
           (Pickup.driverId p' ≫= (fun d => pair d <$> drivers w' !! d))
           MEDIUM PickupType.ON_DEMAND), w')).
  { apply getPickupById_intro; [done | | by rewrite Hbin', Hbins].
    unfold mayRead. simpl.
    rewrite (driverOfUser_drivers w w') by done. rewrite Hdrv. simpl.
    by apply bool_decide_eq_true. }
  eexists _, _. split; [exact Hget |].
  by apply updatePickupStatus_healthy.
Qed.

Lemma routeWorld_driverOfUser :
  driverOfUser routeWorld "u2" = Some ("d1", eastDriver).
Proof.
  unfold driverOfUser, findMany. simpl drivers.
  rewrite map_to_list_singleton. by rewrite filter_cons_True.
Qed.

Lemma assigned_driver_gains_access_witness :
  exists r w' w'',
    assignDriverToPickup "p1" toDriverD1 ADMIN routeWorld
    = (Ok driverAssigned, w') /\
    getPickupById "p1" DRIVER "u2" w' = (Ok r, w') /\
    updatePickupStatus 5 "p1" (setStatus IN_PROGRESS) DRIVER "u2" w'
    = (Ok statusUpdated, w'').
Proof.
  pose proof (assignDriverToPickup_succeeds "p1" toDriverD1 routeWorld
                (pickupIn SCHEDULED None None) eq_refl eq_refl
                (ex_intro _ eastDriver (conj eq_refl (conj eq_refl eq_refl))))
    as Hrun.
  destruct (assigned_driver_gains_access 5 "p1" toDriverD1
              (setStatus IN_PROGRESS) routeWorld driverAssigned _ "u2"
              (pickupIn SCHEDULED None None) (depotBin 96) eastDriver Hrun
              eq_refl eq_refl eq_refl routeWorld_driverOfUser)
    as (r & w'' & Hget & Hupd).
  eexists r, _, w''. split; [exact Hrun |]. split; [exact Hget | exact Hupd].
Defined.

(** X12: a successful cancellation changes the status and the notes of the
    one pickup and nothing else: its driver, scheduled time and timestamps
    stay, the other pickups and the bins stay; and the pickup was not
    [COMPLETED]. *)
Theorem cancelPickup_frame pickupId reason role userId w a w' p :
  cancelPickup pickupId reason role userId w = (Ok a, w') ->
  pickups w !! pickupId = Some p ->
  Pickup.status p <> COMPLETED /\
  exists p',
    pickups w' !! pickupId = Some p' /\
    Pickup.status p' = CANCELLED /\ Pickup.notes p' = Some reason /\
    Pickup.driverId p' = Pickup.driverId p /\
    Pickup.scheduledAt p' = Pickup.scheduledAt p /\
    Pickup.startedAt p' = Pickup.startedAt p /\
    Pickup.completedAt p' = Pickup.completedAt p /\
    (forall other, other <> pickupId ->
                   pickups w' !! other = pickups w !! other) /\
    bins w' = bins w /\ drivers w' = drivers w.
Proof.
  unfold cancelPickup.
  intros (r & w0 & Hget & H1)%bind_ok_inv Hp.
  apply getPickupById_ok in Hget as (-> & p0 & b & Hp0 & _ & ->).
  assert (p0 = p) as -> by congruence. simpl in H1.
  destruct (bool_decide (Pickup.status p = COMPLETED)) eqn:Hst; [done |].
  apply bool_decide_eq_false in Hst. split; [done |].
  apply bind_ok_inv in H1 as (u & w1 & Hupd & Hret).
  injection Hret as _ <-.
  apply pickup_update_ok_inv in Hupd as (Hp1 & Hb1 & Hd1).
  eexists. split; [by rewrite Hp1, lookup_alter_eq, Hp |].
  split; [done |]. split; [done |]. split; [done |]. split; [done |].
  split; [done |]. split; [done |].
  split; [intros other Hne; by rewrite Hp1, lookup_alter_ne |]. done.
Qed.

Lemma cancelPickup_frame_witness :
  let p := pickupIn IN_PROGRESS (Some 10%Z) None in
  exists a w' p',
    cancelPickup "p1" "truck broke down" ADMIN "admin" (onePickupWorld p None)
    = (Ok a, w') /\
    pickups w' !! "p1" = Some p' /\
    Pickup.status p' = CANCELLED /\ Pickup.startedAt p' = Some 10%Z.
Proof.
  intros p.
  assert (Hrun : exists a w',
    cancelPickup "p1" "truck broke down" ADMIN "admin" (onePickupWorld p None)
    = (Ok a, w')).
  { rewrite (cancelPickup_healthy _ _ _ _ _ (responseOf p));
      [by eexists _, _ | done | apply onePickupWorld_read]. }
  destruct Hrun as (a & w' & Hrun).
  destruct (cancelPickup_frame "p1" "truck broke down" ADMIN "admin" _ a w' p
              Hrun) as (_ & p' & Hp' & Hst & _ & _ & _ & Hs & _);
    [reflexivity |].
  by exists a, w', p'.
Defined.

(** ** Planning and storing a route *)

Lemma mapM_lookup_seq {A} (l : list A) (k j : nat) :
  j + k <= length l ->
  mapM (fun i => l !! i) (seq j k) = Some (take k (drop j l)).
Proof.
  revert j. induction k as [| k IH]; intros j Hlen; simpl.
  - by rewrite take_0.
  - destruct (lookup_lt_is_Some_2 l j) as [x Hx]; [lia |].
    rewrite Hx. simpl. rewrite IH by lia. simpl.
    by rewrite (drop_S _ _ _ Hx).
Qed.

Lemma mapM_lookup_seq_None {A} (l : list A) (k : nat) :
  length l < k -> mapM (fun i => l !! i) (seq 0 k) = None.
Proof.
  intros Hlen. apply mapM_None. apply Exists_exists.
  exists (length l). split; [apply elem_of_seq; lia |].
  by apply lookup_ge_None.
Qed.

(** X13: when the mapping collaborator answers a request for two stops or
    more, the route keeps the order in which the pickups were read: its
    stops are the first [k] pickups, [k] being the number of steps of the
    answer (all pickups when the answer lists no steps), with the distance
    of the answer as total; the order of the answer is not consulted. An
    answer with more steps than pickups is discarded for the fallback. *)
Theorem primary_plan_keeps_query_order {rt : Runtime}
    (getRoute : RouteRequest.t -> Outcome RouteResponse.t)
    response startLocation pickups :
  (forall request, getRoute request = Ok response) ->
  1 < length pickups ->
  let k := answeredStops response pickups in
  planRoute getRoute startLocation pickups =
  if bool_decide (k <= length pickups)
  then Some {| Plan.optimizedPickups := take k pickups;
               Plan.totalDistance := RouteResponse.distance response;
               Plan.estimatedDuration :=
                 Math_round (RouteResponse.duration response / 60 +
                             Double.ofNat (length pickups) * 5)%float |}
  else fallbackPlan startLocation pickups.
Proof.
  intros Hans Hlen k. unfold planRoute, primaryPlan. cbv zeta.
  rewrite length_fmap, bool_decide_eq_true_2 by done. rewrite Hans.
  assert (Horder :
    match RouteResponse.steps response with
    | Some steps => seq 0 (length steps)
    | None => seq 0 (length pickups)
    end = seq 0 k).
  { unfold k, answeredStops.
    by destruct (RouteResponse.steps response). }
  rewrite Horder.
  destruct (decide (k <= length pickups)) as [Hk | Hk].
  - rewrite bool_decide_eq_true_2 by done.
    rewrite mapM_lookup_seq by lia. by rewrite drop_0.
  - rewrite bool_decide_eq_false_2 by done.
    rewrite mapM_lookup_seq_None by lia. done.
Qed.

Lemma primary_plan_keeps_query_order_witness :
  let answer :=
    {| RouteResponse.distance := 1200%float;
       RouteResponse.duration := 600%float;
       RouteResponse.polyline := "xyz";
       RouteResponse.steps :=
         Some [ {| RouteStep.instruction := "Head north";
                   RouteStep.distance := 1200%float;
                   RouteStep.duration := 600%float |} ] |} in
  let pickups := [stopAt "p1" 8.49 (-13.23); stopAt "p2" 8.48 (-13.22)] in
  exists plan,
    planRoute (rt := engine) (fun _ => Ok answer) freetown pickups = Some plan /\
    Plan.optimizedPickups plan = [stopAt "p1" 8.49 (-13.23)].
Proof.
  intros answer pickups. eexists. split.
  - rewrite (primary_plan_keeps_query_order (rt := engine) (fun _ => Ok answer) answer
               freetown pickups); [| done | unfold pickups; simpl; lia].
    rewrite bool_decide_eq_true_2
      by (unfold answeredStops, answer, pickups; simpl; lia).
    reflexivity.
  - reflexivity.
Defined.

(** The stops of a plan are requested stops, each at most once. *)
Lemma planRoute_submseteq {rt : Runtime}
    (getRoute : RouteRequest.t -> Outcome RouteResponse.t)
    startLocation pickups plan :
  planRoute getRoute startLocation pickups = Some plan ->
  Plan.optimizedPickups plan ⊆+ pickups.
Proof.
  unfold planRoute.
  destruct (primaryPlan getRoute startLocation pickups) as [plan' | e] eqn:Hp.
  - intros [= <-]. revert Hp. unfold primaryPlan. cbv zeta.
    destruct (bool_decide (1 < length (stopLocation <$> pickups))).
    + destruct (getRoute _) as [response | ]; [| done].
      set (order := match RouteResponse.steps response with
                    | Some steps => seq 0 (length steps)
                    | None => seq 0 (length (stopLocation <$> pickups)) end).
      assert (Hseq : exists k, order = seq 0 k).
      { unfold order. destruct (RouteResponse.steps response); by eexists. }
      destruct Hseq as [k ->].
      destruct (mapM _ (seq 0 k)) as [chosen |] eqn:Hm; [| done].
      intros [= <-]. simpl.
      destruct (decide (k <= length pickups)) as [Hk | Hk].
      * rewrite mapM_lookup_seq, drop_0 in Hm by lia.
        injection Hm as <-. apply sublist_submseteq, sublist_take.
      * rewrite mapM_lookup_seq_None in Hm by lia. done.
    + destruct (stopLocation <$> pickups); [done |]. by intros [= <-].
  - intros Hfb.
    destruct (fallback_plan_spec startLocation pickups)
      as (plan' & Hfb' & Hperm & _).
    rewrite Hfb in Hfb'. injection Hfb' as <-.
    by apply Permutation_submseteq.
Qed.

Lemma routeStop_create_ok_inv_full row w st w' :
  routeStop_create row w = (Ok st, w') ->
  routeStops w' = <[newKey (routeStops w) := row]> (routeStops w) /\
  routes w' = routes w /\ bins w' = bins w /\ drivers w' = drivers w /\
  pickups w' = pickups w.
Proof.
  unfold routeStop_create. rewrite bind_run. simpl. rewrite bind_run.
  destruct (commit _ w) as [[u | e] w1] eqn:Hc; [| done].
  intros [= <- <-].
  by apply commit_ok_inv in Hc as (-> & -> & -> & -> & ->).
Qed.

Lemma truncate_lower (t : Z) (x : R) :
  (300000 <= x)%R -> (t + 300000 <= Geo.truncate (IZR t + x))%Z.
Proof.
  intros Hx. unfold Geo.truncate.
  assert (Hle : (IZR (t + 300000) <= IZR t + x)%R)
    by (rewrite plus_IZR; lra).
  destruct (Rle_dec 0 (IZR t + x)).
  - by apply Zfloor_lub.
  - pose proof (Zfloor_bound (- (IZR t + x))) as [Hfl _].
    assert (IZR (Zfloor (- (IZR t + x))) <= IZR (- (t + 300000)))%R
      by (rewrite opp_IZR; lra).
    apply le_IZR in H. lia.
Qed.

Lemma arrivalAfter_lower currentTime previous pickup :
  (currentTime + 300000 <= arrivalAfter currentTime previous pickup)%Z.
Proof.
  unfold arrivalAfter. cbv zeta. apply truncate_lower.
  pose proof (legDistance_nonneg (stopLocation previous) pickup). lra.
Qed.

(** What the loop over the stops stores and returns. *)
Lemma createRouteStops_ok routeId i previous currentTime stops w l w' :
  createRouteStops routeId i previous currentTime stops w = (Ok l, w') ->
  Forall2 (fun o s => OptimizedStop.pickupId o = Stop.pickupId s /\
                      OptimizedStop.bin o = Stop.bin s) l stops /\
  OptimizedStop.order <$> l = seq (i + 1) (length stops) /\
  size (routeStops w') = size (routeStops w) + length stops /\
  routes w' = routes w /\ bins w' = bins w /\ drivers w' = drivers w /\
  spaced (match previous with
          | Some _ => currentTime + 300000
          | None => currentTime
          end%Z) (OptimizedStop.estimatedArrival <$> l) /\
  (previous = None ->
   forall o, head l = Some o -> OptimizedStop.estimatedArrival o = currentTime).
Proof.
  revert i previous currentTime w l.
  induction stops as [| s stops IH]; intros i previous currentTime w l.
  - intros [= <- <-]. simpl. repeat split; done || lia.
  - simpl. intros (st & w1 & Hst & Hrest)%bind_ok_inv.
    apply bind_ok_inv in Hrest as (l' & w2 & Hrest & Hret).
    injection Hret as <- <-.
    apply routeStop_create_ok_inv_full in Hst as (Hrs & Hr & Hb & Hd & _).
    apply IH in Hrest
      as (Hall & Hord & Hsize & Hr' & Hb' & Hd' & Hsp & _).
    split; [by constructor |]. split.
    { rewrite fmap_cons, Hord. simpl. by do 2 f_equal. }
    split.
    { rewrite Hsize, Hrs, map_size_insert_None by apply newKey_fresh. lia. }
    split; [congruence |]. split; [congruence |]. split; [congruence |].
    split.
    { simpl. split; [| done].
      destruct previous; [apply arrivalAfter_lower | lia]. }
    intros -> o [= <-]. done.
Qed.

Lemma route_create_ok_inv_full row w rt w' :
  route_create row w = (Ok rt, w') ->
  rt = (newKey (routes w), row) /\
  routes w' = <[newKey (routes w) := row]> (routes w) /\
  routeStops w' = routeStops w /\ bins w' = bins w /\ drivers w' = drivers w.
Proof.
  unfold route_create. rewrite bind_run. simpl. rewrite bind_run.
  destruct (commit _ w) as [[u | e] w1] eqn:Hc; [| done].
  intros [= <- <-].
  by apply commit_ok_inv in Hc as (-> & -> & _ & -> & ->).
Qed.

(** The steps of a successful optimisation. *)
Lemma optimizePickupRoute_ok_inv {rt : Runtime}
    (getRoute : RouteRequest.t -> Outcome RouteResponse.t)
    (toLocaleDateString : Z -> string) now data w r w' :
  optimizePickupRoute getRoute toLocaleDateString now data w = (Ok r, w') ->
  exists driver stops plan row l w1 w2,
    drivers w !! PickupRouteOptimization.driverId data = Some driver /\
    mapM (toStop w)
      (scheduledPickups w (PickupRouteOptimization.pickupIds data))
    = Some stops /\
    planRoute getRoute
      (default (defaultStart driver)
         (PickupRouteOptimization.startLocation data)) stops = Some plan /\
    route_create row w = (Ok (newKey (routes w), row), w1) /\
    Route.driverId row = PickupRouteOptimization.driverId data /\
    Route.status row = "PLANNED" /\
    Route.totalDistance row = Plan.totalDistance plan /\
    Route.estimatedDuration row = Plan.estimatedDuration plan /\
    createRouteStops (newKey (routes w)) 0 None now
      (Plan.optimizedPickups plan) w1 = (Ok l, w2) /\
    bins w' = bins w2 /\ drivers w' = drivers w2 /\
    routes w' = routes w2 /\ routeStops w' = routeStops w2 /\
    (forall id,
       pickups w' !! id =
       (fun p =>
          if bool_decide (id ∈ PickupRouteOptimization.pickupIds data)
          then reassigned (PickupRouteOptimization.driverId data) p else p)
         <$> pickups w !! id) /\
    r = {| OptimizedRoute.routeId := newKey (routes w);
           OptimizedRoute.driverId := PickupRouteOptimization.driverId data;
           OptimizedRoute.totalDistance :=
             (Math_round (Plan.totalDistance plan * 100) / 100)%float;
           OptimizedRoute.estimatedDuration := Plan.estimatedDuration plan;
           OptimizedRoute.pickups := l |}.
Proof.
  unfold optimizePickupRoute. cbv zeta. rewrite bind_run. simpl.
  destruct (drivers w !! PickupRouteOptimization.driverId data)
    as [driver |]; [| done].
  rewrite bind_run. simpl.
  destruct (mapM (toStop w) _) as [[| s stops] |] eqn:Hstops; [done | | done].
  destruct (planRoute _ _ _) as [plan |] eqn:Hplan; [| done].
  intros (created & w1 & Hroute & H1)%bind_ok_inv.
  pose proof Hroute as Hroute'.
  apply route_create_ok_inv_full in Hroute' as (-> & _).
  apply bind_ok_inv in H1 as (l & w2 & Hcreate & H2).
  apply bind_ok_inv in H2 as (u & w3 & Hmany & Hret).
  injection Hret as <- <-.
  pose proof (pickup_updateMany_ok_inv _ _ _ _ _ Hmany) as Hpickups.
  rewrite (createRouteStops_pickups _ _ _ _ _ _ _ _ Hcreate) in Hpickups.
  rewrite (proj1 (route_create_ok_inv _ _ _ _ Hroute)) in Hpickups.
  unfold pickup_updateMany in Hmany.
  apply commit_ok_inv in Hmany as (Hb & Hd & _ & Hr & Hrs).
  eexists driver, (s :: stops), plan, _, l, w1, w2.
  split; [done |]. split; [done |]. split; [done |].
  split; [exact Hroute |]. simpl. done.
Qed.

Lemma submseteq_NoDup {A} (l k : list A) : l ⊆+ k -> NoDup k -> NoDup l.
Proof.
  intros [k' Hk]%submseteq_Permutation. rewrite Hk.
  by intros [? _]%NoDup_app.
Qed.

Lemma Forall2_fmap_eq {A B C} (f : A -> C) (g : B -> C) (l : list A)
    (k : list B) :
  Forall2 (fun a b => f a = g b) l k -> f <$> l = g <$> k.
Proof.
  induction 1 as [| a b l k Hab _ IH]; [done |].
  rewrite !fmap_cons. by f_equal.
Qed.

Lemma mapM_toStop w l stops :
  mapM (toStop w) l = Some stops ->
  Forall2 (fun p s => Stop.pickupId s = p.1 /\
                      (Stop.bin s).1 = Pickup.binId p.2 /\
                      bins w !! Pickup.binId p.2 = Some (Stop.bin s).2)
          l stops.
Proof.
  intros H%mapM_Some. eapply Forall2_impl; [exact H |].
  intros p s. unfold toStop.
  destruct (bins w !! Pickup.binId p.2) as [bin |]; [| done].
  by intros [= <-].
Qed.

Lemma NoDup_scheduledPickups w ids : NoDup (scheduledPickups w ids).*1.
Proof.
  apply (sublist_NoDup _ (map_to_list (pickups w)).*1);
    [apply NoDup_fst_map_to_list |].
  apply fmap_sublist. unfold scheduledPickups, findMany. apply sublist_filter.
Qed.

Lemma elem_of_scheduledPickups w ids id p :
  (id, p) ∈ scheduledPickups w ids <->
  pickups w !! id = Some p /\ id ∈ ids /\ Pickup.status p = SCHEDULED.
Proof.
  unfold scheduledPickups. rewrite elem_of_findMany. simpl.
  rewrite andb_true_iff, !bool_decide_eq_true. tauto.
Qed.

(** The stops returned by a successful optimisation, against the request. *)
Lemma optimizePickupRoute_stops {rt : Runtime}
    (getRoute : RouteRequest.t -> Outcome RouteResponse.t)
    (toLocaleDateString : Z -> string) now data w r w' :
  optimizePickupRoute getRoute toLocaleDateString now data w = (Ok r, w') ->
  NoDup (OptimizedStop.pickupId <$> OptimizedRoute.pickups r) /\
  forall o, o ∈ OptimizedRoute.pickups r ->
    OptimizedStop.pickupId o ∈ PickupRouteOptimization.pickupIds data /\
    exists p,
      pickups w !! OptimizedStop.pickupId o = Some p /\
      Pickup.status p = SCHEDULED /\
      (OptimizedStop.bin o).1 = Pickup.binId p /\
      bins w !! Pickup.binId p = Some (OptimizedStop.bin o).2.
Proof.
  intros (driver & stops & plan & row & l & w1 & w2 & _ & Hstops & Hplan &
          _ & _ & _ & _ & _ & Hcreate & _ & _ & _ & _ & _ & ->)
    %optimizePickupRoute_ok_inv.
  simpl.
  apply createRouteStops_ok in Hcreate as (Hall & _).
  apply planRoute_submseteq in Hplan.
  apply mapM_toStop in Hstops.
  assert (Hids : Stop.pickupId <$> stops
                 = (scheduledPickups w
                      (PickupRouteOptimization.pickupIds data)).*1).
  { symmetry. apply Forall2_fmap_eq.
    eapply Forall2_impl; [exact Hstops |]. by intros p s (-> & _). }
  assert (Hl : OptimizedStop.pickupId <$> l
               = Stop.pickupId <$> Plan.optimizedPickups plan).
  { apply Forall2_fmap_eq.
    eapply Forall2_impl; [exact Hall |]. by intros o s (-> & _). }
  split.
  - rewrite Hl.
    apply (submseteq_NoDup _ (Stop.pickupId <$> stops));
      [by apply fmap_submseteq |].
    rewrite Hids. apply NoDup_scheduledPickups.
  - intros o Ho.
    apply list_elem_of_lookup in Ho as [i Hi].
    destruct (Forall2_lookup_l _ _ _ _ _ Hall Hi) as (s & Hs & Hid & Hbin).
    apply list_elem_of_lookup_2 in Hs.
    apply (elem_of_submseteq _ _ _ Hs) in Hplan.
    apply list_elem_of_lookup in Hplan as [j Hj].
    destruct (Forall2_lookup_r _ _ _ _ _ Hstops Hj)
      as ([id p] & Hp & Hid' & Hbin1 & Hbin2).
    apply list_elem_of_lookup_2, elem_of_scheduledPickups in Hp
      as (Hrow & Hin & Hst).
    simpl in *. rewrite Hid, Hid', Hbin. split; [done |].
    exists p. done.
Qed.

(** X14: route optimisation refuses a driver that does not exist (not found),
    and refuses a request none of whose pickups is scheduled (invalid state),
    whether or not the ids exist; in both cases nothing is written. *)
Theorem optimizePickupRoute_refusals {rt : Runtime}
    (getRoute : RouteRequest.t -> Outcome RouteResponse.t)
    (toLocaleDateString : Z -> string) now data w :
  (drivers w !! PickupRouteOptimization.driverId data = None ->
   exists e,
     optimizePickupRoute getRoute toLocaleDateString now data w = (Throw e, w)
     /\ errorKind e = NotFound) /\
  (is_Some (drivers w !! PickupRouteOptimization.driverId data) ->
   (forall id p, id ∈ PickupRouteOptimization.pickupIds data ->
                 pickups w !! id = Some p -> Pickup.status p <> SCHEDULED) ->
   exists e,
     optimizePickupRoute getRoute toLocaleDateString now data w = (Throw e, w)
     /\ errorKind e = InvalidState).
Proof.
  split.
  - intros Hnone. unfold optimizePickupRoute. cbv zeta.
    rewrite bind_run. simpl. rewrite Hnone. by eexists.
  - intros [driver Hdriver] Hnone. unfold optimizePickupRoute. cbv zeta.
    rewrite bind_run. simpl. rewrite Hdriver. rewrite bind_run. simpl.
    assert (Hempty : scheduledPickups w
                       (PickupRouteOptimization.pickupIds data) = []).
    { destruct (scheduledPickups w _) as [| [id p] l] eqn:Hl; [done |].
      assert (Hin : (id, p) ∈ scheduledPickups w
                      (PickupRouteOptimization.pickupIds data))
        by (rewrite Hl; left).
      apply elem_of_scheduledPickups in Hin as (Hrow & Hin & Hst).
      by destruct (Hnone id p Hin Hrow). }
    rewrite Hempty. simpl. by eexists.
Qed.

(** X15: a successful route optimisation stores exactly one new route, under
    the returned id, planned and belonging to the requested driver, and one
    route stop per returned stop; the returned stops are numbered 1, 2, ...
    in order, no pickup occurs twice among them, and each of them is a
    requested pickup that was scheduled, shown with the bin it refers to.
    Bins and drivers are untouched. *)
Theorem optimizePickupRoute_result {rt : Runtime}
    (getRoute : RouteRequest.t -> Outcome RouteResponse.t)
    (toLocaleDateString : Z -> string) now data w r w' :
  optimizePickupRoute getRoute toLocaleDateString now data w = (Ok r, w') ->
  OptimizedRoute.driverId r = PickupRouteOptimization.driverId data /\
  routes w !! OptimizedRoute.routeId r = None /\
  (exists row,
     routes w' = <[OptimizedRoute.routeId r := row]> (routes w) /\
     Route.driverId row = PickupRouteOptimization.driverId data /\
     Route.status row = "PLANNED") /\
  size (routeStops w')
  = size (routeStops w) + length (OptimizedRoute.pickups r) /\
  OptimizedStop.order <$> OptimizedRoute.pickups r
  = seq 1 (length (OptimizedRoute.pickups r)) /\
  NoDup (OptimizedStop.pickupId <$> OptimizedRoute.pickups r) /\
  (forall o, o ∈ OptimizedRoute.pickups r ->
     OptimizedStop.pickupId o ∈ PickupRouteOptimization.pickupIds data /\
     exists p,
       pickups w !! OptimizedStop.pickupId o = Some p /\
       Pickup.status p = SCHEDULED /\
       (OptimizedStop.bin o).1 = Pickup.binId p /\
       bins w !! Pickup.binId p = Some (OptimizedStop.bin o).2) /\
  bins w' = bins w /\ drivers w' = drivers w.
Proof.
  intros Hrun.
  destruct (optimizePickupRoute_stops _ _ _ _ _ _ _ Hrun) as [Hnodup Hstops].
  apply optimizePickupRoute_ok_inv in Hrun
    as (driver & stops & plan & row & l & w1 & w2 & _ & _ & _ &
        Hroute & Hdrv & Hstatus & _ & _ & Hcreate & Hb & Hd & Hr & Hrs & _ &
        Hres).
  apply route_create_ok_inv_full in Hroute as (_ & Hr1 & Hrs1 & Hb1 & Hd1).
  apply createRouteStops_ok in Hcreate
    as (Hall & Hord & Hsize & Hr2 & Hb2 & Hd2 & _).
  pose proof (Forall2_length _ _ _ Hall) as Hlen.
  subst r. simpl in *.
  split; [done |]. split; [apply newKey_fresh |].
  split; [exists row; split; [congruence | done] |].
  split; [congruence |].
  split; [by rewrite Hord, Hlen |].
  split; [done |]. split; [done |]. split; congruence.
Qed.

Lemma routeWorld_scheduled :
  mapM (toStop routeWorld)
    (scheduledPickups routeWorld (PickupRouteOptimization.pickupIds routeRequest))
  = Some [stopAt "p1" 0 0].
Proof.
  unfold scheduledPickups, findMany. simpl pickups.
  rewrite two_pickups_list. reflexivity.
Qed.

Lemma routeWorld_optimised :
  exists r w',
    optimizePickupRoute (rt := engine) mapsDown isoDate 0 routeRequest routeWorld = (Ok r, w').
Proof.
  apply (optimizePickupRoute_succeeds (rt := engine) mapsDown isoDate 0 routeRequest
           routeWorld eastDriver (stopAt "p1" 0 0) []).
  - reflexivity.
  - reflexivity.
  - apply routeWorld_scheduled.
  - by eexists.
Qed.

Lemma optimizePickupRoute_result_witness :
  exists r w',
    optimizePickupRoute (rt := engine) mapsDown isoDate 0 routeRequest routeWorld
    = (Ok r, w') /\
    size (routeStops w') = length (OptimizedRoute.pickups r) /\
    NoDup (OptimizedStop.pickupId <$> OptimizedRoute.pickups r).
Proof.
  destruct routeWorld_optimised as (r & w' & Hrun).
  exists r, w'. split; [exact Hrun |].
  destruct (optimizePickupRoute_result (rt := engine) mapsDown isoDate 0 routeRequest
              routeWorld r w' Hrun)
    as (_ & _ & _ & Hsize & _ & Hnodup & _).
  split; [exact Hsize | exact Hnodup].
Defined.



(** ** The route of a driver *)

Lemma getDriverOptimizedRoute_run {rt : Runtime}
    (getRoute : RouteRequest.t -> Outcome RouteResponse.t)
    (toLocaleDateString : Z -> string)
    (byPriority : list (string * Pickup.t) -> list (string * Pickup.t))
    now driverId w :
  getDriverOptimizedRoute getRoute toLocaleDateString byPriority now driverId w
  = match scheduledOf byPriority w driverId with
    | [] => (Ok NoRoute, w)
    | p :: l =>
        match optimizePickupRoute getRoute toLocaleDateString now
                {| PickupRouteOptimization.driverId := driverId;
                   PickupRouteOptimization.pickupIds := (p :: l).*1;
                   PickupRouteOptimization.startLocation := None |} w with
        | (Ok r, w') => (Ok (Optimized r), w')
        | (Throw e, w') => (Throw e, w')
        end
    end.
Proof.
  unfold getDriverOptimizedRoute. rewrite bind_run. unfold gets.
  destruct (scheduledOf byPriority w driverId) as [| p l]; [done |].
  rewrite bind_run. by destruct (optimizePickupRoute _ _ _ _ _) as [[r | e] w'].
Qed.

Lemma elem_of_scheduledOf
    (byPriority : list (string * Pickup.t) -> list (string * Pickup.t))
    w driverId id p :
  (forall l, byPriority l ≡ₚ l) ->
  (id, p) ∈ scheduledOf byPriority w driverId <->
  pickups w !! id = Some p /\ Pickup.driverId p = Some driverId /\
  Pickup.status p = SCHEDULED.
Proof.
  intros Hperm. unfold scheduledOf. rewrite Hperm, elem_of_findMany. simpl.
  rewrite andb_true_iff, !bool_decide_eq_true. tauto.
Qed.

Lemma reassigned_same driverId p :
  Pickup.driverId p = Some driverId -> reassigned driverId p = p.
Proof. destruct p. simpl. by intros ->. Qed.

(** X17: asking for the route of a driver never changes a pickup. When the
    driver has no scheduled pickup the call succeeds with the empty route and
    writes nothing, whether or not the driver exists; and it answers the
    empty route in that case only. Otherwise every stop of the answer is a
    scheduled pickup of that driver, and the call has stored a new route
    under the returned id. The order in which the database lists the pickups
    is any rearrangement of them. *)
Theorem getDriverOptimizedRoute_effect {rt : Runtime}
    (getRoute : RouteRequest.t -> Outcome RouteResponse.t)
    (toLocaleDateString : Z -> string)
    (byPriority : list (string * Pickup.t) -> list (string * Pickup.t))
    now driverId w :
  (forall l, byPriority l ≡ₚ l) ->
  ((forall id p, pickups w !! id = Some p ->
                 Pickup.driverId p = Some driverId ->
                 Pickup.status p <> SCHEDULED) ->
   getDriverOptimizedRoute getRoute toLocaleDateString byPriority now
     driverId w = (Ok NoRoute, w)) /\
  (forall route w',
     getDriverOptimizedRoute getRoute toLocaleDateString byPriority now
       driverId w = (Ok route, w') ->
     pickups w' = pickups w /\
     match route with
     | NoRoute =>
         w' = w /\
         forall id p, pickups w !! id = Some p ->
                      Pickup.driverId p = Some driverId ->
                      Pickup.status p <> SCHEDULED
     | Optimized r =>
         (forall o, o ∈ OptimizedRoute.pickups r ->
            exists p, pickups w !! OptimizedStop.pickupId o = Some p /\
                      Pickup.driverId p = Some driverId /\
                      Pickup.status p = SCHEDULED) /\
         routes w !! OptimizedRoute.routeId r = None /\
         is_Some (routes w' !! OptimizedRoute.routeId r)
     end).
Proof.
  intros Hperm. rewrite getDriverOptimizedRoute_run. split.
  { intros Hnone.
    destruct (scheduledOf byPriority w driverId) as [| [id p] l] eqn:Hsched;
      [done |].
    assert (Hin : (id, p) ∈ scheduledOf byPriority w driverId)
      by (rewrite Hsched; left).
    apply elem_of_scheduledOf in Hin as (Hrow & Hdrv & Hst); [| done].
    by destruct (Hnone id p Hrow Hdrv). }
  intros route w'.
  destruct (scheduledOf byPriority w driverId) as [| p0 l] eqn:Hsched.
  - intros [= <- <-]. split; [done |]. split; [done |].
    intros id p Hrow Hdrv Hst.
    assert (Hin : (id, p) ∈ scheduledOf byPriority w driverId)
      by (by apply elem_of_scheduledOf).
    rewrite Hsched in Hin. by apply elem_of_nil in Hin.
  - destruct (optimizePickupRoute _ _ _ _ _) as [[r | e] w1] eqn:Hrun; [| done].
    intros [= <- <-].
    assert (Hmine : forall id, id ∈ (p0 :: l).*1 ->
              exists p, pickups w !! id = Some p /\
                        Pickup.driverId p = Some driverId /\
                        Pickup.status p = SCHEDULED).
    { intros id ([id' p] & -> & Hin)%list_elem_of_fmap. rewrite <- Hsched in Hin.
      apply elem_of_scheduledOf in Hin; [| done]. by exists p. }
    destruct (optimizePickupRoute_stops _ _ _ _ _ _ _ Hrun) as [_ Hstops].
    apply optimizePickupRoute_ok_inv in Hrun
      as (driver & stops & plan & row & sl & w2 & w3 & _ & _ & _ &
          Hroute & _ & _ & _ & _ & Hcreate & _ & _ & Hr & _ & Hpickups & Hres).
    simpl in *. split; [| split; [| split]].
    + apply map_eq. intros id. rewrite Hpickups.
      destruct (pickups w !! id) as [p |] eqn:Hp; [| done]. simpl.
      case_bool_decide as Hin; [| done].
      destruct (Hmine id Hin) as (p' & Hp' & Hdrv & _).
      f_equal. apply reassigned_same. congruence.
    + intros o Ho. destruct (Hstops o Ho) as [Hin _]. by apply Hmine.
    + subst r. apply newKey_fresh.
    + subst r. simpl.
      apply route_create_ok_inv_full in Hroute as (_ & Hr1 & _).
      apply createRouteStops_ok in Hcreate as (_ & _ & _ & Hr2 & _).
      rewrite Hr, Hr2, Hr1, lookup_insert_eq. by eexists.
Qed.

Lemma driverRouteWorld_route :
  exists r w',
    getDriverOptimizedRoute (rt := engine) mapsDown isoDate (fun l => l) 0 "d1"
      driverRouteWorld = (Ok (Optimized r), w').
Proof.
  assert (Hsched : scheduledOf (fun l => l) driverRouteWorld "d1"
                   = [("p1", reassigned "d1" (pickupIn SCHEDULED None None))]).
  { unfold scheduledOf, findMany. simpl pickups.
    rewrite two_pickups_list. reflexivity. }
  rewrite (getDriverOptimizedRoute_run (rt := engine)), Hsched.
  destruct (optimizePickupRoute_succeeds (rt := engine) mapsDown isoDate 0
              {| PickupRouteOptimization.driverId := "d1";
                 PickupRouteOptimization.pickupIds := ["p1"];
                 PickupRouteOptimization.startLocation := None |}
              driverRouteWorld eastDriver (stopAt "p1" 0 0) [])
    as (r & w' & Hrun).
  - reflexivity.
  - reflexivity.
  - unfold scheduledPickups, findMany. simpl pickups.
    rewrite two_pickups_list. reflexivity.
  - by eexists.
  - exists r, w'. change ([("p1", reassigned "d1" (pickupIn SCHEDULED None None))].*1)
      with ["p1"]. by rewrite Hrun.
Qed.

Lemma getDriverOptimizedRoute_effect_witness :
  exists r w',
    getDriverOptimizedRoute (rt := engine) mapsDown isoDate (fun l => l) 0 "d1"
      driverRouteWorld = (Ok (Optimized r), w') /\
    pickups w' = pickups driverRouteWorld.
Proof.
  destruct driverRouteWorld_route as (r & w' & Hrun).
  exists r, w'. split; [exact Hrun |].
  exact (proj1 (proj2 (getDriverOptimizedRoute_effect (rt := engine) mapsDown isoDate
                         (fun l => l) 0 "d1" driverRouteWorld
                         (fun l => Permutation_refl l))
                  (Optimized r) w' Hrun)).
Defined.

(** ** Reminders and overdue pickups *)

Lemma elem_of_upcomingPickups w now id p :
  (id, p) ∈ upcomingPickups w now <->
  pickups w !! id = Some p /\ Pickup.status p = SCHEDULED /\
  Pickup.driverId p <> None /\
  exists t, Pickup.scheduledAt p = Some t /\
            (now <= t)%Z /\ (t <= now + 900000)%Z.
Proof.
  unfold upcomingPickups. rewrite elem_of_findMany. unfold dueForReminder.
  simpl. rewrite !andb_true_iff, !bool_decide_eq_true.
  destruct (Pickup.scheduledAt p) as [t |].
  - rewrite andb_true_iff, !bool_decide_eq_true. split.
    + intros (? & (? & ? & ?) & ?). repeat split; try done.
      exists t. repeat split; [done | lia].
    + intros (? & ? & ? & t' & [= <-] & ? & ?). repeat split; done || lia.
  - split; [by intros (_ & (_ & ?) & _) | by intros (_ & _ & _ & t & ? & _)].
Qed.

Lemma elem_of_overduePickups w now id p :
  (id, p) ∈ overduePickups w now <->
  pickups w !! id = Some p /\ Pickup.status p = SCHEDULED /\
  Pickup.driverId p <> None /\
  exists t, Pickup.scheduledAt p = Some t /\ (t < now - 1800000)%Z.
Proof.
  unfold overduePickups. rewrite elem_of_findMany. unfold overdue.
  simpl. rewrite !andb_true_iff, !bool_decide_eq_true.
  destruct (Pickup.scheduledAt p) as [t |].
  - rewrite bool_decide_eq_true. split.
    + intros (? & (? & ?) & ?). repeat split; try done.
      exists t. split; [done | lia].
    + intros (? & ? & ? & t' & [= <-] & ?). repeat split; done || lia.
  - split; [by intros (_ & (_ & ?) & _) | by intros (_ & _ & _ & t & ? & _)].
Qed.

(** X18: a pickup created without a requested time is not due for a
    reminder at any instant of the first fifteen minutes after its creation,
    and is not overdue at any instant of the first hour, whatever its
    priority. *)
Theorem created_pickup_not_reminded_at_once {rt : Runtime} now data role userId w r w' :
  CreatePickupRequest.scheduledAt data = None ->
  createPickup now data role userId w = (Ok r, w') ->
  forall (t : Z) (p : Pickup.t),
    (now <= t)%Z ->
    ((t < now + 900000)%Z ->
     (PickupResponse.id r, p) ∉ upcomingPickups w' t) /\
    ((t <= now + 3600000)%Z ->
     (PickupResponse.id r, p) ∉ overduePickups w' t).
Proof.
  intros Hnone Hrun t p Ht.
  apply createPickup_ok in Hrun
    as (bin & assigned & _ & Hp & _ & _ & Hid & _).
  assert (Hat : forall t', Pickup.scheduledAt
                  (createdRow now data userId bin assigned) = Some t' ->
                (now + 1800000 <= t')%Z).
  { unfold createdRow. simpl. rewrite Hnone. simpl. intros t' [= <-].
    unfold calculateScheduledTime. destruct (derivePriority _ _); lia. }
  split; intros Hlt.
  - intros (Hrow & _ & _ & t' & Hsched & Hlo & Hhi)%elem_of_upcomingPickups.
    rewrite Hid, Hp, lookup_insert_eq in Hrow. injection Hrow as <-.
    apply Hat in Hsched. lia.
  - intros (Hrow & _ & _ & t' & Hsched & Hlo)%elem_of_overduePickups.
    rewrite Hid, Hp, lookup_insert_eq in Hrow. injection Hrow as <-.
    apply Hat in Hsched. lia.
Qed.

Lemma created_pickup_not_reminded_at_once_witness :
  exists r w',
    createPickup (rt := engine) 1000 plainRequest ADMIN "admin" (oneBinWorld 96)
    = (Ok r, w') /\
    forall p, (PickupResponse.id r, p) ∉ upcomingPickups w' 1000.
Proof.
  destruct (createPickup_admin (rt := engine) 1000 plainRequest "admin" (oneBinWorld 96)
              (depotBin 96)) as [r Hr]; [reflexivity | reflexivity | reflexivity |].
  exists r. eexists. split; [exact Hr |].
  intros p.
  apply (created_pickup_not_reminded_at_once (rt := engine) 1000 plainRequest ADMIN "admin"
           (oneBinWorld 96) r _ eq_refl Hr 1000%Z p); lia.
Defined.

Section ReminderFacts.

Variable phoneOf : string -> option string.
Variable toLocaleTimeString : Z -> string.

Lemma elem_of_sendPickupReminders w now n :
  n ∈ sendPickupReminders phoneOf toLocaleTimeString w now <->
  exists id p driverId phone t,
    pickups w !! id = Some p /\ Pickup.status p = SCHEDULED /\
    Pickup.driverId p = Some driverId /\ phoneOf driverId = Some phone /\
    phone <> EmptyString /\ Pickup.scheduledAt p = Some t /\
    (now <= t)%Z /\ (t <= now + 900000)%Z /\
    n = sendPickupReminder toLocaleTimeString id phone t.
Proof.
  unfold sendPickupReminders. rewrite list_elem_of_omap. split.
  - intros ([id p] & Hin & Hsend).
    apply elem_of_upcomingPickups in Hin
      as (Hrow & Hst & _ & t & Hsched & Hlo & Hhi).
    unfold driverPhone in Hsend. simpl in Hsend.
    destruct (Pickup.driverId p) as [driverId |] eqn:Hdrv; [| done].
    simpl in Hsend.
    destruct (phoneOf driverId) as [phone |] eqn:Hphone; [| done].
    simpl in Hsend. case_bool_decide as Hne; [done |]. simpl in Hsend.
    rewrite Hsched in Hsend. injection Hsend as <-.
    by exists id, p, driverId, phone, t.
  - intros (id & p & driverId & phone & t & Hrow & Hst & Hdrv & Hphone & Hne &
            Hsched & Hlo & Hhi & ->).
    exists (id, p). split.
    + apply elem_of_upcomingPickups. repeat split; [done | done | | by exists t].
      by rewrite Hdrv.
    + unfold driverPhone. simpl. rewrite Hdrv. simpl. rewrite Hphone. simpl.
      rewrite bool_decide_eq_false_2 by done. simpl. by rewrite Hsched.
Qed.

Lemma sublist_omap_keys {A B K} (f : A -> option B) (g : A -> K) (h : B -> K)
    (l : list A) :
  (forall x y, f x = Some y -> h y = g x) ->
  h <$> omap f l `sublist_of` g <$> l.
Proof.
  intros Hkey. induction l as [| x l IH]; [done |].
  change (omap f (x :: l))
    with (match f x with Some y => y :: omap f l | None => omap f l end).
  destruct (f x) as [y |] eqn:Hx.
  - rewrite !fmap_cons, (Hkey x y Hx). by apply sublist_skip.
  - rewrite fmap_cons. by apply sublist_cons.
Qed.

(** X19: one pass of the reminder job sends a notification exactly for the
    scheduled pickups whose time lies within the next fifteen minutes and
    whose driver has a phone number that is not the empty text: a reminder
    by SMS to that one number, with the message that names the time and the
    pickup; and it sends at most one per pickup. *)
Theorem sendPickupReminders_spec w now :
  NoDup (PickupNotification.pickupId
           <$> sendPickupReminders phoneOf toLocaleTimeString w now) /\
  (forall n, n ∈ sendPickupReminders phoneOf toLocaleTimeString w now ->
     PickupNotification.type n = "REMINDER" /\
     PickupNotification.channel n = "SMS" /\
     exists p driverId phone t,
       pickups w !! PickupNotification.pickupId n = Some p /\
       Pickup.status p = SCHEDULED /\
       Pickup.driverId p = Some driverId /\
       phoneOf driverId = Some phone /\ phone <> EmptyString /\
       PickupNotification.recipients n = [phone] /\
       PickupNotification.message n
       = "Reminder: Pickup scheduled at " +:+ toLocaleTimeString t
         +:+ ". Pickup ID: " +:+ PickupNotification.pickupId n /\
       Pickup.scheduledAt p = Some t /\ (now <= t <= now + 900000)%Z) /\
  (forall id p driverId phone t,
     pickups w !! id = Some p -> Pickup.status p = SCHEDULED ->
     Pickup.driverId p = Some driverId -> phoneOf driverId = Some phone ->
     phone <> EmptyString -> Pickup.scheduledAt p = Some t ->
     (now <= t <= now + 900000)%Z ->
     exists n, n ∈ sendPickupReminders phoneOf toLocaleTimeString w now /\
               PickupNotification.pickupId n = id).
Proof.
  split; [| split].
  - apply (sublist_NoDup _ (upcomingPickups w now).*1).
    + apply (sublist_NoDup _ (map_to_list (pickups w)).*1);
        [apply NoDup_fst_map_to_list |].
      apply fmap_sublist. unfold upcomingPickups, findMany.
      apply sublist_filter.
    + apply sublist_omap_keys. intros [id p] n Hn. simpl.
      destruct (driverPhone phoneOf (id, p)) as [phone |]; [| done].
      simpl in Hn. destruct (Pickup.scheduledAt p); [| done].
      by injection Hn as <-.
  - intros n (id & p & driverId & phone & t & Hrow & Hst & Hdrv & Hphone &
              Hne & Hsched & Hlo & Hhi & ->)%elem_of_sendPickupReminders.
    simpl. split; [done |]. split; [done |].
    by exists p, driverId, phone, t.
  - intros id p driverId phone t Hrow Hst Hdrv Hphone Hne Hsched [Hlo Hhi].
    exists (sendPickupReminder toLocaleTimeString id phone t).
    split; [| done]. apply elem_of_sendPickupReminders.
    by exists id, p, driverId, phone, t.
Qed.

(** X20: the reminder job keeps no record of what it has sent: a reminder
    sent in one pass is sent again in every later pass that runs before the
    scheduled time of the pickup, as long as the database is the same. *)
Theorem reminder_sent_again w now later n :
  n ∈ sendPickupReminders phoneOf toLocaleTimeString w now ->
  (now <= later)%Z ->
  (forall p t, pickups w !! PickupNotification.pickupId n = Some p ->
               Pickup.scheduledAt p = Some t -> (later <= t)%Z) ->
  n ∈ sendPickupReminders phoneOf toLocaleTimeString w later.
Proof.
  intros (id & p & driverId & phone & t & Hrow & Hst & Hdrv & Hphone &
          Hne & Hsched & Hlo & Hhi & ->)%elem_of_sendPickupReminders
         Hlater Hbefore.
  apply elem_of_sendPickupReminders.
  exists id, p, driverId, phone, t. repeat split; try (done || lia).
  by apply (Hbefore p t).
Qed.

End ReminderFacts.

Lemma driverRouteWorld_reminder now :
  (now <= 0)%Z -> (0 <= now + 900000)%Z ->
  sendPickupReminder clockFace "p1" "076123456" 0
  ∈ sendPickupReminders phoneBook clockFace driverRouteWorld now.
Proof.
  intros Hlo Hhi. apply elem_of_sendPickupReminders.
  exists "p1", (reassigned "d1" (pickupIn SCHEDULED None None)), "d1",
    "076123456", 0%Z.
  repeat split; done.
Qed.

Lemma reminder_sent_again_witness :
  sendPickupReminder clockFace "p1" "076123456" 0
  ∈ sendPickupReminders phoneBook clockFace driverRouteWorld (-300000).
Proof.
  apply (reminder_sent_again phoneBook clockFace driverRouteWorld
           (-600000) (-300000)).
  - apply driverRouteWorld_reminder; lia.
  - lia.
  - simpl. intros p t Hrow.
    change (Some (reassigned "d1" (pickupIn SCHEDULED None None)) = Some p)
      in Hrow.
    injection Hrow as <-. simpl. intros [= <-]. lia.
Defined.

(** ** Status and location of a driver *)

Lemma getDriverById_ok_inv driverId role userId w r w' :
  getDriverById driverId role userId w = (Ok r, w') ->
  w' = w /\
  exists d, drivers w !! driverId = Some d /\ r = (driverId, d) /\
            (role = DRIVER -> Driver.userId d = userId).
Proof.
  unfold getDriverById. rewrite bind_run. simpl.
  destruct (drivers w !! driverId) as [d |]; [| done]. simpl.
  destruct (bool_decide (role = DRIVER)) eqn:Hrole; simpl.
  - destruct (bool_decide (Driver.userId d = userId)) eqn:Huser; [| done].
    simpl. intros [= <- <-]. split; [done |]. exists d.
    by apply bool_decide_eq_true in Huser.
  - intros [= <- <-]. split; [done |]. exists d.
    apply bool_decide_eq_false in Hrole. done.
Qed.

Lemma getDriverById_allowed driverId role userId w d :
  drivers w !! driverId = Some d ->
  (role = DRIVER -> Driver.userId d = userId) ->
  getDriverById driverId role userId w = (Ok (driverId, d), w).
Proof.
  intros Hd Hown. unfold getDriverById. rewrite bind_run. simpl.
  rewrite Hd. simpl.
  destruct (bool_decide (role = DRIVER)) eqn:Hrole; simpl; [| done].
  apply bool_decide_eq_true in Hrole.
  by rewrite bool_decide_eq_true_2 by auto.
Qed.

Lemma getDriverById_foreign driverId userId w d :
  drivers w !! driverId = Some d -> Driver.userId d <> userId ->
  exists e, getDriverById driverId DRIVER userId w = (Throw e, w) /\
            errorKind e = NotFound.
Proof.
  intros Hd Hother. unfold getDriverById. rewrite bind_run. simpl.
  rewrite Hd. simpl. rewrite bool_decide_eq_false_2 by done. simpl.
  by eexists.
Qed.

Lemma driver_update_ok_inv id f w u w' :
  driver_update id f w = (Ok u, w') ->
  drivers w' = alter f id (drivers w) /\
  bins w' = bins w /\ pickups w' = pickups w /\ routes w' = routes w /\
  routeStops w' = routeStops w.
Proof.
  unfold driver_update. rewrite bind_run. simpl.
  destruct (drivers w !! id); [| done].
  by intros (Hb & Hd & Hp & Hr & Hrs)%commit_ok_inv.
Qed.

Lemma driver_update_healthy id f w d :
  outage w = None -> drivers w !! id = Some d ->
  driver_update id f w = (Ok tt, setDrivers (alter f id) w).
Proof.
  intros Hout Hd. unfold driver_update. rewrite bind_run. simpl. rewrite Hd.
  by apply commit_healthy.
Qed.

Lemma updateDriverStatus_ok_inv driverId statusData role userId w ack w' :
  updateDriverStatus driverId statusData role userId w = (Ok ack, w') ->
  exists d,
    drivers w !! driverId = Some d /\
    (role = DRIVER -> Driver.userId d = userId) /\
    drivers w' = <[driverId := statusData_driver statusData d]> (drivers w) /\
    bins w' = bins w /\ pickups w' = pickups w.
Proof.
  unfold updateDriverStatus.
  intros (r & w1 & Hget & H1)%bind_ok_inv.
  apply getDriverById_ok_inv in Hget as (-> & d & Hd & _ & Hown).
  apply bind_ok_inv in H1 as (u & w2 & Hupd & Hret).
  injection Hret as <- <-.
  apply driver_update_ok_inv in Hupd as (Hdrv & Hb & Hp & _).
  exists d. repeat split; try done. rewrite Hdrv.
  apply map_eq. intros id. destruct (decide (id = driverId)) as [-> | Hne].
  - by rewrite lookup_alter_eq, lookup_insert_eq, Hd.
  - by rewrite lookup_alter_ne, lookup_insert_ne.
Qed.

Lemma updateDriverLocation_ok_inv driverId locationData role userId w ack w' :
  updateDriverLocation driverId locationData role userId w = (Ok ack, w') ->
  exists d,
    drivers w !! driverId = Some d /\
    (role = DRIVER -> Driver.userId d = userId) /\
    drivers w' = <[driverId := locationData_driver locationData d]> (drivers w)
    /\ bins w' = bins w /\ pickups w' = pickups w.
Proof.
  unfold updateDriverLocation.
  intros (r & w1 & Hget & H1)%bind_ok_inv.
  apply getDriverById_ok_inv in Hget as (-> & d & Hd & _ & Hown).
  apply bind_ok_inv in H1 as (u & w2 & Hupd & Hret).
  injection Hret as <- <-.
  apply driver_update_ok_inv in Hupd as (Hdrv & Hb & Hp & _).
  exists d. repeat split; try done. rewrite Hdrv.
  apply map_eq. intros id. destruct (decide (id = driverId)) as [-> | Hne].
  - by rewrite lookup_alter_eq, lookup_insert_eq, Hd.
  - by rewrite lookup_alter_ne, lookup_insert_ne.
Qed.

Lemma updateDriverStatus_succeeds driverId statusData role userId w d :
  outage w = None -> drivers w !! driverId = Some d ->
  (role = DRIVER -> Driver.userId d = userId) ->
  updateDriverStatus driverId statusData role userId w
  = (Ok driverStatusUpdated,
     setDrivers (alter (statusData_driver statusData) driverId) w).
Proof.
  intros Hout Hd Hown. unfold updateDriverStatus.
  rewrite (bind_ok _ _ _ _ _ (getDriverById_allowed _ _ _ _ _ Hd Hown)).
  by rewrite (bind_ok _ _ _ _ _ (driver_update_healthy _ _ _ _ Hout Hd)).
Qed.

Lemma updateDriverLocation_succeeds driverId locationData role userId w d :
  outage w = None -> drivers w !! driverId = Some d ->
  (role = DRIVER -> Driver.userId d = userId) ->
  updateDriverLocation driverId locationData role userId w
  = (Ok driverLocationUpdated,
     setDrivers (alter (locationData_driver locationData) driverId) w).
Proof.
  intros Hout Hd Hown. unfold updateDriverLocation.
  rewrite (bind_ok _ _ _ _ _ (getDriverById_allowed _ _ _ _ _ Hd Hown)).
  by rewrite (bind_ok _ _ _ _ _ (driver_update_healthy _ _ _ _ Hout Hd)).
Qed.

Lemma selectable_found {rt : Runtime} w driverId lat lng :
  selectable w driverId -> is_Some (findBestAvailableDriver w lat lng).
Proof.
  intros (d & Hd & Hon & Hav & Hact & [la Hla] & [lo Hlo]).
  assert (Hin : (driverId, d, {| Geo.latitude := la; Geo.longitude := lo |})
                ∈ availableDrivers w).
  { apply elem_of_availableDrivers. by repeat split. }
  unfold findBestAvailableDriver.
  destruct (availableDrivers w) as [| first rest];
    [by apply elem_of_nil in Hin | by eexists].
Qed.

(** X21: once a driver's status has been set to anything but on line, the
    nearest-driver search never answers that driver; whether another driver
    can be selected is not affected, and no bin or pickup changes. *)
Theorem offline_driver_not_selected {rt : Runtime}
    driverId statusData role userId w ack w' :
  DriverStatusUpdate.status statusData <> ONLINE ->
  updateDriverStatus driverId statusData role userId w = (Ok ack, w') ->
  (forall lat lng, findBestAvailableDriver w' lat lng <> Some driverId) /\
  (forall other, other <> driverId ->
                 (selectable w' other <-> selectable w other)) /\
  bins w' = bins w /\ pickups w' = pickups w.
Proof.
  intros Hoff (d & Hd & _ & Hdrv & Hb & Hp)%updateDriverStatus_ok_inv.
  split; [| split; [| done]].
  - intros lat lng (d' & Hd' & Hon & _)%findBestAvailableDriver_selectable.
    rewrite Hdrv, lookup_insert_eq in Hd'. injection Hd' as <-. done.
  - intros other Hne. unfold selectable.
    by rewrite Hdrv, lookup_insert_ne.
Qed.

Lemma offline_driver_not_selected_witness :
  exists ack w',
    updateDriverStatus "d1" goOffline ADMIN "admin" oneDriverWorld
    = (Ok ack, w') /\
    forall lat lng, findBestAvailableDriver (rt := engine) w' lat lng <> Some "d1".
Proof.
  eexists _, _. split.
  - by apply (updateDriverStatus_succeeds "d1" goOffline ADMIN "admin"
                oneDriverWorld eastDriver).
  - apply (offline_driver_not_selected (rt := engine) "d1" goOffline ADMIN "admin"
             oneDriverWorld driverStatusUpdated); [done |].
    by apply (updateDriverStatus_succeeds "d1" goOffline ADMIN "admin"
                oneDriverWorld eastDriver).
Defined.

(** X22: a status update changes the status of that one driver and keeps the
    availability flag and the owner; a coordinate it carries is stored only
    when it is not zero, so a latitude or longitude of exactly 0 is dropped
    and the stored one stays. *)
Theorem status_update_drops_zero_coordinate
    driverId statusData role userId w ack w' :
  updateDriverStatus driverId statusData role userId w = (Ok ack, w') ->
  exists d d',
    drivers w !! driverId = Some d /\ drivers w' !! driverId = Some d' /\
    Driver.status d' = DriverStatusUpdate.status statusData /\
    Driver.isAvailable d' = Driver.isAvailable d /\
    Driver.userId d' = Driver.userId d /\
    Driver.currentLatitude d' =
      match DriverStatusUpdate.currentLatitude statusData with
      | Some v => if Req_dec_T v 0 then Driver.currentLatitude d else Some v
      | None => Driver.currentLatitude d
      end /\
    Driver.currentLongitude d' =
      match DriverStatusUpdate.currentLongitude statusData with
      | Some v => if Req_dec_T v 0 then Driver.currentLongitude d else Some v
      | None => Driver.currentLongitude d
      end /\
    (forall other, other <> driverId ->
                   drivers w' !! other = drivers w !! other).
Proof.
  intros (d & Hd & _ & Hdrv & _)%updateDriverStatus_ok_inv.
  exists d, (statusData_driver statusData d).
  split; [done |]. split; [by rewrite Hdrv, lookup_insert_eq |].
  split; [done |]. split; [done |]. split; [done |].
  split; [| split].
  - simpl. unfold truthy.
    destruct (DriverStatusUpdate.currentLatitude statusData) as [v |]; [| done].
    by destruct (Req_dec_T v 0).
  - simpl. unfold truthy.
    destruct (DriverStatusUpdate.currentLongitude statusData) as [v |];
      [| done].
    by destruct (Req_dec_T v 0).
  - intros other Hne. by rewrite Hdrv, lookup_insert_ne.
Qed.

Lemma status_update_drops_zero_coordinate_witness :
  exists ack w' d',
    updateDriverStatus "d1" goOffline ADMIN "admin" oneDriverWorld
    = (Ok ack, w') /\
    drivers w' !! "d1" = Some d' /\
    Driver.currentLatitude d' = Some 0%R /\
    Driver.currentLongitude d' = Some eastLongitude.
Proof.
  pose proof (updateDriverStatus_succeeds "d1" goOffline ADMIN "admin"
                oneDriverWorld eastDriver eq_refl eq_refl
                (fun H => match H with end)) as Hrun.
  destruct (status_update_drops_zero_coordinate "d1" goOffline ADMIN "admin"
              oneDriverWorld _ _ Hrun)
    as (d & d' & Hd & Hd' & _ & _ & _ & Hlat & Hlng & _).
  change (Some eastDriver = Some d) in Hd. injection Hd as <-.
  eexists _, _, d'. split; [exact Hrun |]. split; [exact Hd' |].
  simpl in Hlat, Hlng. destruct (Req_dec_T 0 0) as [_ | Hne]; [| lra].
  by split.
Defined.

(** X23: a location update stores the reported position as it is, a zero
    coordinate included, and changes nothing else of the driver; a driver
    who is on line, available and of an active account can be selected by
    the nearest-driver search afterwards, which then finds somebody for
    every bin position. *)
Theorem located_driver_can_be_selected {rt : Runtime}
    driverId locationData role userId w ack w' :
  updateDriverLocation driverId locationData role userId w = (Ok ack, w') ->
  exists d d',
    drivers w !! driverId = Some d /\ drivers w' !! driverId = Some d' /\
    Driver.currentLatitude d' = Some (Geo.latitude locationData) /\
    Driver.currentLongitude d' = Some (Geo.longitude locationData) /\
    Driver.status d' = Driver.status d /\
    Driver.isAvailable d' = Driver.isAvailable d /\
    Driver.userId d' = Driver.userId d /\
    (Driver.status d = ONLINE -> Driver.isAvailable d = true ->
     Driver.user_isActive d = true ->
     selectable w' driverId /\
     forall lat lng, is_Some (findBestAvailableDriver w' lat lng)).
Proof.
  intros (d & Hd & _ & Hdrv & _)%updateDriverLocation_ok_inv.
  exists d, (locationData_driver locationData d).
  assert (Hd' : drivers w' !! driverId
                = Some (locationData_driver locationData d))
    by (by rewrite Hdrv, lookup_insert_eq).
  repeat (split; [done |]).
  intros Hon Hav Hact.
  assert (Hsel : selectable w' driverId).
  { exists (locationData_driver locationData d). simpl. eauto 10. }
  split; [done |]. intros lat lng. by apply (selectable_found w' driverId).
Qed.

Lemma located_driver_can_be_selected_witness :
  exists ack w',
    updateDriverLocation "d1" nullIsland DRIVER "u2" oneDriverWorld
    = (Ok ack, w') /\
    (drivers w' !! "d1") ≫= Driver.currentLongitude = Some 0%R.
Proof.
  pose proof (updateDriverLocation_succeeds "d1" nullIsland DRIVER "u2"
                oneDriverWorld eastDriver eq_refl eq_refl (fun _ => eq_refl))
    as Hrun.
  destruct (located_driver_can_be_selected (rt := engine) "d1" nullIsland DRIVER "u2"
              oneDriverWorld _ _ Hrun)
    as (d & d' & _ & Hd' & _ & Hlng & _).
  eexists _, _. split; [exact Hrun |]. rewrite Hd'. exact Hlng.
Defined.

(** X24: a requester of role [DRIVER] cannot change the status or the
    location of a driver record that belongs to another user: both
    operations answer not found, as for a driver that does not exist, and
    write nothing. *)
Theorem driver_cannot_update_other
    driverId statusData locationData userId w d :
  drivers w !! driverId = Some d -> Driver.userId d <> userId ->
  (exists e, updateDriverStatus driverId statusData DRIVER userId w
             = (Throw e, w) /\ errorKind e = NotFound) /\
  (exists e, updateDriverLocation driverId locationData DRIVER userId w
             = (Throw e, w) /\ errorKind e = NotFound).
Proof.
  intros Hd Hother.
  destruct (getDriverById_foreign driverId userId w d Hd Hother)
    as (e & Hget & He).
  split; exists e; (split; [| done]).
  - unfold updateDriverStatus. by rewrite (bind_throw _ _ _ _ _ Hget).
  - unfold updateDriverLocation. by rewrite (bind_throw _ _ _ _ _ Hget).
Qed.

Lemma driver_cannot_update_other_witness :
  exists e, updateDriverLocation "d1" nullIsland DRIVER "u7" oneDriverWorld
            = (Throw e, oneDriverWorld) /\ errorKind e = NotFound.
Proof.
  apply (driver_cannot_update_other "d1" goOffline nullIsland "u7"
           oneDriverWorld eastDriver); [reflexivity | done].
Defined.

(** ** The upcoming pickups of a driver *)

Lemma insertByTime_Permutation x l : insertByTime x l ≡ₚ x :: l.
Proof.
  induction l as [| y l IH]; simpl; [done |].
  case_bool_decide; [done |]. rewrite IH. apply Permutation_swap.
Qed.

Lemma sortByTime_Permutation l : sortByTime l ≡ₚ l.
Proof.
  induction l as [| x l IH]; simpl; [done |].
  by rewrite insertByTime_Permutation, IH.
Qed.

Lemma insertByTime_Sorted x l :
  Sorted byTime l -> Sorted byTime (insertByTime x l).
Proof.
  induction 1 as [| y l Hl IH Hhd]; simpl.
  - by repeat constructor.
  - case_bool_decide as Hle.
    + constructor; [by constructor | by constructor].
    + constructor; [done |].
      destruct Hhd as [| z l Hyz]; simpl.
      * constructor. unfold byTime. lia.
      * case_bool_decide; constructor; unfold byTime in *; lia.
Qed.

Lemma sortByTime_Sorted l : Sorted byTime (sortByTime l).
Proof.
  induction l as [| x l IH]; simpl; [constructor |].
  by apply insertByTime_Sorted.
Qed.

Lemma upcomingRow_Some (endOfTomorrow : Z -> Z) w now driverId id p u :
  upcomingRow endOfTomorrow w now driverId (id, p) = Some u <->
  Pickup.driverId p = Some driverId /\
  (Pickup.status p = SCHEDULED \/ Pickup.status p = IN_PROGRESS) /\
  Pickup.scheduledAt p = Some (UpcomingPickup.scheduledAt u) /\
  (UpcomingPickup.scheduledAt u <= endOfTomorrow now)%Z /\
  UpcomingPickup.id u = id /\
  UpcomingPickup.status u = Pickup.status p /\
  UpcomingPickup.notes u = Pickup.notes p /\
  UpcomingPickup.bin u = pair (Pickup.binId p) <$> bins w !! Pickup.binId p.
Proof.
  unfold upcomingRow, activeStatus. simpl.
  destruct (Pickup.scheduledAt p) as [t |];
    [| split; [done | by intros (_ & _ & ? & _)]].
  split.
  - case_match eqn:Hc; [| done]. intros [= <-]. simpl.
    apply andb_true_iff in Hc as [Hc Hle%bool_decide_eq_true].
    apply andb_true_iff in Hc as [Hdrv%bool_decide_eq_true Hact].
    apply orb_true_iff in Hact.
    rewrite !bool_decide_eq_true in Hact. done.
  - intros (Hdrv & Hact & [= ->] & Hle & <- & Hst & Hnotes & Hbin).
    rewrite (bool_decide_eq_true_2 _ Hdrv), (bool_decide_eq_true_2 _ Hle).
    assert (Hor : bool_decide (Pickup.status p = SCHEDULED)
                  || bool_decide (Pickup.status p = IN_PROGRESS) = true).
    { apply orb_true_iff. by rewrite !bool_decide_eq_true. }
    rewrite Hor. simpl. destruct u. simpl in *. by subst.
Qed.

(** X25: the list of upcoming pickups of a driver holds exactly the pickups
    assigned to that driver that are scheduled or in progress and whose
    scheduled time is no later than the end of the next day, each once, with
    its status, time, notes and bin, in ascending order of the scheduled
    time. There is no lower bound on the time: a pickup of the past that is
    still scheduled or in progress is listed. *)
Theorem getUpcomingPickupsForDriver_spec
    (endOfTomorrow : Z -> Z) w now driverId :
  let result := getUpcomingPickupsForDriver endOfTomorrow w now driverId in
  Sorted byTime result /\
  NoDup (UpcomingPickup.id <$> result) /\
  forall u, u ∈ result <->
    exists p,
      pickups w !! UpcomingPickup.id u = Some p /\
      Pickup.driverId p = Some driverId /\
      (Pickup.status p = SCHEDULED \/ Pickup.status p = IN_PROGRESS) /\
      Pickup.scheduledAt p = Some (UpcomingPickup.scheduledAt u) /\
      (UpcomingPickup.scheduledAt u <= endOfTomorrow now)%Z /\
      UpcomingPickup.status u = Pickup.status p /\
      UpcomingPickup.notes u = Pickup.notes p /\
      UpcomingPickup.bin u = pair (Pickup.binId p) <$> bins w !! Pickup.binId p.
Proof.
  intros result. unfold result, getUpcomingPickupsForDriver.
  split; [apply sortByTime_Sorted |]. split.
  - rewrite sortByTime_Permutation.
    apply (sublist_NoDup _ (map_to_list (pickups w)).*1);
      [apply NoDup_fst_map_to_list |].
    apply sublist_omap_keys. intros [id p] u Hu.
    by apply upcomingRow_Some in Hu as (_ & _ & _ & _ & ? & _).
  - intros u. rewrite sortByTime_Permutation, list_elem_of_omap. split.
    + intros ([id p] & Hin%elem_of_map_to_list & Hu).
      apply upcomingRow_Some in Hu
        as (Hdrv & Hact & Hsched & Hle & <- & Hst & Hnotes & Hbin).
      by exists p.
    + intros (p & Hrow & Hdrv & Hact & Hsched & Hle & Hst & Hnotes & Hbin).
      exists (UpcomingPickup.id u, p). split.
      * by apply elem_of_map_to_list.
      * by apply upcomingRow_Some.
Qed.
